(** * ParaPR session supervision engine (server.py): a shallow embedding

    Python [str] values are modelled as [string], a sequence of 8-bit
    characters: the UTF-8 encoding of the text.  Slicing, prefix and
    substring tests and splitting at newlines are the same on the encoding
    as on the characters.  Whitespace ([str.strip], [\s]) and letter case
    ([str.lower], [re.IGNORECASE]) are those of Unicode, written out on the
    encoding as far as server.py can observe them.  The process-wide dicts
    [sessions] and [output_buffers] are finite maps keyed by ticket.
    External collaborators (tmux through [subprocess.run], the Azure OpenAI
    client, the websocket) are oracles of an environment record; every call
    to one of them is recorded in the world. *)

From Stdlib Require Import Ascii String NArith.
From stdpp Require Import base strings list gmap.

Local Open Scope list_scope.

(** ** Python string operations used by server.py *)
Module PyStr.

Definition nl : ascii := "010"%char.
Definition dquote : ascii := Ascii.ascii_of_nat 34.

(** the text whose UTF-8 encoding is the bytes [l] *)
Definition bytes (l : list N) : string :=
  string_of_list_ascii (Ascii.ascii_of_N <$> l).

(** the character with code point [n], for [n] up to U+FFFF: its UTF-8
    encoding in one, two or three bytes *)
Definition utf8 (n : N) : string :=
  if (n <? 0x80)%N then bytes [n]
  else if (n <? 0x800)%N then bytes [0xC0 + n / 64; 0x80 + n mod 64]%N
  else bytes [0xE0 + n / 4096; 0x80 + (n / 64) mod 64; 0x80 + n mod 64]%N.

(** [c.isspace()] on the characters below 128. *)
Definition isspace (c : ascii) : bool :=
  let n := Ascii.nat_of_ascii c in
  ((9 <=? n) && (n <=? 13)) || ((28 <=? n) && (n <=? 32)).

(** the other characters [str.isspace] holds of, which are also the other
    characters [\s] matches *)
Definition wide_spaces : list string :=
  utf8 <$> [ 0x85; 0xA0; 0x1680;
             0x2000; 0x2001; 0x2002; 0x2003; 0x2004; 0x2005; 0x2006; 0x2007;
             0x2008; 0x2009; 0x200A;
             0x2028; 0x2029; 0x202F; 0x205F; 0x3000 ]%N.

(** lower case of a character below 128 *)
Definition lower_char (c : ascii) : ascii :=
  let n := Ascii.nat_of_ascii c in
  if (65 <=? n) && (n <=? 90) then Ascii.ascii_of_nat (n + 32) else c.

Definition kelvin_sign : string := utf8 0x212A.        (* bytes 226 132 170 *)
Definition dotted_capital_i : string := utf8 0x130.    (* bytes 196 176 *)
Definition dotless_i : string := utf8 0x131.
Definition long_s : string := utf8 0x17F.
Definition dot_above : string := utf8 0x307.           (* combining dot above *)

(** [s.lower()] as far as the characters below 128 of its result go: A to Z
    become a to z, the Kelvin sign U+212A (bytes 226 132 170) becomes k and
    U+0130 (bytes 196 176) becomes i followed by U+0307. These are all the
    characters whose lower case holds a character below 128. Any other
    character is kept as it is, where [str.lower] may put another character
    above 127 in its place: the two tests of check_safety, which look for
    phrases of characters below 128 in [s.lower()], cannot tell the
    difference. *)
Fixpoint lower (s : string) : string :=
  match s with
  | EmptyString => EmptyString
  | String c s1 =>
      let plain := String (lower_char c) (lower s1) in
      if decide (Ascii.nat_of_ascii c = 196) then
        match s1 with
        | String c2 s2 =>
            if decide (Ascii.nat_of_ascii c2 = 176)
            then String "i" dot_above +:+ lower s2
            else plain
        | EmptyString => plain
        end
      else if decide (Ascii.nat_of_ascii c = 226) then
        match s1 with
        | String c2 (String c3 s3) =>
            if decide (Ascii.nat_of_ascii c2 = 132 /\ Ascii.nat_of_ascii c3 = 170)
            then String "k" (lower s3)
            else plain
        | _ => plain
        end
      else plain
  end.

(** [s.startswith(p)] *)
Fixpoint startswith (s p : string) : bool :=
  match p, s with
  | EmptyString, _ => true
  | String _ _, EmptyString => false
  | String a p', String b s' => if decide (a = b) then startswith s' p' else false
  end.

(** [p in s] *)
Fixpoint contains (p s : string) : bool :=
  startswith s p ||
  match s with
  | EmptyString => false
  | String _ s' => contains p s'
  end.

(** [s[n:]] for [n >= 0] *)
Fixpoint slice_from (n : nat) (s : string) : string :=
  match n, s with
  | O, _ => s
  | S _, EmptyString => EmptyString
  | S n', String _ s' => slice_from n' s'
  end.

(** [s.split("\n")]: never empty, one more field than there are newlines. *)
Fixpoint split_nl (s : string) : list string :=
  match s with
  | EmptyString => [EmptyString]
  | String c s' =>
      if decide (c = nl) then EmptyString :: split_nl s'
      else match split_nl s' with
           | [] => [String c EmptyString]
           | h :: t => String c h :: t
           end
  end.

(** ["\n".join(l)] *)
Fixpoint join_nl (l : list string) : string :=
  match l with
  | [] => EmptyString
  | [x] => x
  | x :: l' => x +:+ String nl (join_nl l')
  end.

(** the number of bytes of the whitespace character [s] starts with, when it
    starts with one; [wide] lists the whitespace characters above 127 *)
Definition leading_space (wide : list string) (s : string) : option nat :=
  match s with
  | EmptyString => None
  | String c _ =>
      if isspace c then Some 1
      else String.length <$> List.find (startswith s) wide
  end.

Fixpoint drop_spaces (wide : list string) (fuel : nat) (s : string) : string :=
  match fuel with
  | O => s
  | S fuel' =>
      match leading_space wide s with
      | Some n => drop_spaces wide fuel' (slice_from n s)
      | None => s
      end
  end.

Definition reversed (s : string) : string :=
  string_of_list_ascii (List.rev (list_ascii_of_string s)).

Definition lstrip (s : string) : string :=
  drop_spaces wide_spaces (String.length s) s.

Definition rstrip (s : string) : string :=
  reversed (drop_spaces (reversed <$> wide_spaces) (String.length s) (reversed s)).

(** [s.strip()] *)
Definition strip (s : string) : string := rstrip (lstrip s).

(** truth value of a [str]: non-empty *)
Definition truthy (s : string) : bool :=
  match s with EmptyString => false | _ => true end.

(** [l[-n:]] for [n > 0]: the last [n] items, all of them if there are fewer. *)
Definition last_n {A} (n : nat) (l : list A) : list A :=
  drop (length l - n) l.

(** [s] with its letters A to Z made small and every other byte kept *)
Fixpoint small_letters (s : string) : string :=
  match s with
  | EmptyString => EmptyString
  | String c s' => String (lower_char c) (small_letters s')
  end.

(** every byte of [s] satisfies [f] *)
Fixpoint all_bytes (f : ascii -> bool) (s : string) : bool :=
  match s with
  | EmptyString => true
  | String c s' => f c && all_bytes f s'
  end.

(** a byte below 128 is a character; a byte above 127 is part of one *)
Definition below_128 (c : ascii) : bool := Ascii.nat_of_ascii c <? 128.
Definition above_127 (c : ascii) : bool := negb (below_128 c).

Definition b196 : ascii := Ascii.ascii_of_nat 196.
Definition b226 : ascii := Ascii.ascii_of_nat 226.

End PyStr.

(** ** The fragment of Python's [re] the two pattern tables use *)
Module Re.

Inductive regex : Type :=
| Void                      (* matches nothing; only arises from derivatives *)
| Eps
| Chr (c : ascii)           (* a literal character, escaped or not *)
| Space                     (* \s *)
| Alt (r1 r2 : regex)       (* r1|r2 *)
| Cat (r1 r2 : regex)
| Star (r : regex).         (* r* *)

(** a literal run of characters *)
Fixpoint lit (s : string) : regex :=
  match s with
  | EmptyString => Eps
  | String c EmptyString => Chr c
  | String c s' => Cat (Chr c) (lit s')
  end.

Fixpoint alts (l : list regex) : regex :=
  match l with
  | [] => Void
  | [r] => r
  | r :: l' => Alt r (alts l')
  end.

Fixpoint cats (l : list regex) : regex :=
  match l with
  | [] => Eps
  | [r] => r
  | r :: l' => Cat r (cats l')
  end.

Fixpoint nullable (r : regex) : bool :=
  match r with
  | Void | Chr _ | Space => false
  | Eps | Star _ => true
  | Alt r1 r2 => nullable r1 || nullable r2
  | Cat r1 r2 => nullable r1 && nullable r2
  end.

(** does the one-byte input character [a] match pattern character [c];
    [ic] is re.IGNORECASE *)
Definition chr_matches (ic : bool) (c a : ascii) : bool :=
  if ic then bool_decide (PyStr.lower_char c = PyStr.lower_char a)
  else bool_decide (c = a).

(** the characters above 127 that pattern character [c] matches under
    re.IGNORECASE: the letter i also matches U+0130 and U+0131, s matches
    U+017F and k matches U+212A.  The patterns matched with re.IGNORECASE
    hold characters below 128 only. *)
Definition wide_variants (ic : bool) (c : ascii) : list string :=
  if ic then
    let l := PyStr.lower_char c in
    if decide (l = "i"%char) then [PyStr.dotted_capital_i; PyStr.dotless_i]
    else if decide (l = "s"%char) then [PyStr.long_s]
    else if decide (l = "k"%char) then [PyStr.kelvin_sign]
    else []
  else [].

(** what is left to read of the characters of [l] that start with byte [a] *)
Definition after_byte (a : ascii) (l : list string) : list regex :=
  omap (fun w => match w with
                 | String b rest => if decide (b = a) then Some (lit rest) else None
                 | EmptyString => None
                 end) l.

Definition alt (r1 r2 : regex) : regex :=
  match r1, r2 with
  | Void, _ => r2
  | _, Void => r1
  | _, _ => Alt r1 r2
  end.

Definition cat (r1 r2 : regex) : regex :=
  match r1, r2 with
  | Void, _ | _, Void => Void
  | Eps, _ => r2
  | _, _ => Cat r1 r2
  end.

(** the residual of [r] after reading [a] *)
Fixpoint deriv (ic : bool) (a : ascii) (r : regex) : regex :=
  match r with
  | Void | Eps => Void
  | Chr c =>
      alt (if chr_matches ic c a then Eps else Void)
          (alts (after_byte a (wide_variants ic c)))
  | Space =>
      alt (if PyStr.isspace a then Eps else Void)
          (alts (after_byte a PyStr.wide_spaces))
  | Alt r1 r2 => alt (deriv ic a r1) (deriv ic a r2)
  | Cat r1 r2 =>
      if nullable r1
      then alt (cat (deriv ic a r1) r2) (deriv ic a r2)
      else cat (deriv ic a r1) r2
  | Star r1 => cat (deriv ic a r1) (Star r1)
  end.

(** [re.match(r, s)]: some prefix of [s] matches [r] *)
Fixpoint match_ (ic : bool) (r : regex) (s : string) : bool :=
  nullable r ||
  match s with
  | EmptyString => false
  | String a s' => match_ ic (deriv ic a r) s'
  end.

(** [re.search(r, s)] as a truth value: a match starts somewhere in [s] *)
Fixpoint search (ic : bool) (r : regex) (s : string) : bool :=
  match_ ic r s ||
  match s with
  | EmptyString => false
  | String _ s' => search ic r s'
  end.

End Re.

Import Re.

(** Regex patterns for permission prompts (auto-acceptable) *)
Definition PERMISSION_PATTERNS : list regex :=
  [ lit "Do you want to proceed?"                                   (* Do you want to proceed\? *)
  ; cats [lit "❯"; Star Space; lit "1."; Star Space; lit "Yes"]     (* ❯\s*1\.\s*Yes *)
  ; lit "Yes, and don't ask again"
  ; lit "Allow this action?"                                        (* Allow this action\? *)
  ; lit "Proceed with this"
  ; lit "[Y/n]"                                                     (* \[Y/n\] *)
  ; lit "(y/N)"                                                     (* \(y/N\) *)
  ; lit "Press Enter to continue" ].

(** Patterns that indicate human decision is needed *)
Definition HUMAN_NEEDED_PATTERNS : list regex :=
  [ lit "Type here to tell Claude"
  ; cats [lit "3."; Star Space; lit "Type here"]                    (* 3\.\s*Type here *)
  ; Cat (lit "which ")
        (alts [lit "approach"; lit "option"; lit "method"; lit "one"])
  ; cats [alts [lit "choose"; lit "select"; lit "pick"]; Chr " ";
          alts [lit "one"; lit "between"; lit "from"]]
  ; lit "What should"
  ; lit "How would you like"
  ; lit "Do you want me to"
  ; lit "Should I"
  ; Cat (lit "multiple ")
        (alts [lit "options"; lit "approaches"; lit "ways"]) ].

(** Detect if Claude is showing a Yes/No permission prompt. *)
Definition is_permission_prompt (output : string) : bool :=
  existsb (fun p => search false p output) PERMISSION_PATTERNS.

(** Detect if human input is actually needed (not just permission). *)
Definition needs_human_decision (output : string) : bool :=
  existsb (fun p => search true p output) HUMAN_NEEDED_PATTERNS.

(** ** Data model *)

Module SessionState.
Inductive t : Set :=
| STARTING | SPECIFY | CLARIFY_NEEDED | PLANNING | PLAN_REVIEW
| TASKING | IMPLEMENTING | DONE | ERROR.
End SessionState.

Module ClaudeMode.
Inductive t : Set := PLANNING | AUTO_ACCEPT.

Global Instance eq_dec : EqDecision t.
Proof. solve_decision. Defined.
End ClaudeMode.

Record SessionStatus : Type := mkSessionStatus {
  ticket : string;
  state : SessionState.t;
  message : option string;
  updated_at : Z;
  linear_pulled : bool;
  specify_done : bool;
  clarify_done : bool;
  plan_done : bool;
  tasks_done : bool;
  implement_done : bool;
  auto_accept : bool;
  needs_attention : bool;
  linear_title : string;
  linear_description : string;
  in_grid : bool;
  claude_mode : ClaudeMode.t
}.

Record SafetyCheckResponse : Type := mkSafetyCheckResponse {
  needs_clarification : bool;
  safe_to_continue : bool;
  reason : string
}.

(** the JSON object [stream_output] pushes to its websocket *)
Record OutputEvent : Type := mkOutputEvent {
  ev_type : string;
  ev_ticket : string;
  ev_content : string;
  ev_needs_attention : bool;
  ev_auto_accepted : bool
}.

(** the handle [init_llm_client] builds when the credentials are set *)
Record AzureClient : Type := mkAzureClient {
  azure_endpoint : string;
  api_key : string;
  api_version : string
}.

(** ** External collaborators *)

(** what [subprocess.run] did: a completed process, or an exception
    (TimeoutExpired, OSError) *)
Inductive ProcOutcome : Type :=
| Completed (returncode : Z) (stdout stderr : string)
| ProcRaised (msg : string).

(** what [llm_client.chat.completions.create] did: the [message.content] of
    each choice of the response, or an exception *)
Inductive ChatOutcome : Type :=
| ChatReturned (choices : list (option string))
| ChatRaised (msg : string).

Inductive SendOutcome : Type :=
| Sent
| SendDisconnected            (* raises WebSocketDisconnect *)
| SendRaised (msg : string).  (* raises another Exception *)

(** every call that leaves the process *)
Inductive Call : Type :=
| SubprocessRun (argv : list string)
| ChatCreate (model : string) (messages : list (string * string))
| WsSendJson (ev : OutputEvent).

(** The oracles answer by the number of calls issued before, so that two
    calls with equal arguments may be answered differently. *)
Record Env : Type := mkEnv {
  (** [datetime.now()] when the class body of SessionStatus was evaluated *)
  class_time : Z;
  subprocess_run : nat -> list string -> ProcOutcome;
  (** [str(e)] of the CalledProcessError that [check=True] raises for a
      command and its exit status *)
  called_process_error : list string -> Z -> string;
  chat_create : nat -> list (string * string) -> ChatOutcome;
  (** [json.loads] followed by the SafetyCheckResponse constructor on the
      parsed object: the validated model, or the message of the exception
      either of them raised *)
  load_safety_response : string -> string + SafetyCheckResponse;
  ws_send_json : nat -> OutputEvent -> SendOutcome;
  (** [script_path.exists()] for spawn-sessions.sh *)
  spawn_script_exists : bool
}.

Inductive exn : Type :=
| WebSocketDisconnect
| Exception (msg : string).

Definition exn_str (e : exn) : string :=
  match e with
  | WebSocketDisconnect => ""
  | Exception msg => msg
  end.

Record World : Type := mkWorld {
  sessions : gmap string SessionStatus;
  output_buffers : gmap string (list string);
  llm_client : option AzureClient;
  (** calls issued so far, oldest first *)
  calls : list Call
}.

(** ** State and exception monad *)

Inductive result (A : Type) : Type :=
| Ok (a : A)
| Raise (e : exn).
Arguments Ok {A} a.
Arguments Raise {A} e.

Definition M (A : Type) : Type := World -> result A * World.

Global Instance M_ret : MRet M := fun A a w => (Ok a, w).
Global Instance M_bind : MBind M := fun A B f m w =>
  match m w with
  | (Ok a, w') => f a w'
  | (Raise e, w') => (Raise e, w')
  end.

Definition raise {A} (e : exn) : M A := fun w => (Raise e, w).

(** [try: body  except Exception as e: handler e]; every exception of the
    model is an [Exception] *)
Definition try_except {A} (body : M A) (handler : exn -> M A) : M A :=
  fun w =>
    match body w with
    | (Ok a, w') => (Ok a, w')
    | (Raise e, w') => handler e w'
    end.

Definition gets {A} (f : World -> A) : M A := fun w => (Ok (f w), w).
Definition modify (f : World -> World) : M unit := fun w => (Ok tt, f w).

Definition set_sessions (f : gmap string SessionStatus -> gmap string SessionStatus)
    (w : World) : World :=
  mkWorld (f (sessions w)) (output_buffers w) (llm_client w) (calls w).

Definition set_output_buffers (f : gmap string (list string) -> gmap string (list string))
    (w : World) : World :=
  mkWorld (sessions w) (f (output_buffers w)) (llm_client w) (calls w).

Definition log_call (c : Call) (w : World) : World :=
  mkWorld (sessions w) (output_buffers w) (llm_client w) (calls w ++ [c]).

Definition MAX_BUFFER_LINES : nat := 200.

Definition quoted (s : string) : string :=
  String PyStr.dquote (s +:+ String PyStr.dquote "").

Definition SAFETY_CHECK_PROMPT : string :=
  PyStr.join_nl
  [ "You are a safety monitor for Claude Code sessions running in parallel."
  ; "Your job is to determine if a permission prompt can be auto-accepted or needs human attention."
  ; ""
  ; "## NEEDS_CLARIFICATION = True (REQUIRES HUMAN)"
  ; "- Design decisions or architectural choices (" +:+ quoted "which approach" +:+ ", "
      +:+ quoted "how should we" +:+ ")"
  ; "- Multiple implementation options presented for selection"
  ; "- Requirements clarification needed"
  ; "- Questions about business logic or domain knowledge"
  ; "- " +:+ quoted "Type here to tell Claude" +:+ " option is shown"
  ; "- Any open-ended question requiring human judgment"
  ; ""
  ; "## NEEDS_CLARIFICATION = False (CAN AUTO-ACCEPT)"
  ; "- Simple Yes/No permission to run a command"
  ; "- Permission to read files (cat, head, tail, read)"
  ; "- Permission to search code (grep, glob, find)"
  ; "- Permission to run linearis/linear commands"
  ; "- Permission to run tests, linters, type checks"
  ; "- Permission to create/edit source code files"
  ; "- Permission to run git status, diff, log, branch"
  ; ""
  ; "## SAFE_TO_CONTINUE = False (DANGEROUS - BLOCK)"
  ; "- DELETE operations: rm, rm -rf, unlink, rmdir"
  ; "- Database drops: DROP TABLE, DROP DATABASE, TRUNCATE"
  ; "- Git force operations: push --force, push -f, reset --hard"
  ; "- Production/secrets: .env files, credentials, API keys"
  ; "- System files: /etc, /usr, ~/.ssh, ~/.config"
  ; ""
  ; "## SAFE_TO_CONTINUE = True (SAFE)"
  ; "- All read operations"
  ; "- All search operations"
  ; "- Creating new files"
  ; "- Editing existing code"
  ; "- Running tests"
  ; "- Normal git operations (commit, push, pull, branch)"
  ; "- Package install (npm install, pip install)"
  ; ""
  ; "Return JSON: {" +:+ quoted "needs_clarification" +:+ ": bool, "
      +:+ quoted "safe_to_continue" +:+ ": bool, "
      +:+ quoted "reason" +:+ ": " +:+ quoted "brief explanation" +:+ "}" ].

(** the two tests of the pattern-matching fallback *)
Definition fallback_needs_clarification (output : string) : bool :=
  PyStr.contains "?" output || PyStr.contains "would you like" (PyStr.lower output).

Definition DANGEROUS_SUBSTRINGS : list string :=
  ["delete"; "rm -rf"; "force push"; "drop table"].

Definition dangerous (output : string) : bool :=
  existsb (fun p => PyStr.contains p (PyStr.lower output)) DANGEROUS_SUBSTRINGS.

(** ** Attribute writes on a session record *)

Definition set_needs_attention (v : bool) (s : SessionStatus) : SessionStatus :=
  mkSessionStatus (ticket s) (state s) (message s) (updated_at s)
    (linear_pulled s) (specify_done s) (clarify_done s) (plan_done s) (tasks_done s)
    (implement_done s) (auto_accept s) v (linear_title s) (linear_description s)
    (in_grid s) (claude_mode s).

Definition set_auto_accept (v : bool) (s : SessionStatus) : SessionStatus :=
  mkSessionStatus (ticket s) (state s) (message s) (updated_at s)
    (linear_pulled s) (specify_done s) (clarify_done s) (plan_done s) (tasks_done s)
    (implement_done s) v (needs_attention s) (linear_title s) (linear_description s)
    (in_grid s) (claude_mode s).

Definition set_mode (v : ClaudeMode.t) (s : SessionStatus) : SessionStatus :=
  mkSessionStatus (ticket s) (state s) (message s) (updated_at s)
    (linear_pulled s) (specify_done s) (clarify_done s) (plan_done s) (tasks_done s)
    (implement_done s) (auto_accept s) (needs_attention s) (linear_title s)
    (linear_description s) (in_grid s) v.

Definition set_linear_title (v : string) (s : SessionStatus) : SessionStatus :=
  mkSessionStatus (ticket s) (state s) (message s) (updated_at s)
    (linear_pulled s) (specify_done s) (clarify_done s) (plan_done s) (tasks_done s)
    (implement_done s) (auto_accept s) (needs_attention s) v (linear_description s)
    (in_grid s) (claude_mode s).

Definition set_linear_description (v : string) (s : SessionStatus) : SessionStatus :=
  mkSessionStatus (ticket s) (state s) (message s) (updated_at s)
    (linear_pulled s) (specify_done s) (clarify_done s) (plan_done s) (tasks_done s)
    (implement_done s) (auto_accept s) (needs_attention s) (linear_title s) v
    (in_grid s) (claude_mode s).

(** the six stage-completion flags, in declaration order *)
Definition stage_flags (s : SessionStatus) : list bool :=
  [linear_pulled s; specify_done s; clarify_done s; plan_done s; tasks_done s;
   implement_done s].

(** [setattr(s, attr, v)] for the attribute names [stage_map] holds *)
Definition setattr (s : SessionStatus) (attr : string) (v : bool) : SessionStatus :=
  let f (name : string) (old : bool) := if decide (attr = name) then v else old in
  mkSessionStatus (ticket s) (state s) (message s) (updated_at s)
    (f "linear_pulled" (linear_pulled s)) (f "specify_done" (specify_done s))
    (f "clarify_done" (clarify_done s)) (f "plan_done" (plan_done s))
    (f "tasks_done" (tasks_done s)) (f "implement_done" (implement_done s))
    (auto_accept s) (needs_attention s) (linear_title s) (linear_description s)
    (in_grid s) (claude_mode s).

Definition stage_map : gmap string string :=
  list_to_map
    [ ("linear", "linear_pulled")
    ; ("specify", "specify_done")
    ; ("clarify", "clarify_done")
    ; ("plan", "plan_done")
    ; ("tasks", "tasks_done")
    ; ("implement", "implement_done") ].

(** the values of the dicts the endpoints return *)
Inductive json : Type :=
| JNull
| JBool (b : bool)
| JStr (s : string)
| JStrs (l : list string).

(** what one pass through the body of [while True] decides *)
Inductive loop_ctl : Type :=
| Break
| Continue (last_output : string).

(** ** The engine *)
Section Server.

Variable E : Env.

(** [SessionStatus(ticket=t)] *)
Definition SessionStatus_new (t : string) : SessionStatus :=
  {| ticket := t; state := SessionState.STARTING; message := None;
     updated_at := class_time E;
     linear_pulled := false; specify_done := false; clarify_done := false;
     plan_done := false; tasks_done := false; implement_done := false;
     auto_accept := false; needs_attention := false;
     linear_title := ""; linear_description := "";
     in_grid := false; claude_mode := ClaudeMode.PLANNING |}.

(** one call of [subprocess.run], answered by the environment and logged *)
Definition call_subprocess (argv : list string) : M ProcOutcome :=
  fun w => (Ok (subprocess_run E (length (calls w)) argv),
            log_call (SubprocessRun argv) w).

(** [subprocess.run(argv, check=True, timeout=5)] *)
Definition run_checked (argv : list string) : M unit :=
  r ← call_subprocess argv;
  match r with
  | Completed rc _ _ =>
      if decide (rc = 0%Z) then mret tt
      else raise (Exception (called_process_error E argv rc))
  | ProcRaised msg => raise (Exception msg)
  end.

(** [subprocess.run(argv, capture_output=True, text=True, timeout=5)] *)
Definition run_capture (argv : list string) : M (Z * string) :=
  r ← call_subprocess argv;
  match r with
  | Completed rc out _ => mret (rc, out)
  | ProcRaised msg => raise (Exception msg)
  end.

Definition chat_completions_create (model : string)
    (messages : list (string * string)) : M (list (option string)) :=
  fun w =>
    let w' := log_call (ChatCreate model messages) w in
    match chat_create E (length (calls w)) messages with
    | ChatReturned choices => (Ok choices, w')
    | ChatRaised msg => (Raise (Exception msg), w')
    end.

Definition websocket_send_json (ev : OutputEvent) : M unit :=
  fun w =>
    let w' := log_call (WsSendJson ev) w in
    match ws_send_json E (length (calls w)) ev with
    | Sent => (Ok tt, w')
    | SendDisconnected => (Raise WebSocketDisconnect, w')
    | SendRaised msg => (Raise (Exception msg), w')
    end.

(** [content or "{}"] *)
Definition content_or_default (content : option string) : string :=
  match content with
  | Some t => if PyStr.truthy t then t else "{}"
  | None => "{}"
  end.

(** [response.choices[0].message.content or "{}"] *)
Definition first_content (choices : list (option string)) : M string :=
  match choices with
  | [] => raise (Exception "list index out of range")
  | c :: _ => mret (content_or_default c)
  end.

(** the f-string of the user message *)
Definition user_message (ticket context output : string) : string :=
  "Session: " +:+ ticket +:+ String PyStr.nl "Context:" +:+ String PyStr.nl context
  +:+ String PyStr.nl (String PyStr.nl "Latest output:") +:+ String PyStr.nl output.

(** the messages check_safety submits, built from the last 50 buffered lines *)
Definition safety_messages (bufs : gmap string (list string))
    (ticket output : string) : list (string * string) :=
  let context := PyStr.join_nl (PyStr.last_n 50 (default [] (bufs !! ticket))) in
  [ ("system", SAFETY_CHECK_PROMPT); ("user", user_message ticket context output) ].

(** the [try] block of check_safety *)
Definition ask_llm (ticket : string) (output : string) : M SafetyCheckResponse :=
  bufs ← gets output_buffers;
  choices ← chat_completions_create "gpt-4o" (safety_messages bufs ticket output);
  text ← first_content choices;
  match load_safety_response E text with
  | inl msg => raise (Exception msg)
  | inr r => mret r
  end.

(** Use the LLM to analyze if output needs attention. *)
Definition check_safety (ticket : string) (output : string) : M SafetyCheckResponse :=
  client ← gets llm_client;
  match client with
  | None =>
      (* Fallback to simple pattern matching *)
      mret {| needs_clarification := fallback_needs_clarification output;
              safe_to_continue := negb (dangerous output);
              reason := "Pattern match (no LLM configured)" |}
  | Some _ =>
      try_except (ask_llm ticket output)
        (fun e =>
           (* Fallback to pattern matching on error *)
           mret {| needs_clarification := fallback_needs_clarification output;
                   safe_to_continue := true;
                   reason := "Safety check failed: " +:+ exn_str e |})
  end.

Definition send_keys (ticket : string) (keys : list string) : list string :=
  ["tmux"; "send-keys"; "-t"; ticket] ++ keys.

(** Auto-accept permission prompts if session has auto_accept enabled and
    it's safe. *)
Definition auto_accept_if_safe (ticket : string) (output : string) : M bool :=
  ss ← gets sessions;
  match ss !! ticket with
  | None => mret false
  | Some s =>
      if negb (auto_accept s) then mret false
      else if negb (is_permission_prompt output) then mret false
      else if needs_human_decision output then mret false
      else
        safety ← check_safety ticket output;
        if safe_to_continue safety && negb (needs_clarification safety) then
          try_except
            (run_checked (send_keys ticket ["C-u"]);;
             (* time.sleep(0.1) *)
             run_checked (send_keys ticket ["-l"; "1"]);;
             run_checked (send_keys ticket ["Enter"]);;
             mret true)
            (fun _ => mret false)
        else mret false
  end.

(** [new_content] of stream_output *)
Definition new_content_of (last_output current_output : string) : string :=
  if PyStr.startswith current_output last_output
  then PyStr.slice_from (String.length last_output) current_output
  else current_output.

(** the buffer after [extend] and the slice to the last MAX_BUFFER_LINES *)
Definition buffer_append (buf : list string) (new_content : string) : list string :=
  PyStr.last_n MAX_BUFFER_LINES (buf ++ PyStr.split_nl new_content).

Definition update_attention (ticket : string) (v : bool) : M unit :=
  modify (set_sessions (fun ss =>
    match ss !! ticket with
    | Some s => <[ticket := set_needs_attention v s]> ss
    | None => ss
    end)).

(** what stream_output does with a non-blank [new_content] *)
Definition handle_new_content (ticket current_output new_content : string) : M unit :=
  (* Update buffer *)
  modify (set_output_buffers (fun bufs =>
    <[ticket := buffer_append (default [] (bufs !! ticket)) new_content]> bufs));;
  (* Check for permission prompts and auto-accept if enabled *)
  auto_accepted ← auto_accept_if_safe ticket current_output;
  (* Check if needs attention (only if not auto-accepted) *)
  (if negb auto_accepted then
     safety ← check_safety ticket new_content;
     update_attention ticket (needs_clarification safety)
   else update_attention ticket false);;
  (* Send to WebSocket *)
  ss ← gets sessions;
  websocket_send_json
    {| ev_type := "output"; ev_ticket := ticket; ev_content := new_content;
       ev_needs_attention :=
         needs_attention (default (SessionStatus_new ticket) (ss !! ticket));
       ev_auto_accepted := auto_accepted |}.

(** the [try] block of one pass of the loop of stream_output *)
Definition stream_output_try (ticket last_output : string) : M loop_ctl :=
  '(returncode, current_output) ←
    run_capture ["tmux"; "capture-pane"; "-t"; ticket; "-p"; "-S"; "-100"];
  if negb (bool_decide (returncode = 0%Z)) then mret Break
  else if negb (bool_decide (current_output = last_output)) then
    let new_content := new_content_of last_output current_output in
    (if PyStr.truthy (PyStr.strip new_content)
     then handle_new_content ticket current_output new_content
     else mret tt);;
    mret (Continue current_output)
    (* await asyncio.sleep(0.3) *)
  else mret (Continue last_output).

(** one pass of the loop: WebSocketDisconnect leaves the loop, any other
    exception is swallowed and the loop goes on with [last_output] as it was *)
Definition stream_output_step (ticket last_output : string) : M loop_ctl :=
  try_except (stream_output_try ticket last_output)
    (fun e => match e with
              | WebSocketDisconnect => mret Break
              | Exception _ => mret (Continue last_output)
              end).

(** [stream_output] for at most [fuel] passes; [None] when passes remain *)
Fixpoint stream_output (fuel : nat) (ticket last_output : string) : M (option unit) :=
  match fuel with
  | O => mret None
  | S fuel' =>
      c ← stream_output_step ticket last_output;
      match c with
      | Break => mret (Some tt)
      | Continue last_output' => stream_output fuel' ticket last_output'
      end
  end.

(** ** Registry operations *)

Definition ensure_session (ticket : string) : M unit :=
  modify (set_sessions (fun ss =>
    match ss !! ticket with
    | Some _ => ss
    | None => <[ticket := SessionStatus_new ticket]> ss
    end)).

(** sessions[ticket].attr = ..., for a ticket known to be present *)
Definition write_session (ticket : string) (f : SessionStatus -> SessionStatus) : M unit :=
  ss ← gets sessions;
  match ss !! ticket with
  | Some s => modify (set_sessions <[ticket := f s]>)
  | None => raise (Exception "KeyError")
  end.

(** Update workflow stage. *)
Definition update_stage (ticket stage : string) (done : bool) : M (list (string * json)) :=
  ensure_session ticket;;
  match stage_map !! stage with
  | Some attr => write_session ticket (fun s => setattr s attr done)
  | None => mret tt
  end;;
  mret [("ok", JBool true)].

(** Store Linear ticket info. *)
Definition set_linear_info (ticket title description : string) : M (list (string * json)) :=
  ensure_session ticket;;
  write_session ticket (set_linear_title title);;
  write_session ticket (set_linear_description description);;
  mret [("ok", JBool true)].

(** Switch auto-accept mode (server-side only, no tmux commands). *)
Definition set_claude_mode (ticket mode : string) : M (list (string * json)) :=
  ensure_session ticket;;
  (if decide (mode = "auto_accept") then
     write_session ticket (set_mode ClaudeMode.AUTO_ACCEPT);;
     write_session ticket (set_auto_accept true)
   else
     write_session ticket (set_mode ClaudeMode.PLANNING);;
     write_session ticket (set_auto_accept false));;
  mret [("ok", JBool true); ("mode", JStr mode)].

(** Initialize session state for each ticket *)
Fixpoint init_sessions (tickets : list string) : M unit :=
  match tickets with
  | [] => mret tt
  | t :: rest =>
      ss ← gets sessions;
      (if bool_decide (is_Some (ss !! t)) then mret tt
       else modify (set_sessions <[t := SessionStatus_new t]>);;
            modify (set_output_buffers <[t := []]>));;
      init_sessions rest
  end.

(** Start Claude Code sessions using spawn-sessions.sh. *)
Definition start_session (tickets : list string) : M (list (string * json)) :=
  if negb (spawn_script_exists E) then
    mret [("ok", JBool false); ("error", JStr "spawn-sessions.sh not found")]
  else
    (* argv[0] is the script's path next to server.py *)
    r ← call_subprocess ("spawn-sessions.sh" :: tickets);
    match r with
    | ProcRaised msg => raise (Exception msg)
    | Completed rc out err =>
        init_sessions tickets;;
        mret [("ok", JBool (bool_decide (rc = 0%Z))); ("tickets", JStrs tickets);
              ("output", JStr out);
              ("error", if bool_decide (rc = 0%Z) then JNull else JStr err)]
    end.

End Server.

(** the accept sequence of auto_accept_if_safe *)
Definition accept_calls (ticket : string) : list Call :=
  [ SubprocessRun (send_keys ticket ["C-u"])
  ; SubprocessRun (send_keys ticket ["-l"; "1"])
  ; SubprocessRun (send_keys ticket ["Enter"]) ].

Definition add_calls (cs : list Call) (w : World) : World :=
  mkWorld (sessions w) (output_buffers w) (llm_client w) (calls w ++ cs).

(** the TerminalAdapter calls among the logged ones *)
Definition adapter_calls (cs : list Call) : list (list string) :=
  omap (fun c => match c with SubprocessRun argv => Some argv | _ => None end) cs.

(** ** Specification vocabulary *)

(** [R] relates every world to the world [m] leaves behind, whether [m]
    returns or raises *)
Definition post {A} (m : M A) (R : World -> World -> Prop) : Prop :=
  forall w, R w (m w).2.

(** only calls were issued: the registries and the client are as before *)
Definition only_calls (w w' : World) : Prop :=
  sessions w' = sessions w /\ output_buffers w' = output_buffers w /\
  llm_client w' = llm_client w /\ exists cs, calls w' = calls w ++ cs.

Definition buffers_bounded (w : World) : Prop :=
  forall t b, output_buffers w !! t = Some b -> length b <= MAX_BUFFER_LINES.

Definition keeps_bound (w w' : World) : Prop :=
  buffers_bounded w -> buffers_bounded w'.

(** no flag that is set gets cleared *)
Definition flags_le (old new : list bool) : Prop :=
  length old = length new /\
  forall i, old !! i = Some true -> new !! i = Some true.

(** every record stays, with its six stage flags as they were *)
Definition keeps_flags (w w' : World) : Prop :=
  forall t s, sessions w !! t = Some s ->
    exists s', sessions w' !! t = Some s' /\ stage_flags s' = stage_flags s.

Definition capture_argv (ticket : string) : list string :=
  ["tmux"; "capture-pane"; "-t"; ticket; "-p"; "-S"; "-100"].

(** some flag may be set, none is cleared *)
Definition grows_flags (w w' : World) : Prop :=
  forall t s, sessions w !! t = Some s ->
    exists s', sessions w' !! t = Some s' /\ flags_le (stage_flags s) (stage_flags s').

(** the attribute names of the six flags, in the order of [stage_flags] *)
Definition stage_attrs : list string :=
  ["linear_pulled"; "specify_done"; "clarify_done"; "plan_done"; "tasks_done";
   "implement_done"].

(** the operations of the model that write to the registries *)
Inductive Request : Type :=
| ReqUpdateStage (ticket stage : string) (done : bool)
| ReqSetLinearInfo (ticket title description : string)
| ReqSetMode (ticket mode : string)
| ReqStart (tickets : list string)
| ReqPoll (ticket last_output : string).

Definition serve (E : Env) (r : Request) : M unit :=
  match r with
  | ReqUpdateStage t stage done => update_stage E t stage done;; mret tt
  | ReqSetLinearInfo t title description => set_linear_info E t title description;; mret tt
  | ReqSetMode t mode => set_claude_mode E t mode;; mret tt
  | ReqStart tickets => start_session E tickets;; mret tt
  | ReqPoll t last => stream_output_step E t last;; mret tt
  end.

(** the three ways a configured service fails, on the reply to the one call
    check_safety makes: the call raises; the response has no choice; the
    content of the first choice does not load as a SafetyCheckResponse *)
Inductive service_failure (E : Env) (ticket output : string) (w : World) : exn -> Prop :=
| transport_error msg :
    chat_create E (length (calls w)) (safety_messages (output_buffers w) ticket output)
      = ChatRaised msg ->
    service_failure E ticket output w (Exception msg)
| no_choice :
    chat_create E (length (calls w)) (safety_messages (output_buffers w) ticket output)
      = ChatReturned [] ->
    service_failure E ticket output w (Exception "list index out of range")
| malformed_response c rest msg :
    chat_create E (length (calls w)) (safety_messages (output_buffers w) ticket output)
      = ChatReturned (c :: rest) ->
    load_safety_response E (content_or_default c) = inl msg ->
    service_failure E ticket output w (Exception msg).

(** ** Fixtures *)

(** concrete environments and worlds the closed lemmas run on *)
Definition env_quiet : Env :=
  {| class_time := 0%Z;
     subprocess_run := fun _ _ => Completed 0 "" "";
     called_process_error := fun _ _ => "Command returned non-zero exit status 1.";
     chat_create := fun _ _ => ChatRaised "connection refused";
     load_safety_response := fun _ => inl "validation error";
     ws_send_json := fun _ _ => Sent;
     spawn_script_exists := true |}.

Definition world_empty : World := mkWorld ∅ ∅ None [].

(** one session, T-1, switched to auto-accept by the mode endpoint *)
Definition world_auto : World :=
  (set_claude_mode env_quiet "T-1" "auto_accept" world_empty).2.

(** the same with an LLM client configured *)
Definition world_auto_llm : World :=
  mkWorld (sessions world_auto) (output_buffers world_auto)
    (Some (mkAzureClient "https://example.invalid" "key" "2024-02-15-preview")) [].

(** the capture returns a pane whose first line is a prompt shown earlier *)
Definition pane_before : string := "Allow edit [Y/n]" +:+ String PyStr.nl "".
Definition pane_after : string := pane_before +:+ "done" +:+ String PyStr.nl "".

Definition env_scrolled : Env :=
  {| class_time := 0%Z;
     subprocess_run := fun _ _ => Completed 0 pane_after "";
     called_process_error := fun _ _ => "Command returned non-zero exit status 1.";
     chat_create := fun _ _ => ChatRaised "connection refused";
     load_safety_response := fun _ => inl "validation error";
     ws_send_json := fun _ _ => Sent;
     spawn_script_exists := true |}.

(** the websocket raises an error that is not a disconnect *)
Definition env_send_error : Env :=
  {| class_time := 0%Z;
     subprocess_run := fun _ _ => Completed 0 "hello" "";
     called_process_error := fun _ _ => "Command returned non-zero exit status 1.";
     chat_create := fun _ _ => ChatRaised "connection refused";
     load_safety_response := fun _ => inl "validation error";
     ws_send_json := fun _ _ => SendRaised "connection closed";
     spawn_script_exists := true |}.

(** ** Further endpoints and startup *)

(** [l[i:]] for any int [i]: a negative [i] counts from the end, and both
    ends are clamped *)
Definition py_slice_from {A} (i : Z) (l : list A) : list A :=
  let len := Z.of_nat (length l) in
  let start := if (i <? 0)%Z then Z.max 0 (len + i) else Z.min i len in
  drop (Z.to_nat start) l.

Definition set_llm_client (c : option AzureClient) (w : World) : World :=
  mkWorld (sessions w) (output_buffers w) c (calls w).

Section Endpoints.

Variable E : Env.

(** Get single session state; the record stands for its [model_dump()] *)
Definition get_session (ticket : string) : M (SessionStatus + list (string * json)) :=
  ss ← gets sessions;
  match ss !! ticket with
  | Some s => mret (inl s)
  | None => mret (inr [("error", JStr "not found")])
  end.

(** List all session states. *)
Definition list_sessions : M (gmap string SessionStatus) := gets sessions.

(** Get recent output. *)
Definition get_output (ticket : string) (lines : Z) : M (list (string * json)) :=
  bufs ← gets output_buffers;
  mret [("output",
         JStr (PyStr.join_nl (py_slice_from (- lines) (default [] (bufs !! ticket)))))].

(** Send input to tmux session. *)
Definition send_input (ticket text : string) : M (list (string * json)) :=
  try_except
    (run_checked E (send_keys ticket ["C-u"]);;
     (* time.sleep(0.1) *)
     run_checked E (send_keys ticket ["-l"; text]);;
     run_checked E (send_keys ticket ["Enter"]);;
     mret [("ok", JBool true)])
    (fun e => mret [("ok", JBool false); ("error", JStr (exn_str e))]).

(** Send Ctrl+C to tmux session. *)
Definition interrupt_session (ticket : string) : M (list (string * json)) :=
  try_except
    (run_checked E (send_keys ticket ["C-c"]);;
     mret [("ok", JBool true)])
    (fun e => mret [("ok", JBool false); ("error", JStr (exn_str e))]).

(** Initialize Azure OpenAI client if credentials available; [getenv] is
    [os.getenv] on the process environment *)
Definition init_llm_client (getenv : string -> option string) : M unit :=
  let api_base := getenv "AZ_OPENAI_API_BASE" in
  let api_key := getenv "AZ_OPENAI_API_KEY" in
  let api_version :=
    default "2024-02-15-preview" (getenv "RMTQ_BETA_CMD_AZ_OPENAI_API_VERSION") in
  match api_base, api_key with
  | Some b, Some k =>
      if PyStr.truthy b && PyStr.truthy k
      then modify (set_llm_client (Some (mkAzureClient b k api_version)))
      else mret tt
  | _, _ => mret tt
  end.

(** the loop of lifespan over the lines of [tmux list-sessions] *)
Fixpoint discover_sessions (lines : list string) : M unit :=
  match lines with
  | [] => mret tt
  | line :: rest =>
      let ticket := PyStr.strip line in
      ss ← gets sessions;
      (if PyStr.truthy ticket && negb (bool_decide (is_Some (ss !! ticket)))
       then modify (set_sessions <[ticket := SessionStatus_new E ticket]>);;
            modify (set_output_buffers <[ticket := []]>)
       else mret tt);;
      discover_sessions rest
  end.

(** Initialize on server start: what lifespan does before it yields *)
Definition lifespan_startup (getenv : string -> option string) : M unit :=
  init_llm_client getenv;;
  (* Discover existing tmux sessions *)
  r ← call_subprocess E ["tmux"; "list-sessions"; "-F"; "#{session_name}"];
  match r with
  | ProcRaised msg => raise (Exception msg)
  | Completed rc out _ =>
      if bool_decide (rc = 0%Z)
      then discover_sessions (PyStr.split_nl (PyStr.strip out))
      else mret tt
  end.

End Endpoints.

(** the argv lists of the accept sequence *)
Definition accept_argvs (ticket : string) : list (list string) :=
  [send_keys ticket ["C-u"]; send_keys ticket ["-l"; "1"]; send_keys ticket ["Enter"]].

(** a call made with [check=True] goes through: the process ran and exited
    with status 0 *)
Definition exited_zero (o : ProcOutcome) : bool :=
  match o with
  | Completed rc _ _ => bool_decide (rc = 0%Z)
  | ProcRaised _ => false
  end.

(** [str(e)] of the exception a call made with [check=True] raises when it
    does not go through *)
Definition failure_text (E : Env) (argv : list string) (o : ProcOutcome) : string :=
  match o with
  | Completed rc _ _ => called_process_error E argv rc
  | ProcRaised msg => msg
  end.

(** tmux is not reachable: every [subprocess.run] raises *)
Definition env_no_tmux : Env :=
  {| class_time := 0%Z;
     subprocess_run := fun _ _ => ProcRaised "tmux: command not found";
     called_process_error := fun _ _ => "Command returned non-zero exit status 1.";
     chat_create := fun _ _ => ChatRaised "connection refused";
     load_safety_response := fun _ => inl "validation error";
     ws_send_json := fun _ _ => Sent;
     spawn_script_exists := false |}.

(** the service answers, and its answer loads as: no clarification, safe *)
Definition env_llm_yes : Env :=
  {| class_time := 0%Z;
     subprocess_run := fun _ _ => Completed 0 "" "";
     called_process_error := fun _ _ => "Command returned non-zero exit status 1.";
     chat_create := fun _ _ => ChatReturned [Some "{...}"];
     load_safety_response := fun _ =>
       inr {| needs_clarification := false; safe_to_continue := true; reason := "read only" |};
     ws_send_json := fun _ _ => Sent;
     spawn_script_exists := true |}.

(** two records that differ at most in needs_attention *)
Definition same_but_attention (s s' : SessionStatus) : Prop :=
  set_needs_attention false s' = set_needs_attention false s.

(** what a pass of the poller for [ticket] may change: the call log, the
    buffer of [ticket], and needs_attention of the record of [ticket] *)
Definition poller_frame (ticket : string) (w w' : World) : Prop :=
  llm_client w' = llm_client w /\
  (forall t, t <> ticket ->
     sessions w' !! t = sessions w !! t /\
     output_buffers w' !! t = output_buffers w !! t) /\
  match sessions w !! ticket, sessions w' !! ticket with
  | Some s, Some s' => same_but_attention s s'
  | None, None => True
  | _, _ => False
  end.

(** the pane shows a question, the observer is gone *)
Definition env_disconnected : Env :=
  {| class_time := 0%Z;
     subprocess_run := fun _ _ => Completed 0 "Which file should I read?" "";
     called_process_error := fun _ _ => "Command returned non-zero exit status 1.";
     chat_create := fun _ _ => ChatRaised "connection refused";
     load_safety_response := fun _ => inl "validation error";
     ws_send_json := fun _ _ => SendDisconnected;
     spawn_script_exists := true |}.

(** tmux answers every command with exit status 1 *)
Definition env_tmux_fails : Env :=
  {| class_time := 0%Z;
     subprocess_run := fun _ _ => Completed 1 "" "no server running";
     called_process_error := fun _ _ => "Command returned non-zero exit status 1.";
     chat_create := fun _ _ => ChatRaised "connection refused";
     load_safety_response := fun _ => inl "validation error";
     ws_send_json := fun _ _ => Sent;
     spawn_script_exists := true |}.

(** a session in planning mode *)
Definition world_planning : World :=
  (set_claude_mode env_quiet "T-1" "planning" world_empty).2.

(** a record is filed under its own ticket, its two mode fields agree, and
    the fields no operation writes are as SessionStatus(ticket=t) made them *)
Definition record_ok (E : Env) (t : string) (s : SessionStatus) : Prop :=
  ticket s = t /\
  (auto_accept s = true <-> claude_mode s = ClaudeMode.AUTO_ACCEPT) /\
  state s = SessionState.STARTING /\ message s = None /\
  updated_at s = class_time E /\ in_grid s = false.

Definition registry_ok (E : Env) (w : World) : Prop :=
  forall t s, sessions w !! t = Some s -> record_ok E t s.

(** the tickets a run of [tmux list-sessions] names: its trimmed output, one
    ticket a line, trimmed, blank lines left out *)
Definition listed_tickets (out : string) : list string :=
  filter (fun t => PyStr.truthy t = true) (PyStr.strip <$> PyStr.split_nl (PyStr.strip out)).

(** tmux lists two sessions; no credentials in the environment *)
Definition env_two_sessions : Env :=
  {| class_time := 0%Z;
     subprocess_run := fun _ _ =>
       Completed 0 ("T-1" +:+ String PyStr.nl (" T-2 " +:+ String PyStr.nl "")) "";
     called_process_error := fun _ _ => "Command returned non-zero exit status 1.";
     chat_create := fun _ _ => ChatRaised "connection refused";
     load_safety_response := fun _ => inl "validation error";
     ws_send_json := fun _ _ => Sent;
     spawn_script_exists := true |}.

Definition getenv_none : string -> option string := fun _ => None.

Definition getenv_azure : string -> option string := fun name =>
  if decide (name = "AZ_OPENAI_API_BASE") then Some "https://example.invalid"
  else if decide (name = "AZ_OPENAI_API_KEY") then Some "key"
  else None.

(** only the registry of sessions was written: no call, buffers and client
    as before *)
Definition sessions_only (w w' : World) : Prop :=
  output_buffers w' = output_buffers w /\ llm_client w' = llm_client w /\
  calls w' = calls w.

Definition keeps_ok (E : Env) (w w' : World) : Prop := registry_ok E w -> registry_ok E w'.

(** what every reachable state satisfies *)
Definition state_ok (E : Env) (w : World) : Prop := registry_ok E w /\ buffers_bounded w.

Definition keeps_state_ok (E : Env) (w w' : World) : Prop :=
  state_ok E w -> state_ok E w'.

(** ** Worktrees and teardown *)

(** what the file system shows of WORKTREES_DIR: its path, whether it
    exists, and the names [iterdir] yields, each with [is_dir] *)
Record Fs : Type := mkFs {
  worktrees_dir : string;
  worktrees_dir_exists : bool;
  worktrees_dir_entries : list (string * bool)
}.

Record Worktree : Type := mkWorktree {
  wt_path : string;
  wt_active : bool;
  wt_in_sessions : bool
}.

(** [d[k] = v] on a dict kept as the list of its items in insertion order *)
Fixpoint dict_set {V} (k : string) (v : V) (d : list (string * V)) : list (string * V) :=
  match d with
  | [] => [(k, v)]
  | (k', v') :: d' =>
      if decide (k' = k) then (k, v) :: d' else (k', v') :: dict_set k v d'
  end.

(** the report of kill_all_sessions *)
Record KillReport : Type := mkKillReport {
  kr_ok : bool;
  kr_killed : list string;
  kr_errors : list (string * string)
}.

(** the three process-wide dicts: the two of [World] and the websockets
    registered per ticket, a websocket being known by a number *)
Record Hub : Type := mkHub {
  hub_world : World;
  ws_connections : gmap string (list nat)
}.

Definition hub_empty : Hub := mkHub world_empty ∅.

Section Teardown.

Variable E : Env.

(** the loop of get_worktrees over the directory listing *)
Fixpoint scan_worktrees (dir : string) (entries : list (string * bool))
    (worktrees : list (string * Worktree)) : M (list (string * Worktree)) :=
  match entries with
  | [] => mret worktrees
  | (name, is_dir) :: rest =>
      if is_dir then
        (* Check if tmux session exists *)
        r ← call_subprocess E ["tmux"; "has-session"; "-t"; name];
        match r with
        | ProcRaised msg => raise (Exception msg)
        | Completed rc _ _ =>
            ss ← gets sessions;
            scan_worktrees dir rest
              (dict_set name
                 {| wt_path := dir +:+ "/" +:+ name;
                    wt_active := bool_decide (rc = 0%Z);
                    wt_in_sessions := bool_decide (is_Some (ss !! name)) |}
                 worktrees)
        end
      else scan_worktrees dir rest worktrees
  end.

(** Discover worktrees and their status. *)
Definition get_worktrees (fs : Fs) : M (list (string * Worktree)) :=
  if negb (worktrees_dir_exists fs) then mret []
  else scan_worktrees (worktrees_dir fs) (worktrees_dir_entries fs) [].

(** Start all available worktrees that don't have active sessions. *)
Definition start_all_sessions (fs : Fs) : M (list (string * json)) :=
  worktrees ← get_worktrees fs;
  let tickets_to_start := (filter (fun p => wt_active p.2 = false) worktrees).*1 in
  match tickets_to_start with
  | [] => mret [("ok", JBool true); ("message", JStr "No worktrees to start");
                ("started", JStrs [])]
  | _ => start_session E tickets_to_start
  end.

(** the tmux part of one round of kill_all_sessions: was a session killed *)
Definition kill_tmux (ticket : string) : M bool :=
  r ← call_subprocess E ["tmux"; "has-session"; "-t"; ticket];
  match r with
  | ProcRaised msg => raise (Exception msg)
  | Completed rc _ _ =>
      if bool_decide (rc = 0%Z) then
        run_checked E ["tmux"; "kill-session"; "-t"; ticket];;
        mret true
      else mret false
  end.

(** Clean up local state *)
Definition forget (ticket : string) (h : Hub) : Hub :=
  mkHub (set_output_buffers (delete ticket) (set_sessions (delete ticket) (hub_world h)))
        (delete ticket (ws_connections h)).

(** the loop of kill_all_sessions, with its two accumulators *)
Fixpoint kill_loop (tickets : list string) (killed : list string)
    (errors : list (string * string)) (h : Hub) : KillReport * Hub :=
  match tickets with
  | [] => (mkKillReport (bool_decide (errors = [])) killed errors, h)
  | ticket :: rest =>
      if bool_decide (ticket ∈ killed) then kill_loop rest killed errors h
      else
        match kill_tmux ticket (hub_world h) with
        | (Ok was_live, w') =>
            kill_loop rest (if was_live then killed ++ [ticket] else killed) errors
              (forget ticket (mkHub w' (ws_connections h)))
        | (Raise e, w') =>
            kill_loop rest killed (errors ++ [(ticket, exn_str e)])
              (mkHub w' (ws_connections h))
        end
  end.

(** Kill all tracked worktree tmux sessions. [keys] is [list(sessions.keys())],
    the tickets of the registry in the order they were inserted, which the
    map does not record. *)
Definition kill_all_sessions (fs : Fs) (keys : list string) (h : Hub)
    : result KillReport * Hub :=
  match get_worktrees fs (hub_world h) with
  | (Raise e, w') => (Raise e, mkHub w' (ws_connections h))
  | (Ok worktrees, w') =>
      let (report, h') := kill_loop (keys ++ worktrees.*1) [] [] (mkHub w' (ws_connections h)) in
      (Ok report, h')
  end.

End Teardown.

(** a ticket none of the three dicts knows *)
Definition forgotten (t : string) (h : Hub) : Prop :=
  sessions (hub_world h) !! t = None /\
  output_buffers (hub_world h) !! t = None /\
  ws_connections h !! t = None.

(** entries were deleted, none was written *)
Definition deletes_only (h h' : Hub) : Prop :=
  llm_client (hub_world h') = llm_client (hub_world h) /\
  forall t,
    (sessions (hub_world h') !! t = sessions (hub_world h) !! t \/
     sessions (hub_world h') !! t = None) /\
    (output_buffers (hub_world h') !! t = output_buffers (hub_world h) !! t \/
     output_buffers (hub_world h') !! t = None) /\
    (ws_connections h' !! t = ws_connections h !! t \/ ws_connections h' !! t = None).

(** everything that changes the state of the server; the poller pass and the
    three registry writes are requests *)
Inductive Operation : Type :=
| OpRequest (r : Request)
| OpStartup (getenv : string -> option string)
| OpSendInput (ticket text : string)
| OpInterrupt (ticket : string)
| OpStartAll (fs : Fs)
| OpKillAll (fs : Fs) (keys : list string).

Definition on_world (f : World -> World) (h : Hub) : Hub :=
  mkHub (f (hub_world h)) (ws_connections h).

Definition perform (E : Env) (op : Operation) (h : Hub) : Hub :=
  match op with
  | OpRequest r => on_world (fun w => (serve E r w).2) h
  | OpStartup getenv => on_world (fun w => (lifespan_startup E getenv w).2) h
  | OpSendInput t text => on_world (fun w => (send_input E t text w).2) h
  | OpInterrupt t => on_world (fun w => (interrupt_session E t w).2) h
  | OpStartAll fs => on_world (fun w => (start_all_sessions E fs w).2) h
  | OpKillAll fs keys => (kill_all_sessions E fs keys h).2
  end.

(** two sessions, one buffer and one websocket each *)
Definition hub_two : Hub :=
  mkHub (set_output_buffers (fun _ => {["T-1" := ["a"]; "T-2" := ["b"]]})
           (set_claude_mode env_quiet "T-2" "planning" world_auto).2)
        {["T-1" := [1]; "T-2" := [2]]}.

Definition fs_none : Fs := mkFs "/repo/worktrees" false [].

Definition fs_two : Fs :=
  mkFs "/repo/worktrees" true [("T-3", true); ("README.md", false); ("T-1", true)].

(** * Properties *)

Ltac munfold :=
  unfold mbind, M_bind, mret, M_ret, gets, modify, raise, try_except in *.

Section CheckSafety.

Variable E : Env.

Lemma length_calls_log c w : length (calls (log_call c w)) = S (length (calls w)).
Proof. unfold log_call; simpl. rewrite length_app; simpl. lia. Qed.

Lemma check_safety_no_client ticket output w :
  llm_client w = None ->
  check_safety E ticket output w =
    (Ok {| needs_clarification := fallback_needs_clarification output;
           safe_to_continue := negb (dangerous output);
           reason := "Pattern match (no LLM configured)" |}, w).
Proof. intros H. unfold check_safety. munfold. now rewrite H. Qed.

(** the try block issues exactly one call, whatever comes back *)
Lemma ask_llm_world ticket output w :
  (ask_llm E ticket output w).2 =
    log_call (ChatCreate "gpt-4o" (safety_messages (output_buffers w) ticket output)) w.
Proof.
  unfold ask_llm, chat_completions_create, first_content. munfold. simpl.
  destruct (chat_create E _ _) as [[|c rest]|msg]; simpl; try reflexivity.
  destruct (load_safety_response E _); reflexivity.
Qed.

Lemma check_safety_client_failed ticket output w c e w' :
  llm_client w = Some c ->
  ask_llm E ticket output w = (Raise e, w') ->
  check_safety E ticket output w =
    (Ok {| needs_clarification := fallback_needs_clarification output;
           safe_to_continue := true;
           reason := "Safety check failed: " +:+ exn_str e |}, w').
Proof. intros Hc Hf. unfold check_safety. munfold. now rewrite Hc, Hf. Qed.

Lemma check_safety_never_raises ticket output w :
  exists r w', check_safety E ticket output w = (Ok r, w').
Proof.
  unfold check_safety. munfold.
  destruct (llm_client w); [|eauto].
  destruct (ask_llm E ticket output w) as [[r|e] w']; eauto.
Qed.

Lemma service_failure_raises ticket output w e :
  service_failure E ticket output w e ->
  ask_llm E ticket output w =
    (Raise e, log_call (ChatCreate "gpt-4o"
                          (safety_messages (output_buffers w) ticket output)) w).
Proof.
  intros Hf. unfold ask_llm, chat_completions_create, first_content. munfold. simpl.
  destruct Hf as [msg H|H|c rest msg H Hl]; rewrite H; simpl; try reflexivity.
  now rewrite Hl.
Qed.

End CheckSafety.

Section Claims34.
Variable E : Env.

(** C3: when the configured classification service fails (transport error,
    empty or malformed response), check_safety does not raise: it returns a
    response whose safe_to_continue is true and whose reason is a non-empty
    string. *)
Theorem C3_fail_open ticket output w c e :
  llm_client w = Some c ->
  service_failure E ticket output w e ->
  exists r w',
    check_safety E ticket output w = (Ok r, w') /\
    safe_to_continue r = true /\
    reason r <> "".
Proof.
  intros Hc Hf. apply service_failure_raises in Hf.
  rewrite (check_safety_client_failed E _ _ _ _ _ _ Hc Hf).
  eexists _, _. split; [reflexivity|]. simpl. split; [reflexivity|discriminate].
Qed.

(** C4 (amended): without a configured service the fallback answers
    needs_clarification = (the text holds a question mark or, lower-cased,
    the phrase would you like) and safe_to_continue = (no destructive keyword
    in the lower-cased text); after a failure of a configured service
    needs_clarification is the same test and safe_to_continue is true
    whatever the text holds. *)
Theorem C4_fallback_by_failure_mode ticket output w :
  (llm_client w = None ->
   exists r, check_safety E ticket output w = (Ok r, w) /\
     needs_clarification r = fallback_needs_clarification output /\
     safe_to_continue r = negb (dangerous output)) /\
  (forall c e, llm_client w = Some c -> service_failure E ticket output w e ->
   exists r w', check_safety E ticket output w = (Ok r, w') /\
     needs_clarification r = fallback_needs_clarification output /\
     safe_to_continue r = true).
Proof.
  split.
  - intros Hn. rewrite (check_safety_no_client E _ _ _ Hn). eauto.
  - intros c e Hc Hf. apply service_failure_raises in Hf.
    rewrite (check_safety_client_failed E _ _ _ _ _ _ Hc Hf). eauto.
Qed.

End Claims34.

Lemma C3_fail_open_witness :
  exists r w',
    check_safety env_quiet "T-1" "rm -rf /tmp/x" world_auto_llm = (Ok r, w') /\
    safe_to_continue r = true /\ reason r <> "".
Proof.
  apply (C3_fail_open env_quiet "T-1" "rm -rf /tmp/x" world_auto_llm
           (mkAzureClient "https://example.invalid" "key" "2024-02-15-preview")
           (Exception "connection refused")).
  - reflexivity.
  - apply transport_error. reflexivity.
Defined.

(** C4 fails as stated: the service is configured and the call to it raises;
    the text holds the destructive keyword rm -rf, yet safe_to_continue is
    true. *)
Lemma C4_counterexample :
  dangerous "rm -rf /tmp/x" = true /\
  check_safety env_quiet "T-1" "rm -rf /tmp/x" world_auto_llm =
    (Ok {| needs_clarification := false; safe_to_continue := true;
           reason := "Safety check failed: connection refused" |},
     log_call (ChatCreate "gpt-4o"
                 (safety_messages (output_buffers world_auto_llm) "T-1" "rm -rf /tmp/x"))
              world_auto_llm).
Proof. split; vm_compute; reflexivity. Qed.

Lemma C4_fallback_witness :
  (exists r, check_safety env_quiet "T-1" "DROP TABLE users; ok?" world_auto = (Ok r, world_auto) /\
     needs_clarification r = true /\ safe_to_continue r = false) /\
  (exists r w', check_safety env_quiet "T-1" "DROP TABLE users; ok?" world_auto_llm = (Ok r, w') /\
     needs_clarification r = true /\ safe_to_continue r = true).
Proof.
  pose proof (C4_fallback_by_failure_mode env_quiet "T-1" "DROP TABLE users; ok?" world_auto) as [H1 _].
  pose proof (C4_fallback_by_failure_mode env_quiet "T-1" "DROP TABLE users; ok?" world_auto_llm) as [_ H2].
  split.
  - apply H1. reflexivity.
  - apply (H2 (mkAzureClient "https://example.invalid" "key" "2024-02-15-preview")
              (Exception "connection refused")).
    + reflexivity.
    + apply transport_error. reflexivity.
Defined.

Section AutoAccept.
Variable E : Env.

Lemma run_checked_ok argv w out err :
  subprocess_run E (length (calls w)) argv = Completed 0 out err ->
  run_checked E argv w = (Ok tt, log_call (SubprocessRun argv) w).
Proof.
  intros H. unfold run_checked, call_subprocess. munfold. rewrite H. reflexivity.
Qed.

Lemma auto_accept_human ticket output w :
  needs_human_decision output = true ->
  auto_accept_if_safe E ticket output w = (Ok false, w).
Proof.
  intros Hh. unfold auto_accept_if_safe. munfold.
  destruct (sessions w !! ticket) as [s|]; [|reflexivity].
  destruct (auto_accept s); [|reflexivity]. simpl.
  destruct (is_permission_prompt output); [|reflexivity]. simpl.
  now rewrite Hh.
Qed.

(** C2: a delta that matches a permission-prompt pattern and a human-decision
    pattern makes auto_accept_if_safe return false with the world untouched:
    no call leaves the process, neither to tmux nor to the safety evaluator,
    whose verdict is never asked for. *)
Theorem C2_human_decision_overrides ticket output w :
  is_permission_prompt output = true ->
  needs_human_decision output = true ->
  auto_accept_if_safe E ticket output w = (Ok false, w).
Proof. intros _ Hh. now apply auto_accept_human. Qed.

(** the accept sequence, when every tmux call succeeds *)
Lemma accept_sequence_ok ticket w :
  (forall k keys, k < 3 -> exists out err,
      subprocess_run E (length (calls w) + k) (send_keys ticket keys) = Completed 0 out err) ->
  (run_checked E (send_keys ticket ["C-u"]);;
   run_checked E (send_keys ticket ["-l"; "1"]);;
   run_checked E (send_keys ticket ["Enter"]);;
   mret true) w = (Ok true, add_calls (accept_calls ticket) w).
Proof.
  intros Hok.
  destruct (Hok 0 ["C-u"]) as (o1 & e1 & H1); [lia|].
  destruct (Hok 1 ["-l"; "1"]) as (o2 & e2 & H2); [lia|].
  destruct (Hok 2 ["Enter"]) as (o3 & e3 & H3); [lia|].
  rewrite Nat.add_0_r in H1.
  unfold mbind, M_bind.
  rewrite (run_checked_ok _ _ _ _ H1).
  rewrite (run_checked_ok _ _ o2 e2).
  2:{ rewrite length_calls_log. rewrite <- H2. f_equal. lia. }
  rewrite (run_checked_ok _ _ o3 e3).
  2:{ rewrite !length_calls_log. rewrite <- H3. f_equal. lia. }
  unfold mret, M_ret, add_calls, log_call, accept_calls. simpl.
  now rewrite <- !app_assoc.
Qed.

End AutoAccept.

Lemma C2_human_decision_overrides_witness :
  auto_accept_if_safe env_quiet "T-1"
    "Do you want to proceed? 1. Yes 2. No 3. Type here to tell Claude what to do"
    world_auto_llm = (Ok false, world_auto_llm).
Proof.
  apply (C2_human_decision_overrides env_quiet "T-1"
           "Do you want to proceed? 1. Yes 2. No 3. Type here to tell Claude what to do"
           world_auto_llm).
  - vm_compute. reflexivity.
  - vm_compute. reflexivity.
Defined.

Section Claim1.
Variable E : Env.

(** C1 (amended): for a session that exists with auto_accept set, a text that
    matches a permission-prompt pattern and no human-decision pattern, no
    classification service configured, the fallback heuristic asking for no
    clarification (no question mark, no would you like) and finding no
    destructive keyword, and the three tmux calls succeeding:
    auto_accept_if_safe issues exactly the calls C-u, literal 1, Enter, in
    that order, and returns true; the poller then clears needs_attention. *)
Theorem C1_accept_sequence ticket output new_content w s :
  sessions w !! ticket = Some s ->
  auto_accept s = true ->
  is_permission_prompt output = true ->
  needs_human_decision output = false ->
  llm_client w = None ->
  fallback_needs_clarification output = false ->
  dangerous output = false ->
  (forall k keys, k < 3 -> exists out err,
      subprocess_run E (length (calls w) + k) (send_keys ticket keys) = Completed 0 out err) ->
  auto_accept_if_safe E ticket output w = (Ok true, add_calls (accept_calls ticket) w) /\
  (let w' := (handle_new_content E ticket output new_content w).2 in
   sessions w' !! ticket = Some (set_needs_attention false s) /\
   adapter_calls (calls w') =
     adapter_calls (calls w) ++
       [send_keys ticket ["C-u"]; send_keys ticket ["-l"; "1"]; send_keys ticket ["Enter"]]).
Proof.
  intros Hs Ha Hp Hh Hn Hq Hd Hok.
  assert (Hacc : forall w1, sessions w1 = sessions w -> llm_client w1 = llm_client w ->
            calls w1 = calls w ->
            auto_accept_if_safe E ticket output w1 = (Ok true, add_calls (accept_calls ticket) w1)).
  { intros w1 H1 H2 H3. unfold auto_accept_if_safe.
    unfold mbind at 1, M_bind at 1, gets. rewrite H1, Hs, Ha, Hp, Hh. simpl.
    unfold mbind at 1, M_bind at 1.
    rewrite check_safety_no_client by congruence. simpl. rewrite Hq, Hd. simpl.
    unfold try_except. rewrite accept_sequence_ok; [reflexivity|].
    rewrite H3. exact Hok. }
  split; [now apply Hacc|]. cbv zeta.
  assert (Hw : exists ev, (handle_new_content E ticket output new_content w).2 =
            log_call (WsSendJson ev)
              (set_sessions <[ticket := set_needs_attention false s]>
                 (add_calls (accept_calls ticket)
                    (set_output_buffers
                       <[ticket := buffer_append (default [] (output_buffers w !! ticket))
                                     new_content]> w)))).
  { unfold handle_new_content.
    unfold mbind at 1, M_bind at 1, modify.
    unfold mbind at 1, M_bind at 1.
    rewrite Hacc by reflexivity.
    unfold update_attention, modify, gets, websocket_send_json, mbind, M_bind. simpl.
    eexists.
    destruct (ws_send_json E _ _);
      unfold log_call, set_sessions, add_calls, set_output_buffers; simpl;
      rewrite ?Hs; simpl; reflexivity. }
  destruct Hw as [ev ->]. simpl. split; [apply lookup_insert_eq|].
  unfold adapter_calls. rewrite !omap_app. simpl. now rewrite app_nil_r.
Qed.

End Claim1.

(** C1 fails as stated: T-1 exists and is in auto-accept mode, the claim's
    text matches a permission pattern and no human-decision pattern, no
    service is configured and no destructive keyword occurs; the question
    mark makes the fallback ask for clarification, so no call is issued,
    false is returned, and the poller raises needs_attention. *)
Lemma C1_counterexample :
  let text := "Proceed with this change? [Y/n]" in
  (auto_accept <$> sessions world_auto !! "T-1") = Some true /\
  (claude_mode <$> sessions world_auto !! "T-1") = Some ClaudeMode.AUTO_ACCEPT /\
  is_permission_prompt text = true /\
  needs_human_decision text = false /\
  llm_client world_auto = None /\
  dangerous text = false /\
  auto_accept_if_safe env_quiet "T-1" text world_auto = (Ok false, world_auto) /\
  adapter_calls (calls (handle_new_content env_quiet "T-1" text text world_auto).2) = [] /\
  (needs_attention <$>
     sessions (handle_new_content env_quiet "T-1" text text world_auto).2 !! "T-1") = Some true.
Proof. vm_compute. repeat split. Qed.

Lemma C1_accept_sequence_witness :
  let text := "Proceed with this change [Y/n]" in
  auto_accept_if_safe env_quiet "T-1" text world_auto
    = (Ok true, add_calls (accept_calls "T-1") world_auto) /\
  (let w' := (handle_new_content env_quiet "T-1" text text world_auto).2 in
   (needs_attention <$> sessions w' !! "T-1") = Some false /\
   adapter_calls (calls w') =
     [send_keys "T-1" ["C-u"]; send_keys "T-1" ["-l"; "1"]; send_keys "T-1" ["Enter"]]).
Proof.
  intros text.
  destruct (sessions world_auto !! "T-1") as [s|] eqn:Hs; [|vm_compute in Hs; discriminate].
  destruct (C1_accept_sequence env_quiet "T-1" text text world_auto s) as [H1 [H2 H3]].
  - exact Hs.
  - vm_compute in Hs. injection Hs as <-. reflexivity.
  - vm_compute. reflexivity.
  - vm_compute. reflexivity.
  - reflexivity.
  - vm_compute. reflexivity.
  - vm_compute. reflexivity.
  - intros k keys _. exists "", "". reflexivity.
  - split; [exact H1|]. split; [now rewrite H2|exact H3].
Defined.

Section Post.
Context {A B : Type}.
Variable R : World -> World -> Prop.
Context `{!PreOrder R}.

Lemma post_ret (a : A) : post (mret a) R.
Proof. intros w. simpl. reflexivity. Qed.

Lemma post_raise (e : exn) : post (@raise A e) R.
Proof. intros w. simpl. reflexivity. Qed.

Lemma post_gets (f : World -> A) : post (gets f) R.
Proof. intros w. simpl. reflexivity. Qed.

Lemma post_modify (f : World -> World) : (forall w, R w (f w)) -> post (modify f) R.
Proof. intros H w. apply H. Qed.

Lemma post_bind (m : M A) (f : A -> M B) :
  post m R -> (forall a, post (f a) R) -> post (m ≫= f) R.
Proof.
  intros Hm Hf w. unfold mbind, M_bind.
  specialize (Hm w). destruct (m w) as [[a|e] w1]; simpl in *; [|exact Hm].
  etransitivity; [exact Hm|apply Hf].
Qed.

Lemma post_try_except (body : M A) (h : exn -> M A) :
  post body R -> (forall e, post (h e) R) -> post (try_except body h) R.
Proof.
  intros Hm Hh w. unfold try_except.
  specialize (Hm w). destruct (body w) as [[a|e] w1]; simpl in *; [exact Hm|].
  etransitivity; [exact Hm|apply Hh].
Qed.
End Post.

Global Instance only_calls_preorder : PreOrder only_calls.
Proof.
  split.
  - intros w. unfold only_calls. repeat split. exists []. now rewrite app_nil_r.
  - intros w1 w2 w3 (Hs1 & Hb1 & Hl1 & c1 & Hc1) (Hs2 & Hb2 & Hl2 & c2 & Hc2).
    unfold only_calls. repeat split; try congruence.
    exists (c1 ++ c2). rewrite Hc2, Hc1. now rewrite app_assoc.
Qed.

Global Instance keeps_bound_preorder : PreOrder keeps_bound.
Proof. split; unfold keeps_bound; [intros w H; exact H|intros w1 w2 w3; tauto]. Qed.

Global Instance keeps_flags_preorder : PreOrder keeps_flags.
Proof.
  split.
  - intros w t s H. eauto.
  - intros w1 w2 w3 H12 H23 t s H.
    destruct (H12 t s H) as (s2 & H2 & E2). destruct (H23 t s2 H2) as (s3 & H3 & E3).
    exists s3. split; [exact H3|congruence].
Qed.

Lemma only_calls_log c w : only_calls w (log_call c w).
Proof. unfold only_calls, log_call; simpl. repeat split. eauto. Qed.

Lemma only_calls_keeps_bound w w' : only_calls w w' -> keeps_bound w w'.
Proof. intros (_ & Hb & _) H t b. rewrite Hb. apply H. Qed.

Lemma only_calls_keeps_flags w w' : only_calls w w' -> keeps_flags w w'.
Proof. intros (Hs & _) t s H. rewrite Hs. eauto. Qed.

Section Frames.
Variable E : Env.

Lemma call_subprocess_calls argv : post (call_subprocess E argv) only_calls.
Proof. intros w. apply only_calls_log. Qed.

Lemma run_checked_calls argv : post (run_checked E argv) only_calls.
Proof.
  apply post_bind; [apply _|apply call_subprocess_calls|].
  intros [rc out err|msg]; [|apply post_raise; apply _].
  destruct (decide _); [apply post_ret|apply post_raise]; apply _.
Qed.

Lemma run_capture_calls argv : post (run_capture E argv) only_calls.
Proof.
  apply post_bind; [apply _|apply call_subprocess_calls|].
  intros [rc out err|msg]; [apply post_ret|apply post_raise]; apply _.
Qed.

Lemma chat_create_calls model msgs : post (chat_completions_create E model msgs) only_calls.
Proof.
  intros w. unfold chat_completions_create.
  destruct (chat_create E _ _); apply only_calls_log.
Qed.

Lemma ws_send_calls ev : post (websocket_send_json E ev) only_calls.
Proof.
  intros w. unfold websocket_send_json.
  destruct (ws_send_json E _ _); apply only_calls_log.
Qed.

Lemma check_safety_calls ticket output : post (check_safety E ticket output) only_calls.
Proof.
  apply post_bind; [apply _|apply post_gets; apply _|].
  intros [c|]; [|apply post_ret; apply _].
  apply post_try_except; [apply _| |intros e; apply post_ret; apply _].
  apply post_bind; [apply _|apply post_gets; apply _|]. intros bufs.
  apply post_bind; [apply _|apply chat_create_calls|]. intros choices.
  apply post_bind; [apply _| |].
  - destruct choices; [apply post_raise|apply post_ret]; apply _.
  - intros text. destruct (load_safety_response E text);
      [apply post_raise|apply post_ret]; apply _.
Qed.

Lemma auto_accept_calls ticket output : post (auto_accept_if_safe E ticket output) only_calls.
Proof.
  apply post_bind; [apply _|apply post_gets; apply _|]. intros ss.
  destruct (ss !! ticket) as [s|]; [|apply post_ret; apply _].
  destruct (negb (auto_accept s)); [apply post_ret; apply _|].
  destruct (negb (is_permission_prompt output)); [apply post_ret; apply _|].
  destruct (needs_human_decision output); [apply post_ret; apply _|].
  apply post_bind; [apply _|apply check_safety_calls|]. intros safety.
  destruct (_ && _); [|apply post_ret; apply _].
  apply post_try_except; [apply _| |intros e; apply post_ret; apply _].
  repeat (apply post_bind; [apply _|apply run_checked_calls|intros _]).
  apply post_ret; apply _.
Qed.

Lemma auto_accept_never_raises ticket output w :
  exists b w', auto_accept_if_safe E ticket output w = (Ok b, w').
Proof.
  unfold auto_accept_if_safe. unfold mbind at 1, M_bind at 1, gets.
  destruct (sessions w !! ticket) as [s|]; [|eexists _, _; reflexivity].
  destruct (negb (auto_accept s)); [eexists _, _; reflexivity|].
  destruct (negb (is_permission_prompt output)); [eexists _, _; reflexivity|].
  destruct (needs_human_decision output); [eexists _, _; reflexivity|].
  unfold mbind at 1, M_bind at 1.
  destruct (check_safety_never_raises E ticket output w) as (r & w1 & ->).
  destruct (_ && _); [|eexists _, _; reflexivity].
  unfold try_except.
  match goal with
  | |- context [match ?x with (_, _) => _ end] => destruct x as [[b|e] w2]
  end; eexists _, _; reflexivity.
Qed.

End Frames.

(** ** The bounded buffer *)

Lemma last_n_length {A} (n : nat) (l : list A) : length (PyStr.last_n n l) <= n.
Proof. unfold PyStr.last_n. rewrite length_drop. lia. Qed.

Lemma last_n_suffix {A} (n : nat) (l : list A) :
  l = take (length l - n) l ++ PyStr.last_n n l.
Proof. unfold PyStr.last_n. now rewrite take_drop. Qed.

Lemma last_n_short {A} (n : nat) (l : list A) : length l <= n -> PyStr.last_n n l = l.
Proof. intros H. unfold PyStr.last_n. replace (length l - n) with 0 by lia. reflexivity. Qed.

Lemma buffer_append_length buf new_content :
  length (buffer_append buf new_content) <= MAX_BUFFER_LINES.
Proof. apply last_n_length. Qed.

Lemma buffer_append_fifo buf new_content :
  exists evicted,
    buf ++ PyStr.split_nl new_content = evicted ++ buffer_append buf new_content /\
    length evicted = length (buf ++ PyStr.split_nl new_content) - MAX_BUFFER_LINES.
Proof.
  exists (take (length (buf ++ PyStr.split_nl new_content) - MAX_BUFFER_LINES)
            (buf ++ PyStr.split_nl new_content)).
  split; [apply last_n_suffix|]. rewrite length_take. lia.
Qed.

Lemma buffers_bounded_insert t b w :
  length b <= MAX_BUFFER_LINES ->
  keeps_bound w (set_output_buffers <[t := b]> w).
Proof.
  intros Hb H t' b'. unfold set_output_buffers; simpl.
  rewrite lookup_insert. case_decide; [intros [= <-]; exact Hb|apply H].
Qed.

Lemma set_sessions_keeps_bound f w : keeps_bound w (set_sessions f w).
Proof. intros H. exact H. Qed.

Lemma update_attention_keeps_flags ticket v : post (update_attention ticket v) keeps_flags.
Proof.
  intros w t s Hs. unfold update_attention, modify, set_sessions; simpl.
  destruct (sessions w !! ticket) as [s0|] eqn:H0; [|eauto].
  rewrite lookup_insert. case_decide; [|eauto].
  subst t. rewrite H0 in Hs. injection Hs as <-. eauto.
Qed.

Section Poller.
Variable E : Env.

Lemma post_weaken {A} (m : M A) (R R' : World -> World -> Prop) :
  (forall w w', R w w' -> R' w w') -> post m R -> post m R'.
Proof. intros H Hm w. apply H, Hm. Qed.

Lemma handle_new_content_keeps_bound ticket current new_content :
  post (handle_new_content E ticket current new_content) keeps_bound.
Proof.
  apply post_bind; [apply _| |intros _].
  { apply post_modify. intros w. unfold set_output_buffers.
    apply (buffers_bounded_insert ticket _ w), buffer_append_length. }
  apply post_bind; [apply _| |intros accepted].
  { eapply post_weaken; [apply only_calls_keeps_bound|apply auto_accept_calls]. }
  apply post_bind; [apply _| |intros _].
  { destruct (negb accepted).
    - apply post_bind; [apply _| |intros r].
      + eapply post_weaken; [apply only_calls_keeps_bound|apply check_safety_calls].
      + apply post_modify. intros w. apply set_sessions_keeps_bound.
    - apply post_modify. intros w. apply set_sessions_keeps_bound. }
  apply post_bind; [apply _|apply post_gets; apply _|intros ss].
  eapply post_weaken; [apply only_calls_keeps_bound|apply ws_send_calls].
Qed.

Lemma handle_new_content_keeps_flags ticket current new_content :
  post (handle_new_content E ticket current new_content) keeps_flags.
Proof.
  apply post_bind; [apply _| |intros _].
  { apply post_modify. intros w t s H. eauto. }
  apply post_bind; [apply _| |intros accepted].
  { eapply post_weaken; [apply only_calls_keeps_flags|apply auto_accept_calls]. }
  apply post_bind; [apply _| |intros _].
  { destruct (negb accepted).
    - apply post_bind; [apply _| |intros r].
      + eapply post_weaken; [apply only_calls_keeps_flags|apply check_safety_calls].
      + apply update_attention_keeps_flags.
    - apply update_attention_keeps_flags. }
  apply post_bind; [apply _|apply post_gets; apply _|intros ss].
  eapply post_weaken; [apply only_calls_keeps_flags|apply ws_send_calls].
Qed.

(** a pass of the poller keeps what its non-blank branch keeps *)
Lemma stream_output_step_post (R : World -> World -> Prop) `{!PreOrder R} ticket last :
  (forall w w', only_calls w w' -> R w w') ->
  (forall current new_content, post (handle_new_content E ticket current new_content) R) ->
  post (stream_output_step E ticket last) R.
Proof.
  intros Hc Hh.
  apply post_try_except; [apply _| |intros [|msg]; apply post_ret; apply _].
  apply post_bind; [apply _| |intros [rc current]].
  { eapply post_weaken; [apply Hc|apply run_capture_calls]. }
  destruct (negb (bool_decide (rc = 0%Z))); [apply post_ret; apply _|].
  destruct (negb (bool_decide (current = last))); [|apply post_ret; apply _].
  apply post_bind; [apply _| |intros _; apply post_ret; apply _].
  destruct (PyStr.truthy _); [apply Hh|apply post_ret; apply _].
Qed.

Lemma stream_output_post (R : World -> World -> Prop) `{!PreOrder R} fuel ticket last :
  (forall w w', only_calls w w' -> R w w') ->
  (forall current new_content, post (handle_new_content E ticket current new_content) R) ->
  post (stream_output E fuel ticket last) R.
Proof.
  intros Hc Hh. revert last.
  induction fuel as [|fuel IH]; intros last; simpl; [apply post_ret; apply _|].
  apply post_bind; [apply _|now apply stream_output_step_post|].
  intros [|last']; [apply post_ret; apply _|apply IH].
Qed.

(** C6: whatever is appended, a buffer never holds more than 200 lines: the
    lines that leave are the oldest and what stays is the newest end of the
    old lines followed by the new ones; the bound survives any number of
    passes of the poller and any sequence of appends. *)
Theorem C6_buffer_bounded :
  (forall buf new_content,
      length (buffer_append buf new_content) <= 200 /\
      exists evicted,
        buf ++ PyStr.split_nl new_content = evicted ++ buffer_append buf new_content /\
        length evicted = length (buf ++ PyStr.split_nl new_content) - 200) /\
  (forall buf deltas, length buf <= 200 ->
      length (foldl buffer_append buf deltas) <= 200) /\
  (forall fuel ticket last w,
      buffers_bounded w -> buffers_bounded (stream_output E fuel ticket last w).2).
Proof.
  split; [|split].
  - intros buf new_content. split; [apply buffer_append_length|apply buffer_append_fifo].
  - intros buf deltas. revert buf.
    induction deltas as [|d deltas IH]; intros buf Hb; simpl; [exact Hb|].
    apply IH, buffer_append_length.
  - intros fuel ticket last w.
    apply (stream_output_post keeps_bound fuel ticket last).
    + apply only_calls_keeps_bound.
    + intros. apply handle_new_content_keeps_bound.
Qed.

End Poller.

Lemma C6_buffer_bounded_witness :
  length (foldl buffer_append [] ["a"; "b"]) <= 200 /\
  buffers_bounded (stream_output env_quiet 3 "T-1" "" world_empty).2.
Proof.
  destruct (C6_buffer_bounded env_quiet) as (_ & H2 & H3). split.
  - apply H2. simpl. lia.
  - apply H3. intros t b H. vm_compute in H. discriminate.
Defined.

(** ** One pass of the poller *)

Lemma startswith_refl s : PyStr.startswith s s = true.
Proof. induction s as [|c s IH]; simpl; [reflexivity|]. now rewrite decide_True. Qed.

Lemma slice_from_all s : PyStr.slice_from (String.length s) s = "".
Proof. induction s as [|c s IH]; simpl; [reflexivity|exact IH]. Qed.

Lemma startswith_slice s p :
  PyStr.startswith s p = true -> s = p +:+ PyStr.slice_from (String.length p) s.
Proof.
  revert s. induction p as [|a p IH]; intros s H; [reflexivity|].
  destruct s as [|b s]; simpl in H; [discriminate|]. simpl.
  destruct (decide (a = b)) as [->|]; [|discriminate].
  change (String b s = String b (p +:+ PyStr.slice_from (String.length p) s)).
  f_equal. now apply IH.
Qed.

Lemma new_content_same s : new_content_of s s = "".
Proof. unfold new_content_of. rewrite startswith_refl. apply slice_from_all. Qed.

Section Pass.
Variable E : Env.

Lemma run_capture_ok ticket w rc out err :
  subprocess_run E (length (calls w)) (capture_argv ticket) = Completed rc out err ->
  run_capture E (capture_argv ticket) w
    = (Ok (rc, out), log_call (SubprocessRun (capture_argv ticket)) w).
Proof. intros H. unfold run_capture, call_subprocess. munfold. now rewrite H. Qed.

(** what the non-blank branch does, stage by stage *)
Lemma handle_new_content_run ticket current delta w :
  exists accepted w2 att w3 ev,
    auto_accept_if_safe E ticket current
      (set_output_buffers
         <[ticket := buffer_append (default [] (output_buffers w !! ticket)) delta]> w)
      = (Ok accepted, w2) /\
    (if accepted then att = false /\ w3 = w2
     else exists r, check_safety E ticket delta w2 = (Ok r, w3) /\
                    att = needs_clarification r) /\
    ev_ticket ev = ticket /\ ev_content ev = delta /\ ev_auto_accepted ev = accepted /\
    handle_new_content E ticket current delta w
      = websocket_send_json E ev (update_attention ticket att w3).2.
Proof.
  unfold handle_new_content.
  unfold mbind at 1, M_bind at 1, modify.
  unfold mbind at 1, M_bind at 1.
  destruct (auto_accept_never_raises E ticket current
              (set_output_buffers
                 (fun bufs => <[ticket := buffer_append (default [] (bufs !! ticket)) delta]> bufs)
                 w))
    as (accepted & w2 & Hacc).
  rewrite Hacc. exists accepted, w2.
  destruct accepted; simpl.
  - eexists false, w2, _. split; [exact Hacc|]. split; [now split|].
    unfold mbind, M_bind, update_attention, modify, gets. simpl.
    repeat split; reflexivity.
  - destruct (check_safety_never_raises E ticket delta w2) as (r & w3 & Hr).
    eexists (needs_clarification r), w3, _. split; [exact Hacc|].
    split; [eauto|].
    unfold mbind, M_bind, update_attention, modify, gets. rewrite Hr. simpl.
    repeat split; reflexivity.
Qed.

Lemma stream_output_try_run ticket last w current err :
  subprocess_run E (length (calls w)) (capture_argv ticket) = Completed 0 current err ->
  stream_output_try E ticket last w =
    let w0 := log_call (SubprocessRun (capture_argv ticket)) w in
    let delta := new_content_of last current in
    if PyStr.truthy (PyStr.strip delta)
    then (handle_new_content E ticket current delta;; mret (Continue current)) w0
    else (Ok (Continue current), w0).
Proof.
  intros H. unfold stream_output_try.
  unfold mbind at 1, M_bind at 1. fold (capture_argv ticket).
  rewrite (run_capture_ok _ _ _ _ _ H). simpl.
  destruct (bool_decide (current = last)) eqn:Heq; simpl.
  - apply bool_decide_eq_true in Heq. subst current.
    rewrite new_content_same. reflexivity.
  - destruct (PyStr.truthy _); reflexivity.
Qed.

End Pass.

Section PassClaims.
Variable E : Env.

Lemma stream_output_step_world ticket last w :
  (stream_output_step E ticket last w).2 = (stream_output_try E ticket last w).2.
Proof.
  unfold stream_output_step, try_except.
  destruct (stream_output_try E ticket last w) as [[c|[|msg]] w']; reflexivity.
Qed.

Lemma ws_send_world ev w : (websocket_send_json E ev w).2 = log_call (WsSendJson ev) w.
Proof. unfold websocket_send_json. destruct (ws_send_json E _ _); reflexivity. Qed.

Lemma bind_world_ret {A B} (m : M A) (b : B) w : ((m;; mret b) w).2 = (m w).2.
Proof. unfold mbind, M_bind, mret, M_ret. destruct (m w) as [[a|e] w']; reflexivity. Qed.


(** C7 (amended): the delta is the rest of the new snapshot when the stored
    one is a prefix of it, and the whole new snapshot otherwise; a pass that
    ends without an exception stores the new snapshot, also when the trimmed
    delta is empty; a pass whose delivery raises an error other than a
    disconnect goes on with the stored snapshot it had. *)
Theorem C7_delta_and_stored_snapshot ticket last w current err :
  subprocess_run E (length (calls w)) (capture_argv ticket) = Completed 0 current err ->
  (PyStr.startswith current last = true ->
     current = last +:+ new_content_of last current) /\
  (PyStr.startswith current last = false -> new_content_of last current = current) /\
  (forall ctl w', stream_output_try E ticket last w = (Ok ctl, w') ->
     ctl = Continue current) /\
  (PyStr.truthy (PyStr.strip (new_content_of last current)) = false ->
     stream_output_step E ticket last w
       = (Ok (Continue current), log_call (SubprocessRun (capture_argv ticket)) w)) /\
  ((forall n ev, ws_send_json E n ev = Sent) ->
     exists w', stream_output_step E ticket last w = (Ok (Continue current), w')) /\
  (PyStr.truthy (PyStr.strip (new_content_of last current)) = true ->
   (forall n ev, exists msg, ws_send_json E n ev = SendRaised msg) ->
     exists w', stream_output_step E ticket last w = (Ok (Continue last), w')).
Proof.
  intros Hcap.
  pose proof (stream_output_try_run E ticket last w current err Hcap) as Htry.
  cbv zeta in Htry.
  destruct (handle_new_content_run E ticket current (new_content_of last current)
              (log_call (SubprocessRun (capture_argv ticket)) w))
    as (accepted & w2 & att & w3 & ev & _ & _ & _ & _ & _ & Hrun).
  split; [|split; [|split; [|split; [|split]]]].
  - intros Hp. unfold new_content_of. rewrite Hp. now apply startswith_slice.
  - intros Hp. unfold new_content_of. now rewrite Hp.
  - intros ctl w'. rewrite Htry.
    destruct (PyStr.truthy _); [|congruence].
    unfold mbind, M_bind, mret, M_ret.
    destruct (handle_new_content E ticket current _ _) as [[[]|e] w1]; congruence.
  - intros Hb. unfold stream_output_step, try_except. rewrite Htry, Hb. reflexivity.
  - intros Hsent. unfold stream_output_step, try_except. rewrite Htry.
    destruct (PyStr.truthy _); [|eauto].
    unfold mbind, M_bind, mret, M_ret. rewrite Hrun.
    unfold websocket_send_json. rewrite Hsent. eauto.
  - intros Hne Hraise. unfold stream_output_step, try_except. rewrite Htry, Hne.
    unfold mbind, M_bind, mret, M_ret. rewrite Hrun.
    unfold websocket_send_json.
    destruct (Hraise (length (calls (update_attention ticket att w3).2)) ev) as [msg ->].
    eauto.
Qed.

End PassClaims.



(** C7 fails as stated: the capture returns the new snapshot hello, the
    delivery of the delta raises, and the pass goes on with the empty stored
    snapshot it started from. *)
Lemma C7_counterexample :
  subprocess_run env_send_error 0 (capture_argv "T-1") = Completed 0 "hello" "" /\
  (stream_output_step env_send_error "T-1" "" world_empty).1 = Ok (Continue "").
Proof. vm_compute. split; reflexivity. Qed.

Lemma C7_delta_and_stored_snapshot_witness :
  pane_after = pane_before +:+ new_content_of pane_before pane_after /\
  (exists w', stream_output_step env_scrolled "T-1" pane_before world_auto
                = (Ok (Continue pane_after), w')) /\
  (exists w', stream_output_step env_send_error "T-1" "" world_empty
                = (Ok (Continue ""), w')).
Proof.
  destruct (C7_delta_and_stored_snapshot env_scrolled "T-1" pane_before world_auto pane_after "")
    as (H1 & _ & _ & _ & H5 & _); [reflexivity|].
  destruct (C7_delta_and_stored_snapshot env_send_error "T-1" "" world_empty "hello" "")
    as (_ & _ & _ & _ & _ & H6); [reflexivity|].
  split; [apply H1; vm_compute; reflexivity|].
  split; [apply H5; reflexivity|].
  apply H6; [vm_compute; reflexivity|].
  intros n ev. exists "connection closed". reflexivity.
Defined.

(** ** Registry operations *)

Lemma flags_le_refl l : flags_le l l.
Proof. split; [reflexivity|auto]. Qed.

Lemma flags_le_trans l1 l2 l3 : flags_le l1 l2 -> flags_le l2 l3 -> flags_le l1 l3.
Proof. intros [L1 H1] [L2 H2]. split; [congruence|auto]. Qed.

Global Instance grows_flags_preorder : PreOrder grows_flags.
Proof.
  split.
  - intros w t s H. exists s. split; [exact H|apply flags_le_refl].
  - intros w1 w2 w3 H12 H23 t s H.
    destruct (H12 t s H) as (s2 & H2 & L2). destruct (H23 t s2 H2) as (s3 & H3 & L3).
    exists s3. split; [exact H3|]. eapply flags_le_trans; eassumption.
Qed.

Lemma keeps_flags_grows w w' : keeps_flags w w' -> grows_flags w w'.
Proof.
  intros H t s Hs. destruct (H t s Hs) as (s' & Hs' & Heq).
  exists s'. split; [exact Hs'|]. rewrite Heq. apply flags_le_refl.
Qed.

Lemma stage_map_attrs stage attr :
  stage_map !! stage = Some attr -> attr ∈ stage_attrs.
Proof.
  intros H. apply elem_of_list_to_map_2 in H.
  unfold stage_attrs. repeat (apply elem_of_cons in H as [[= _ <-]|H]; [set_solver|]).
  now apply elem_of_nil in H.
Qed.

Lemma setattr_flags s attr v :
  attr ∈ stage_attrs ->
  exists i, stage_attrs !! i = Some attr /\
            stage_flags (setattr s attr v) = <[i := v]> (stage_flags s).
Proof.
  intros H. apply list_elem_of_lookup in H as [i Hi].
  exists i. split; [exact Hi|].
  do 6 (destruct i as [|i]; [injection Hi as <-; reflexivity|]).
  discriminate.
Qed.

Lemma setattr_true_grows s attr :
  attr ∈ stage_attrs -> flags_le (stage_flags s) (stage_flags (setattr s attr true)).
Proof.
  intros H. destruct (setattr_flags s attr true H) as (i & _ & ->).
  split; [now rewrite length_insert|].
  intros j Hj. destruct (decide (i = j)) as [->|Hne].
  - apply list_lookup_insert_eq. now apply lookup_lt_Some in Hj.
  - now rewrite list_lookup_insert_ne.
Qed.

Section Registry.
Variable E : Env.

(** the record the operation finds, or the default one it creates *)
Lemma ensure_session_run ticket w :
  exists w1,
    ensure_session E ticket w = (Ok tt, w1) /\
    sessions w1 !! ticket
      = Some (default (SessionStatus_new E ticket) (sessions w !! ticket)) /\
    (forall t, t <> ticket -> sessions w1 !! t = sessions w !! t).
Proof.
  unfold ensure_session, modify, set_sessions; simpl.
  eexists. split; [reflexivity|]. simpl.
  destruct (sessions w !! ticket) as [s|] eqn:Hs; simpl.
  - split; auto.
  - split; [apply lookup_insert_eq|].
    intros t Hne. now apply lookup_insert_ne.
Qed.

Lemma write_session_run ticket f w s :
  sessions w !! ticket = Some s ->
  write_session ticket f w = (Ok tt, set_sessions <[ticket := f s]> w).
Proof. intros H. unfold write_session. munfold. now rewrite H. Qed.

Lemma ensure_session_keeps_flags ticket : post (ensure_session E ticket) keeps_flags.
Proof.
  intros w t s Hs. destruct (ensure_session_run ticket w) as (w1 & -> & Ht & Hne).
  simpl. destruct (decide (t = ticket)) as [->|Hd].
  - rewrite Ht, Hs. simpl. eauto.
  - rewrite (Hne t Hd). eauto.
Qed.

(** a write that maps every record to one related to it *)
Lemma write_session_post ticket f (P : SessionStatus -> SessionStatus -> Prop) :
  (forall s, P s (f s)) ->
  forall w t s, sessions w !! t = Some s ->
    exists s', sessions (write_session ticket f w).2 !! t = Some s' /\ (s' = s \/ P s s').
Proof.
  intros HP w t s Hs. unfold write_session. munfold.
  destruct (sessions w !! ticket) as [s0|] eqn:H0; simpl; [|eauto].
  rewrite lookup_insert. case_decide; [|eauto].
  subst t. rewrite H0 in Hs. injection Hs as <-. eauto.
Qed.

Lemma write_session_keeps_flags ticket f :
  (forall s, stage_flags (f s) = stage_flags s) ->
  post (write_session ticket f) keeps_flags.
Proof.
  intros Hf w t s Hs.
  destruct (write_session_post ticket f (fun a b => stage_flags b = stage_flags a) Hf w t s Hs)
    as (s' & Hs' & [->|Hp]); eauto.
Qed.

Lemma write_session_grows_flags ticket f :
  (forall s, flags_le (stage_flags s) (stage_flags (f s))) ->
  post (write_session ticket f) grows_flags.
Proof.
  intros Hf w t s Hs.
  destruct (write_session_post ticket f (fun a b => flags_le (stage_flags a) (stage_flags b))
              Hf w t s Hs) as (s' & Hs' & [->|Hp]); eauto using flags_le_refl.
Qed.

Lemma update_stage_run ticket stage done w :
  exists w',
    update_stage E ticket stage done w = (Ok [("ok", JBool true)], w') /\
    sessions w' !! ticket =
      Some (let s := default (SessionStatus_new E ticket) (sessions w !! ticket) in
            match stage_map !! stage with
            | Some attr => setattr s attr done
            | None => s
            end) /\
    (forall t, t <> ticket -> sessions w' !! t = sessions w !! t).
Proof.
  destruct (ensure_session_run ticket w) as (w1 & Hrun & Ht & Hne).
  unfold update_stage. unfold mbind at 1, M_bind at 1.
  rewrite Hrun.
  destruct (stage_map !! stage) as [attr|]; simpl.
  - unfold mbind, M_bind. rewrite (write_session_run _ _ _ _ Ht). simpl.
    eexists. split; [reflexivity|]. simpl. split; [apply lookup_insert_eq|].
    intros t Hd. rewrite lookup_insert_ne by congruence. now apply Hne.
  - unfold mbind, M_bind, mret, M_ret. eexists. split; [reflexivity|]. auto.
Qed.

Lemma set_linear_info_run ticket title description w :
  exists w',
    set_linear_info E ticket title description w = (Ok [("ok", JBool true)], w') /\
    sessions w' !! ticket =
      Some (set_linear_description description
              (set_linear_title title
                 (default (SessionStatus_new E ticket) (sessions w !! ticket)))) /\
    (forall t, t <> ticket -> sessions w' !! t = sessions w !! t).
Proof.
  destruct (ensure_session_run ticket w) as (w1 & Hrun & Ht & Hne).
  unfold set_linear_info. unfold mbind at 1, M_bind at 1.
  rewrite Hrun.
  unfold mbind at 1, M_bind at 1. rewrite (write_session_run _ _ _ _ Ht).
  unfold mbind at 1, M_bind at 1.
  erewrite write_session_run by (simpl; apply lookup_insert_eq).
  unfold mret, M_ret. eexists. split; [reflexivity|]. simpl.
  split; [apply lookup_insert_eq|].
  intros t Hd. rewrite !lookup_insert_ne by congruence. now apply Hne.
Qed.

Lemma set_claude_mode_run ticket mode w :
  exists w',
    set_claude_mode E ticket mode w = (Ok [("ok", JBool true); ("mode", JStr mode)], w') /\
    sessions w' !! ticket =
      Some (let s := default (SessionStatus_new E ticket) (sessions w !! ticket) in
            if decide (mode = "auto_accept")
            then set_auto_accept true (set_mode ClaudeMode.AUTO_ACCEPT s)
            else set_auto_accept false (set_mode ClaudeMode.PLANNING s)) /\
    (forall t, t <> ticket -> sessions w' !! t = sessions w !! t).
Proof.
  destruct (ensure_session_run ticket w) as (w1 & Hrun & Ht & Hne).
  unfold set_claude_mode. unfold mbind at 1, M_bind at 1.
  rewrite Hrun.
  destruct (decide (mode = "auto_accept")).
  - unfold mbind at 1, M_bind at 1.
    unfold mbind at 1, M_bind at 1. rewrite (write_session_run _ _ _ _ Ht).
    erewrite write_session_run by (simpl; apply lookup_insert_eq).
    unfold mret, M_ret. eexists. split; [reflexivity|]. simpl.
    split; [apply lookup_insert_eq|].
    intros t Hd. rewrite !lookup_insert_ne by congruence. now apply Hne.
  - unfold mbind at 1, M_bind at 1.
    unfold mbind at 1, M_bind at 1. rewrite (write_session_run _ _ _ _ Ht).
    erewrite write_session_run by (simpl; apply lookup_insert_eq).
    unfold mret, M_ret. eexists. split; [reflexivity|]. simpl.
    split; [apply lookup_insert_eq|].
    intros t Hd. rewrite !lookup_insert_ne by congruence. now apply Hne.
Qed.

(** the stage names are looked up one by one *)
Lemma stage_map_lookup stage :
  stage_map !! stage =
    if decide (stage = "linear") then Some "linear_pulled"
    else if decide (stage = "specify") then Some "specify_done"
    else if decide (stage = "clarify") then Some "clarify_done"
    else if decide (stage = "plan") then Some "plan_done"
    else if decide (stage = "tasks") then Some "tasks_done"
    else if decide (stage = "implement") then Some "implement_done"
    else None.
Proof.
  unfold stage_map. cbn [list_to_map foldr fst snd uncurry]. 
  rewrite !lookup_insert, lookup_empty.
  repeat (case_decide; subst; try congruence; try reflexivity).
Qed.

(** the record a stage update makes of [s], field by field *)
Lemma stage_write_fields s stage done :
  match stage_map !! stage with
  | Some attr => setattr s attr done
  | None => s
  end
  = {| ticket := ticket s; state := state s; message := message s;
       updated_at := updated_at s;
       linear_pulled := if decide (stage = "linear") then done else linear_pulled s;
       specify_done := if decide (stage = "specify") then done else specify_done s;
       clarify_done := if decide (stage = "clarify") then done else clarify_done s;
       plan_done := if decide (stage = "plan") then done else plan_done s;
       tasks_done := if decide (stage = "tasks") then done else tasks_done s;
       implement_done := if decide (stage = "implement") then done else implement_done s;
       auto_accept := auto_accept s; needs_attention := needs_attention s;
       linear_title := linear_title s; linear_description := linear_description s;
       in_grid := in_grid s; claude_mode := claude_mode s |}.
Proof.
  rewrite stage_map_lookup.
  repeat (case_decide; [subst; reflexivity|]). now destruct s.
Qed.

(** C9: a stage update, a metadata update or a mode update for a ticket the
    registry does not know returns its ok response and leaves a record for
    that ticket: the record with the default value in every field but the
    ones the operation writes, which hold the values of the request. The
    records of the other tickets stay as they are. *)
Theorem C9_unknown_ticket_upsert tk w :
  sessions w !! tk = None ->
  (forall stage done, exists w',
      update_stage E tk stage done w = (Ok [("ok", JBool true)], w') /\
      sessions w' !! tk =
        Some {| ticket := tk; state := SessionState.STARTING; message := None;
                updated_at := class_time E;
                linear_pulled := if decide (stage = "linear") then done else false;
                specify_done := if decide (stage = "specify") then done else false;
                clarify_done := if decide (stage = "clarify") then done else false;
                plan_done := if decide (stage = "plan") then done else false;
                tasks_done := if decide (stage = "tasks") then done else false;
                implement_done := if decide (stage = "implement") then done else false;
                auto_accept := false; needs_attention := false;
                linear_title := ""; linear_description := "";
                in_grid := false; claude_mode := ClaudeMode.PLANNING |} /\
      (forall t, t <> tk -> sessions w' !! t = sessions w !! t)) /\
  (forall title description, exists w',
      set_linear_info E tk title description w = (Ok [("ok", JBool true)], w') /\
      sessions w' !! tk =
        Some {| ticket := tk; state := SessionState.STARTING; message := None;
                updated_at := class_time E;
                linear_pulled := false; specify_done := false; clarify_done := false;
                plan_done := false; tasks_done := false; implement_done := false;
                auto_accept := false; needs_attention := false;
                linear_title := title; linear_description := description;
                in_grid := false; claude_mode := ClaudeMode.PLANNING |} /\
      (forall t, t <> tk -> sessions w' !! t = sessions w !! t)) /\
  (forall mode, exists w',
      set_claude_mode E tk mode w
        = (Ok [("ok", JBool true); ("mode", JStr mode)], w') /\
      sessions w' !! tk =
        Some {| ticket := tk; state := SessionState.STARTING; message := None;
                updated_at := class_time E;
                linear_pulled := false; specify_done := false; clarify_done := false;
                plan_done := false; tasks_done := false; implement_done := false;
                auto_accept := bool_decide (mode = "auto_accept");
                needs_attention := false;
                linear_title := ""; linear_description := "";
                in_grid := false;
                claude_mode := if decide (mode = "auto_accept")
                               then ClaudeMode.AUTO_ACCEPT else ClaudeMode.PLANNING |} /\
      (forall t, t <> tk -> sessions w' !! t = sessions w !! t)).
Proof.
  intros Hnone. split; [|split].
  - intros stage done. destruct (update_stage_run tk stage done w) as (w' & Hr & Hs & Ho).
    exists w'. split; [exact Hr|]. split; [|exact Ho].
    rewrite Hs, Hnone. cbv zeta. cbn [default]. now rewrite stage_write_fields.
  - intros title description.
    destruct (set_linear_info_run tk title description w) as (w' & Hr & Hs & Ho).
    exists w'. split; [exact Hr|]. split; [|exact Ho]. now rewrite Hs, Hnone.
  - intros mode. destruct (set_claude_mode_run tk mode w) as (w' & Hr & Hs & Ho).
    exists w'. split; [exact Hr|]. split; [|exact Ho]. rewrite Hs, Hnone.
    cbv zeta. cbn [default].
    destruct (decide (mode = "auto_accept")) as [->|Hm]; [reflexivity|].
    now rewrite bool_decide_eq_false_2 by exact Hm.
Qed.

(** C10: the mode operation always reports success, echoing the mode, and
    leaves a record whose auto_accept is true exactly when its claude_mode
    is AUTO_ACCEPT: the string auto_accept gives AUTO_ACCEPT and true, every
    other string gives PLANNING and false. *)
Theorem C10_mode_consistent ticket mode w :
  exists w' s,
    set_claude_mode E ticket mode w
      = (Ok [("ok", JBool true); ("mode", JStr mode)], w') /\
    sessions w' !! ticket = Some s /\
    (auto_accept s = true <-> claude_mode s = ClaudeMode.AUTO_ACCEPT) /\
    (mode = "auto_accept" ->
       claude_mode s = ClaudeMode.AUTO_ACCEPT /\ auto_accept s = true) /\
    (mode <> "auto_accept" ->
       claude_mode s = ClaudeMode.PLANNING /\ auto_accept s = false).
Proof.
  destruct (set_claude_mode_run ticket mode w) as (w' & Hr & Hs & _).
  eexists w', _. split; [exact Hr|]. split; [exact Hs|].
  cbv zeta. destruct (decide (mode = "auto_accept")) as [Hm|Hm]; simpl.
  - repeat split; auto; contradiction.
  - repeat split; try discriminate; try contradiction; auto.
Qed.

End Registry.

Section StageFlags.
Variable E : Env.

Lemma post_keeps_grows {A} (m : M A) : post m keeps_flags -> post m grows_flags.
Proof. apply post_weaken. apply keeps_flags_grows. Qed.

Lemma update_stage_set_grows ticket stage :
  post (update_stage E ticket stage true) grows_flags.
Proof.
  apply post_bind; [apply _| |intros _].
  { apply post_keeps_grows, ensure_session_keeps_flags. }
  apply post_bind; [apply _| |intros _; apply post_ret; apply _].
  destruct (stage_map !! stage) as [attr|] eqn:Hst; [|apply post_ret; apply _].
  apply write_session_grows_flags. intros s.
  apply setattr_true_grows. eapply stage_map_attrs, Hst.
Qed.

Lemma set_linear_info_keeps_flags ticket title description :
  post (set_linear_info E ticket title description) keeps_flags.
Proof.
  apply post_bind; [apply _|apply ensure_session_keeps_flags|intros _].
  apply post_bind; [apply _|now apply write_session_keeps_flags|intros _].
  apply post_bind; [apply _|now apply write_session_keeps_flags|intros _].
  apply post_ret; apply _.
Qed.

Lemma set_claude_mode_keeps_flags ticket mode :
  post (set_claude_mode E ticket mode) keeps_flags.
Proof.
  apply post_bind; [apply _|apply ensure_session_keeps_flags|intros _].
  apply post_bind; [apply _| |intros _; apply post_ret; apply _].
  destruct (decide _);
    (apply post_bind; [apply _|now apply write_session_keeps_flags|intros _]);
    now apply write_session_keeps_flags.
Qed.

Lemma init_sessions_keeps_flags tickets : post (init_sessions E tickets) keeps_flags.
Proof.
  induction tickets as [|t rest IH]; simpl; [apply post_ret; apply _|].
  intros w. unfold mbind at 1, M_bind at 1, gets.
  unfold mbind at 1, M_bind at 1.
  destruct (bool_decide (is_Some (sessions w !! t))) eqn:Hin.
  - unfold mret at 1, M_ret at 1. apply IH.
  - apply bool_decide_eq_false in Hin.
    unfold mbind at 1, M_bind at 1. unfold modify.
    etransitivity; [|apply IH].
    intros t' s Hs. unfold set_output_buffers, set_sessions; simpl.
    rewrite lookup_insert. case_decide; [|eauto].
    subst t'. exfalso. apply Hin. eauto.
Qed.

Lemma start_session_keeps_flags tickets : post (start_session E tickets) keeps_flags.
Proof.
  unfold start_session.
  destruct (negb (spawn_script_exists E)); [apply post_ret; apply _|].
  apply post_bind; [apply _| |intros [rc out err|msg]].
  - eapply post_weaken; [apply only_calls_keeps_flags|apply call_subprocess_calls].
  - apply post_bind; [apply _|apply init_sessions_keeps_flags|intros _].
    apply post_ret; apply _.
  - apply post_raise; apply _.
Qed.

Lemma stream_output_step_keeps_flags ticket last :
  post (stream_output_step E ticket last) keeps_flags.
Proof.
  apply stream_output_step_post; [apply _|apply only_calls_keeps_flags|].
  intros. apply handle_new_content_keeps_flags.
Qed.

End StageFlags.

(** C8 fails as stated: the stage update sets plan_done of T-1, and the same
    operation with done = false clears it again. *)
Lemma C8_counterexample :
  let w1 := (update_stage env_quiet "T-1" "plan" true world_empty).2 in
  let w2 := (update_stage env_quiet "T-1" "plan" false w1).2 in
  (plan_done <$> sessions w1 !! "T-1") = Some true /\
  (plan_done <$> sessions w2 !! "T-1") = Some false.
Proof. vm_compute. split; reflexivity. Qed.

Lemma C9_unknown_ticket_upsert_witness :
  (exists w', update_stage env_quiet "T-9" "plan" true world_auto = (Ok [("ok", JBool true)], w') /\
     (plan_done <$> sessions w' !! "T-9") = Some true /\
     (tasks_done <$> sessions w' !! "T-9") = Some false) /\
  (exists w', set_linear_info env_quiet "T-9" "Title" "Text" world_auto
                = (Ok [("ok", JBool true)], w') /\
     (linear_title <$> sessions w' !! "T-9") = Some "Title" /\
     (linear_description <$> sessions w' !! "T-9") = Some "Text") /\
  (exists w', set_claude_mode env_quiet "T-9" "fast" world_auto
                = (Ok [("ok", JBool true); ("mode", JStr "fast")], w') /\
     (claude_mode <$> sessions w' !! "T-9") = Some ClaudeMode.PLANNING /\
     sessions w' !! "T-1" = sessions world_auto !! "T-1").
Proof.
  destruct (C9_unknown_ticket_upsert env_quiet "T-9" world_auto) as (H1 & H2 & H3);
    [vm_compute; reflexivity|].
  split; [|split].
  - destruct (H1 "plan" true) as (w' & Hr & Hl & _). exists w'. split; [exact Hr|].
    rewrite Hl. split; reflexivity.
  - destruct (H2 "Title" "Text") as (w' & Hr & Hl & _). exists w'. split; [exact Hr|].
    rewrite Hl. split; reflexivity.
  - destruct (H3 "fast") as (w' & Hr & Hl & Ho). exists w'. split; [exact Hr|].
    rewrite Hl. split; [reflexivity|]. apply Ho. discriminate.
Defined.

Lemma C10_mode_consistent_witness :
  exists w' s,
    set_claude_mode env_quiet "T-1" "yolo" world_auto
      = (Ok [("ok", JBool true); ("mode", JStr "yolo")], w') /\
    sessions w' !! "T-1" = Some s /\
    claude_mode s = ClaudeMode.PLANNING /\ auto_accept s = false.
Proof.
  destruct (C10_mode_consistent env_quiet "T-1" "yolo" world_auto)
    as (w' & s & Hr & Hs & _ & _ & Hp).
  exists w', s. split; [exact Hr|]. split; [exact Hs|]. apply Hp. discriminate.
Defined.

(** ** The detectors on literal phrases *)

Lemma cat_eps r : cat Eps r = r.
Proof. destruct r; reflexivity. Qed.

(** a character above 127 that a pattern character also matches starts with
    another byte than the pattern character *)
Lemma deriv_chr_same ic c : deriv ic c (Chr c) = Eps.
Proof. destruct ic, c as [[] [] [] [] [] [] [] []]; vm_compute; reflexivity. Qed.

Lemma match_nullable ic r s : nullable r = true -> match_ ic r s = true.
Proof. intros H. destruct s; simpl; now rewrite H. Qed.

Lemma match_lit ic p s : PyStr.startswith s p = true -> match_ ic (lit p) s = true.
Proof.
  revert s. induction p as [|c p IH]; intros s H.
  - now apply match_nullable.
  - destruct s as [|b s]; simpl in H; [discriminate|].
    destruct (decide (c = b)) as [<-|]; [|discriminate].
    destruct p as [|c' p].
    + change (lit (String c "")) with (Chr c). cbn [match_ nullable orb].
      rewrite deriv_chr_same. now apply match_nullable.
    + change (lit (String c (String c' p))) with (Cat (Chr c) (lit (String c' p))).
      change (match_ ic (Cat (Chr c) (lit (String c' p))) (String c s))
        with (match_ ic (cat (deriv ic c (Chr c)) (lit (String c' p))) s).
      rewrite deriv_chr_same, cat_eps. now apply IH.
Qed.

Lemma search_lit ic p s : PyStr.contains p s = true -> search ic (lit p) s = true.
Proof.
  induction s as [|b s IH]; intros H.
  - simpl in H. rewrite orb_false_r in H.
    cbn [search]. now rewrite (match_lit ic p "" H).
  - cbn [PyStr.contains] in H. apply orb_true_iff in H as [H|H].
    + cbn [search]. now rewrite (match_lit ic p _ H).
    + cbn [search]. rewrite (IH H). apply orb_true_r.
Qed.

(** the phrase of the third menu option, wherever it stands in the text,
    keeps auto_accept_if_safe from calling anything *)
Lemma type_here_never_accepted E ticket output w :
  PyStr.contains "Type here to tell Claude" output = true ->
  auto_accept_if_safe E ticket output w = (Ok false, w).
Proof.
  intros H. apply auto_accept_human.
  unfold needs_human_decision, HUMAN_NEEDED_PATTERNS. cbn [existsb].
  now rewrite (search_lit true _ _ H).
Qed.

(** ** Test vectors *)

Example permission_proceed : is_permission_prompt "Do you want to proceed?" = true.
Proof. vm_compute. reflexivity. Qed.

Example permission_case_sensitive : is_permission_prompt "do you want to proceed?" = false.
Proof. vm_compute. reflexivity. Qed.

Example permission_menu : is_permission_prompt ("❯  1." +:+ String PyStr.nl " Yes") = true.
Proof. vm_compute. reflexivity. Qed.

Example human_ignores_case :
  needs_human_decision "[Y/n] type HERE to tell claude what" = true.
Proof. vm_compute. reflexivity. Qed.

Example human_one_space : needs_human_decision "please PICK   from" = false.
Proof. vm_compute. reflexivity. Qed.

Example human_pick_from : needs_human_decision "please PICK From these" = true.
Proof. vm_compute. reflexivity. Qed.

Example split_trailing_newline :
  PyStr.split_nl ("a" +:+ String PyStr.nl ("b" +:+ String PyStr.nl "")) = ["a"; "b"; ""].
Proof. vm_compute. reflexivity. Qed.

Example strip_both_ends : PyStr.strip ("  a b" +:+ String PyStr.nl " ") = "a b".
Proof. vm_compute. reflexivity. Qed.

Example buffer_overflow_evicts_oldest :
  buffer_append (replicate 199 "old") ("n1" +:+ String PyStr.nl "n2")
    = replicate 198 "old" ++ ["n1"; "n2"].
Proof. vm_compute. reflexivity. Qed.

(** the encoder on the characters the tables and the patterns name *)
Example utf8_characters :
  PyStr.utf8 0x41 = "A" /\ PyStr.utf8 0x17F = "ſ" /\ PyStr.utf8 0x130 = "İ" /\
  PyStr.utf8 0x131 = "ı" /\ PyStr.utf8 0x276F = "❯" /\ PyStr.utf8 0x3000 = "　".
Proof. vm_compute. repeat split; reflexivity. Qed.

Example lower_bytes :
  PyStr.dotted_capital_i = PyStr.bytes [196; 176]%N /\
  PyStr.kelvin_sign = PyStr.bytes [226; 132; 170]%N.
Proof. vm_compute. split; reflexivity. Qed.

(** re.IGNORECASE takes the long s for an s, the Kelvin sign for a k and both
    U+0130 and U+0131 for an i; without the flag a pattern takes none *)
Example human_long_s : needs_human_decision "[Y/n] ſhould I go on" = true.
Proof. vm_compute. reflexivity. Qed.

Example human_kelvin :
  needs_human_decision ("pic" +:+ PyStr.kelvin_sign +:+ " from the list") = true.
Proof. vm_compute. reflexivity. Qed.

Example human_dotted_and_dotless_i :
  needs_human_decision "whİch one" = true /\ needs_human_decision "whıch one" = true.
Proof. vm_compute. split; reflexivity. Qed.

Example permission_is_exact :
  is_permission_prompt ("Preſs Enter to continue") = false /\
  is_permission_prompt ("Proceed w" +:+ PyStr.dotless_i +:+ "th this") = false.
Proof. vm_compute. split; reflexivity. Qed.

(** [str.lower] turns U+0130 into i and a combining dot, which ends the
    match that re.IGNORECASE finds on the text itself *)
Example lower_dotted_i :
  PyStr.lower "whİch one" = "whi" +:+ PyStr.dot_above +:+ "ch one" /\
  needs_human_decision (PyStr.lower "whİch one") = false.
Proof. vm_compute. split; reflexivity. Qed.

Example clarification_kelvin :
  fallback_needs_clarification ("would you li" +:+ PyStr.kelvin_sign +:+ "e a copy") = true.
Proof. vm_compute. reflexivity. Qed.

(** every whitespace character of Unicode is [\s] and is stripped *)
Example permission_menu_wide_spaces :
  is_permission_prompt
    ("❯" +:+ PyStr.utf8 0xA0 +:+ "1." +:+ PyStr.utf8 0x85 +:+ PyStr.utf8 0x1680
         +:+ PyStr.utf8 0x2000 +:+ PyStr.utf8 0x2001 +:+ PyStr.utf8 0x2002
         +:+ PyStr.utf8 0x2003 +:+ PyStr.utf8 0x2004 +:+ PyStr.utf8 0x2005
         +:+ PyStr.utf8 0x2006 +:+ PyStr.utf8 0x2007 +:+ PyStr.utf8 0x2008
         +:+ PyStr.utf8 0x2009 +:+ PyStr.utf8 0x200A +:+ PyStr.utf8 0x2028
         +:+ PyStr.utf8 0x2029 +:+ PyStr.utf8 0x202F +:+ PyStr.utf8 0x205F
         +:+ PyStr.utf8 0x3000 +:+ "Yes") = true /\
  is_permission_prompt ("❯" +:+ PyStr.utf8 0x200B +:+ "1. Yes") = false.
Proof. vm_compute. split; reflexivity. Qed.

Example strip_wide_spaces :
  PyStr.strip (PyStr.utf8 0xA0 +:+ String PyStr.nl (PyStr.utf8 0x2003)) = "" /\
  PyStr.strip (PyStr.utf8 0x3000 +:+ "T-1" +:+ PyStr.utf8 0xA0 +:+ String PyStr.nl "") = "T-1" /\
  PyStr.strip (PyStr.utf8 0x200B) = PyStr.utf8 0x200B /\
  PyStr.strip ("a" +:+ PyStr.utf8 0xA0 +:+ "b") = "a" +:+ PyStr.utf8 0xA0 +:+ "b".
Proof. vm_compute. repeat split; reflexivity. Qed.

Example listed_tickets_wide_space :
  listed_tickets ("T-1" +:+ PyStr.utf8 0xA0 +:+ String PyStr.nl "") = ["T-1"].
Proof. vm_compute. reflexivity. Qed.

(** Scenario B of the spec: the fallback finds rm -rf, nothing is sent *)
Example scenario_B :
  auto_accept_if_safe env_quiet "T-1" "rm -rf /tmp/x - Do you want to proceed? [Y/n]" world_auto
    = (Ok false, world_auto).
Proof. vm_compute. reflexivity. Qed.

(** * Further properties *)

(** ** Lines and text *)

Lemma split_nl_nonempty s : PyStr.split_nl s <> [].
Proof.
  destruct s as [|c s]; simpl; [discriminate|].
  destruct (decide (c = PyStr.nl)); [discriminate|].
  destruct (PyStr.split_nl s); discriminate.
Qed.

Lemma join_nl_cons_char c h t :
  PyStr.join_nl (String c h :: t) = String c (PyStr.join_nl (h :: t)).
Proof. destruct t; reflexivity. Qed.

Lemma join_nl_split_nl s : PyStr.join_nl (PyStr.split_nl s) = s.
Proof.
  induction s as [|c s IH]; [reflexivity|]. simpl.
  destruct (decide (c = PyStr.nl)) as [->|Hc].
  - pose proof (split_nl_nonempty s) as Hne.
    destruct (PyStr.split_nl s) as [|h t] eqn:Hs; [contradiction|].
    change (PyStr.join_nl ("" :: h :: t)) with (String PyStr.nl (PyStr.join_nl (h :: t))).
    now rewrite IH.
  - pose proof (split_nl_nonempty s) as Hne.
    destruct (PyStr.split_nl s) as [|h t] eqn:Hs; [contradiction|].
    rewrite join_nl_cons_char. now rewrite IH.
Qed.

(** X1: splitting a text at its newlines and joining the lines with newlines
    gives the text back, and a text with n newlines splits into n + 1
    lines, so that the empty text is one empty line. *)
Theorem X1_join_split_roundtrip s :
  PyStr.join_nl (PyStr.split_nl s) = s /\
  length (PyStr.split_nl s)
    = S (length (filter (fun c => c = PyStr.nl) (String.list_ascii_of_string s))).
Proof.
  split; [apply join_nl_split_nl|].
  induction s as [|c s IH]; [reflexivity|]. simpl.
  pose proof (split_nl_nonempty s) as Hne.
  rewrite filter_cons. destruct (decide (c = PyStr.nl)) as [->|Hc]; simpl.
  - now rewrite IH.
  - destruct (PyStr.split_nl s) as [|h t]; [contradiction|]. exact IH.
Qed.

(** ** Detectors under context and case *)

Lemma startswith_app s p t :
  PyStr.startswith s p = true -> PyStr.startswith (s +:+ t) p = true.
Proof.
  revert s. induction p as [|a p IH]; intros s H; [destruct (s +:+ t); reflexivity|].
  destruct s as [|b s]; simpl in H; [discriminate|].
  change (String b s +:+ t) with (String b (s +:+ t)). simpl.
  destruct (decide (a = b)); [now apply IH|discriminate].
Qed.

Lemma contains_app_r p s t :
  PyStr.contains p s = true -> PyStr.contains p (s +:+ t) = true.
Proof.
  induction s as [|b s IH]; intros H.
  - simpl in H. rewrite orb_false_r in H.
    destruct p; [|discriminate]. destruct t; reflexivity.
  - change (String b s +:+ t) with (String b (s +:+ t)).
    cbn [PyStr.contains] in *. apply orb_true_iff in H as [H|H].
    + change (String b (s +:+ t)) with (String b s +:+ t).
      now rewrite (startswith_app _ _ t H).
    + rewrite (IH H). apply orb_true_r.
Qed.

Lemma contains_app_l p s t :
  PyStr.contains p s = true -> PyStr.contains p (t +:+ s) = true.
Proof.
  intros H. induction t as [|b t IH]; [exact H|].
  change (String b t +:+ s) with (String b (t +:+ s)).
  cbn [PyStr.contains]. rewrite IH. apply orb_true_r.
Qed.

(** *** [str.lower] and the phrases of characters below 128 *)

Lemma nat_of_ascii_eq c n : Ascii.nat_of_ascii c = n -> c = Ascii.ascii_of_nat n.
Proof. intros <-. now rewrite Ascii.ascii_nat_embedding. Qed.

Lemma lower_plain c s :
  Ascii.nat_of_ascii c <> 196 -> Ascii.nat_of_ascii c <> 226 ->
  PyStr.lower (String c s) = String (PyStr.lower_char c) (PyStr.lower s).
Proof.
  intros H1 H2. cbn [PyStr.lower].
  destruct (decide (Ascii.nat_of_ascii c = 196)); [contradiction|].
  destruct (decide (Ascii.nat_of_ascii c = 226)); [contradiction|]. reflexivity.
Qed.

Lemma lower_196_176 c2 s :
  Ascii.nat_of_ascii c2 = 176 ->
  PyStr.lower (String PyStr.b196 (String c2 s))
    = String "i" PyStr.dot_above +:+ PyStr.lower s.
Proof.
  intros H. cbn [PyStr.lower]. rewrite (decide_True (P := _ = 196)) by reflexivity.
  now rewrite (decide_True (P := _ = 176)) by exact H.
Qed.

Lemma lower_196_other c2 s :
  Ascii.nat_of_ascii c2 <> 176 ->
  PyStr.lower (String PyStr.b196 (String c2 s))
    = String PyStr.b196 (PyStr.lower (String c2 s)).
Proof.
  intros H.
  change (PyStr.lower (String PyStr.b196 (String c2 s)))
    with (if decide (Ascii.nat_of_ascii c2 = 176)
          then String "i" PyStr.dot_above +:+ PyStr.lower s
          else String PyStr.b196 (PyStr.lower (String c2 s))).
  now rewrite decide_False by exact H.
Qed.

Lemma lower_226_one c2 :
  PyStr.lower (String PyStr.b226 (String c2 ""))
    = String PyStr.b226 (PyStr.lower (String c2 "")).
Proof. reflexivity. Qed.

Lemma lower_226_kelvin c2 c3 s :
  Ascii.nat_of_ascii c2 = 132 -> Ascii.nat_of_ascii c3 = 170 ->
  PyStr.lower (String PyStr.b226 (String c2 (String c3 s))) = String "k" (PyStr.lower s).
Proof.
  intros H2 H3.
  change (PyStr.lower (String PyStr.b226 (String c2 (String c3 s))))
    with (if decide (Ascii.nat_of_ascii c2 = 132 /\ Ascii.nat_of_ascii c3 = 170)
          then String "k" (PyStr.lower s)
          else String PyStr.b226 (PyStr.lower (String c2 (String c3 s)))).
  now rewrite decide_True by (split; assumption).
Qed.

Lemma lower_226_other c2 c3 s :
  ~ (Ascii.nat_of_ascii c2 = 132 /\ Ascii.nat_of_ascii c3 = 170) ->
  PyStr.lower (String PyStr.b226 (String c2 (String c3 s)))
    = String PyStr.b226 (PyStr.lower (String c2 (String c3 s))).
Proof.
  intros H.
  change (PyStr.lower (String PyStr.b226 (String c2 (String c3 s))))
    with (if decide (Ascii.nat_of_ascii c2 = 132 /\ Ascii.nat_of_ascii c3 = 170)
          then String "k" (PyStr.lower s)
          else String PyStr.b226 (PyStr.lower (String c2 (String c3 s)))).
  now rewrite decide_False by exact H.
Qed.

Lemma append_nil_r s : s +:+ "" = s.
Proof.
  induction s as [|c s IH]; [reflexivity|].
  change (String c s +:+ "") with (String c (s +:+ "")). now rewrite IH.
Qed.

(** to the right of [s] the text only changes the characters above 127 that
    end the result *)
Lemma lower_right n :
  forall s t, String.length s <= n ->
    exists u v y,
      PyStr.lower s = u +:+ v /\ PyStr.lower (s +:+ t) = u +:+ y /\
      PyStr.all_bytes PyStr.above_127 v = true.
Proof.
  induction n as [|n IH]; intros s t Hn.
  { destruct s; [|simpl in Hn; lia]. exists "", "", (PyStr.lower t). auto. }
  destruct s as [|c s1].
  { exists "", "", (PyStr.lower t). auto. }
  simpl in Hn.
  change (String c s1 +:+ t) with (String c (s1 +:+ t)).
  assert (Hplain : forall b, exists u v y,
             String b (PyStr.lower s1) = u +:+ v /\
             String b (PyStr.lower (s1 +:+ t)) = u +:+ y /\
             PyStr.all_bytes PyStr.above_127 v = true).
  { intros b. destruct (IH s1 t) as (u & v & y & H1 & H2 & H3); [lia|].
    exists (String b u), v, y. rewrite H1, H2. auto. }
  destruct (decide (Ascii.nat_of_ascii c = 196)) as [Hc|Hc].
  - apply nat_of_ascii_eq in Hc. change (Ascii.ascii_of_nat 196) with PyStr.b196 in Hc.
    subst c. destruct s1 as [|c2 s2].
    + exists "", (String PyStr.b196 ""), (PyStr.lower (String PyStr.b196 t)). auto.
    + change (String c2 s2 +:+ t) with (String c2 (s2 +:+ t)) in *.
      destruct (decide (Ascii.nat_of_ascii c2 = 176)) as [H2|H2].
      * rewrite !lower_196_176 by exact H2.
        destruct (IH s2 t) as (u & v & y & H1 & H3 & H4); [simpl in Hn; lia|].
        exists (String "i" PyStr.dot_above +:+ u), v, y. rewrite H1, H3. auto.
      * rewrite !lower_196_other by exact H2. apply Hplain.
  - destruct (decide (Ascii.nat_of_ascii c = 226)) as [Hc'|Hc'].
    + apply nat_of_ascii_eq in Hc'. change (Ascii.ascii_of_nat 226) with PyStr.b226 in Hc'.
      subst c. destruct s1 as [|c2 [|c3 s3]].
      * exists "", (String PyStr.b226 ""), (PyStr.lower (String PyStr.b226 t)). auto.
      * change (String c2 "" +:+ t) with (String c2 t) in *.
        destruct t as [|c3 t3].
        { exists (PyStr.lower (String PyStr.b226 (String c2 ""))), "", "".
          rewrite !append_nil_r. auto. }
        destruct (decide (Ascii.nat_of_ascii c2 = 132 /\ Ascii.nat_of_ascii c3 = 170))
          as [[H2 H3]|H23].
        { rewrite lower_226_kelvin by assumption.
          exists "", (PyStr.lower (String PyStr.b226 (String c2 ""))),
                 (String "k" (PyStr.lower t3)).
          split; [reflexivity|]. split; [reflexivity|].
          apply nat_of_ascii_eq in H2. subst c2. reflexivity. }
        rewrite lower_226_other by exact H23. rewrite lower_226_one. apply Hplain.
      * change (String c2 (String c3 s3) +:+ t) with (String c2 (String c3 (s3 +:+ t))) in *.
        destruct (decide (Ascii.nat_of_ascii c2 = 132 /\ Ascii.nat_of_ascii c3 = 170))
          as [[H2 H3]|H23].
        { rewrite !lower_226_kelvin by assumption.
          destruct (IH s3 t) as (u & v & y & H1 & H4 & H5); [simpl in Hn; lia|].
          exists (String "k" u), v, y. rewrite H1, H4. auto. }
        rewrite !lower_226_other by exact H23. apply Hplain.
    + rewrite !lower_plain by assumption. apply Hplain.
Qed.

(** to the left of [s] the text only changes the characters above 127 that
    start the result *)
Lemma lower_left n :
  forall t s, String.length t <= n ->
    exists v u x,
      PyStr.lower s = v +:+ u /\ PyStr.lower (t +:+ s) = x +:+ u /\
      PyStr.all_bytes PyStr.above_127 v = true.
Proof.
  induction n as [|n IH]; intros t s Hn.
  { destruct t; [|simpl in Hn; lia]. exists "", (PyStr.lower s), "". auto. }
  destruct t as [|c t1].
  { exists "", (PyStr.lower s), "". auto. }
  simpl in Hn.
  change (String c t1 +:+ s) with (String c (t1 +:+ s)).
  assert (Hplain : forall b, exists v u x,
             PyStr.lower s = v +:+ u /\
             String b (PyStr.lower (t1 +:+ s)) = x +:+ u /\
             PyStr.all_bytes PyStr.above_127 v = true).
  { intros b. destruct (IH t1 s) as (v & u & x & H1 & H2 & H3); [lia|].
    exists v, u, (String b x). rewrite H2. auto. }
  destruct (decide (Ascii.nat_of_ascii c = 196)) as [Hc|Hc].
  - apply nat_of_ascii_eq in Hc. change (Ascii.ascii_of_nat 196) with PyStr.b196 in Hc.
    subst c. destruct t1 as [|c2 t2].
    + change ("" +:+ s) with s in *. destruct s as [|c2 s2].
      * exists "", "", (String PyStr.b196 ""). auto.
      * destruct (decide (Ascii.nat_of_ascii c2 = 176)) as [H2|H2].
        { rewrite lower_196_176 by exact H2.
          rewrite (lower_plain c2) by lia.
          exists (String (PyStr.lower_char c2) ""), (PyStr.lower s2),
                 (String "i" PyStr.dot_above).
          split; [reflexivity|]. split; [reflexivity|].
          apply nat_of_ascii_eq in H2. subst c2. reflexivity. }
        rewrite lower_196_other by exact H2.
        exists "", (PyStr.lower (String c2 s2)), (String PyStr.b196 ""). auto.
    + change (String c2 t2 +:+ s) with (String c2 (t2 +:+ s)) in *.
      destruct (decide (Ascii.nat_of_ascii c2 = 176)) as [H2|H2].
      * rewrite lower_196_176 by exact H2.
        destruct (IH t2 s) as (v & u & x & H1 & H3 & H4); [simpl in Hn; lia|].
        exists v, u, (String "i" PyStr.dot_above +:+ x). rewrite H3. auto.
      * rewrite lower_196_other by exact H2. apply Hplain.
  - destruct (decide (Ascii.nat_of_ascii c = 226)) as [Hc'|Hc'].
    + apply nat_of_ascii_eq in Hc'. change (Ascii.ascii_of_nat 226) with PyStr.b226 in Hc'.
      subst c. destruct t1 as [|c2 [|c3 t3]].
      * change ("" +:+ s) with s in *. destruct s as [|c2 [|c3 s3]].
        { exists "", "", (String PyStr.b226 ""). auto. }
        { exists "", (PyStr.lower (String c2 "")), (String PyStr.b226 ""). auto. }
        destruct (decide (Ascii.nat_of_ascii c2 = 132 /\ Ascii.nat_of_ascii c3 = 170))
          as [[H2 H3]|H23].
        { rewrite lower_226_kelvin by assumption.
          rewrite (lower_plain c2), (lower_plain c3) by lia.
          exists (String (PyStr.lower_char c2) (String (PyStr.lower_char c3) "")),
                 (PyStr.lower s3), (String "k" "").
          split; [reflexivity|]. split; [reflexivity|].
          apply nat_of_ascii_eq in H2, H3. subst c2 c3. reflexivity. }
        rewrite lower_226_other by exact H23.
        exists "", (PyStr.lower (String c2 (String c3 s3))), (String PyStr.b226 ""). auto.
      * change (String c2 "" +:+ s) with (String c2 s) in *. destruct s as [|c3 s3].
        { exists "", "", (PyStr.lower (String PyStr.b226 (String c2 ""))). 
          split; [reflexivity|]. split; [now rewrite append_nil_r|reflexivity]. }
        destruct (decide (Ascii.nat_of_ascii c2 = 132 /\ Ascii.nat_of_ascii c3 = 170))
          as [[H2 H3]|H23].
        { rewrite lower_226_kelvin by assumption.
          rewrite (lower_plain c3) by lia.
          exists (String (PyStr.lower_char c3) ""), (PyStr.lower s3), (String "k" "").
          split; [reflexivity|]. split; [reflexivity|].
          apply nat_of_ascii_eq in H3. subst c3. reflexivity. }
        rewrite lower_226_other by exact H23. apply Hplain.
      * change (String c2 (String c3 t3) +:+ s) with (String c2 (String c3 (t3 +:+ s))) in *.
        destruct (decide (Ascii.nat_of_ascii c2 = 132 /\ Ascii.nat_of_ascii c3 = 170))
          as [[H2 H3]|H23].
        { rewrite lower_226_kelvin by assumption.
          destruct (IH t3 s) as (v & u & x & H1 & H4 & H5); [simpl in Hn; lia|].
          exists v, u, (String "k" x). rewrite H4. auto. }
        rewrite lower_226_other by exact H23. apply Hplain.
    + rewrite lower_plain by assumption. apply Hplain.
Qed.

Lemma below_not_above a b :
  PyStr.below_128 a = true -> PyStr.above_127 b = true -> a <> b.
Proof. unfold PyStr.above_127. intros Ha Hb ->. rewrite Ha in Hb. discriminate. Qed.

Lemma startswith_nil s : PyStr.startswith s "" = true.
Proof. destruct s; reflexivity. Qed.

Lemma contains_nil s : PyStr.contains "" s = true.
Proof. destruct s; reflexivity. Qed.

Lemma contains_skip_above p v u :
  PyStr.all_bytes PyStr.below_128 p = true ->
  PyStr.all_bytes PyStr.above_127 v = true ->
  PyStr.contains p (v +:+ u) = true -> p = "" \/ PyStr.contains p u = true.
Proof.
  intros Hp. induction v as [|b v IH]; intros Hv H; [now right|].
  change (String b v +:+ u) with (String b (v +:+ u)) in H.
  cbn [PyStr.all_bytes] in Hv. apply andb_true_iff in Hv as [Hb Hv].
  cbn [PyStr.contains] in H. apply orb_true_iff in H as [H|H]; [|now apply IH].
  destruct p as [|a p]; [now left|]. exfalso.
  cbn [PyStr.all_bytes] in Hp. apply andb_true_iff in Hp as [Ha _].
  simpl in H. destruct (decide (a = b)) as [Hab|]; [|discriminate].
  now apply (below_not_above a b).
Qed.

Lemma startswith_before_above p u v y :
  PyStr.all_bytes PyStr.below_128 p = true ->
  PyStr.all_bytes PyStr.above_127 v = true ->
  PyStr.startswith (u +:+ v) p = true -> PyStr.startswith (u +:+ y) p = true.
Proof.
  intros Hp Hv. revert u. induction p as [|a p IH]; intros u H; [apply startswith_nil|].
  cbn [PyStr.all_bytes] in Hp. apply andb_true_iff in Hp as [Ha Hp].
  destruct u as [|c u].
  - exfalso. change ("" +:+ v) with v in H. destruct v as [|b v]; [discriminate|].
    cbn [PyStr.all_bytes] in Hv. apply andb_true_iff in Hv as [Hb _].
    simpl in H. destruct (decide (a = b)) as [Hab|]; [|discriminate].
    now apply (below_not_above a b).
  - change (String c u +:+ v) with (String c (u +:+ v)) in H.
    change (String c u +:+ y) with (String c (u +:+ y)).
    simpl in *. destruct (decide (a = c)); [now apply IH|discriminate].
Qed.

Lemma contains_before_above p u v y :
  PyStr.all_bytes PyStr.below_128 p = true ->
  PyStr.all_bytes PyStr.above_127 v = true ->
  PyStr.contains p (u +:+ v) = true -> PyStr.contains p (u +:+ y) = true.
Proof.
  intros Hp Hv. induction u as [|c u IH]; intros H.
  - change ("" +:+ v) with v in H. change ("" +:+ y) with y.
    rewrite <- (append_nil_r v) in H.
    destruct (contains_skip_above p v "" Hp Hv H) as [->|H']; [apply contains_nil|].
    destruct p; [apply contains_nil|discriminate].
  - change (String c u +:+ v) with (String c (u +:+ v)) in H.
    change (String c u +:+ y) with (String c (u +:+ y)).
    cbn [PyStr.contains] in *. apply orb_true_iff in H as [H|H].
    + change (String c (u +:+ v)) with (String c u +:+ v) in H.
      change (String c (u +:+ y)) with (String c u +:+ y).
      now rewrite (startswith_before_above p _ v y Hp Hv H).
    + rewrite (IH H). apply orb_true_r.
Qed.

(** a phrase of characters below 128 found in the lower case of a text is
    found in the lower case of every text around it *)
Lemma lower_contains_context p before text after :
  PyStr.all_bytes PyStr.below_128 p = true ->
  PyStr.contains p (PyStr.lower text) = true ->
  PyStr.contains p (PyStr.lower (before +:+ text +:+ after)) = true.
Proof.
  intros Hp H.
  destruct (lower_right (String.length text) text after (le_n _))
    as (u & v & y & H1 & H2 & Hv).
  rewrite H1 in H. apply (contains_before_above p u v y Hp Hv) in H. rewrite <- H2 in H.
  destruct (lower_left (String.length before) before (text +:+ after) (le_n _))
    as (v' & u' & x & H3 & H4 & Hv').
  rewrite H4. rewrite H3 in H.
  destruct (contains_skip_above p v' u' Hp Hv' H) as [->|H']; [apply contains_nil|].
  now apply contains_app_l.
Qed.

Lemma match_app ic r s t : match_ ic r s = true -> match_ ic r (s +:+ t) = true.
Proof.
  revert r. induction s as [|a s IH]; intros r H.
  - simpl in H. rewrite orb_false_r in H. now apply match_nullable.
  - change (String a s +:+ t) with (String a (s +:+ t)).
    change (match_ ic r (String a (s +:+ t)))
      with (nullable r || match_ ic (deriv ic a r) (s +:+ t)).
    change (match_ ic r (String a s))
      with (nullable r || match_ ic (deriv ic a r) s) in H.
    apply orb_true_iff in H as [H|H]; [now rewrite H|].
    rewrite (IH _ H). apply orb_true_r.
Qed.

Lemma search_of_match ic r s : match_ ic r s = true -> search ic r s = true.
Proof. intros H. destruct s; cbn [search]; now rewrite H. Qed.

Lemma search_app_r ic r s t : search ic r s = true -> search ic r (s +:+ t) = true.
Proof.
  induction s as [|a s IH]; intros H.
  - simpl in H. rewrite !orb_false_r in H.
    now apply search_of_match, match_nullable.
  - change (String a s +:+ t) with (String a (s +:+ t)).
    cbn [search] in H. apply orb_true_iff in H as [H|H].
    + apply search_of_match.
      change (String a (s +:+ t)) with (String a s +:+ t).
      now apply match_app.
    + cbn [search]. rewrite (IH H). apply orb_true_r.
Qed.

Lemma search_app_l ic r s t : search ic r s = true -> search ic r (t +:+ s) = true.
Proof.
  intros H. induction t as [|b t IH]; [exact H|].
  change (String b t +:+ s) with (String b (t +:+ s)).
  cbn [search]. rewrite IH. apply orb_true_r.
Qed.

Lemma existsb_impl {A} (f g : A -> bool) l :
  (forall x, f x = true -> g x = true) -> existsb f l = true -> existsb g l = true.
Proof.
  intros Hfg. induction l as [|x l IH]; simpl; [discriminate|].
  intros H. apply orb_true_iff in H as [H|H].
  - now rewrite (Hfg _ H).
  - rewrite (IH H). apply orb_true_r.
Qed.

Lemma existsb_impl_in {A} (f g : A -> bool) l :
  (forall x, In x l -> f x = true -> g x = true) ->
  existsb f l = true -> existsb g l = true.
Proof.
  induction l as [|x l IH]; simpl; intros Hfg H; [discriminate|].
  apply orb_true_iff in H as [H|H].
  - now rewrite (Hfg x (or_introl eq_refl) H).
  - rewrite IH; [apply orb_true_r| |exact H]. intros y Hy. apply Hfg. now right.
Qed.

Lemma dangerous_phrases_below_128 p :
  In p DANGEROUS_SUBSTRINGS -> PyStr.all_bytes PyStr.below_128 p = true.
Proof.
  unfold DANGEROUS_SUBSTRINGS. simpl.
  intros [<-|[<-|[<-|[<-|[]]]]]; reflexivity.
Qed.

(** X2: the four detectors are monotone in the text: a permission prompt, a
    human-decision cue, a destructive keyword or a clarification cue found in
    a text is found in every text that contains it. *)
Theorem X2_detectors_survive_context before text after :
  (is_permission_prompt text = true ->
     is_permission_prompt (before +:+ text +:+ after) = true) /\
  (needs_human_decision text = true ->
     needs_human_decision (before +:+ text +:+ after) = true) /\
  (dangerous text = true -> dangerous (before +:+ text +:+ after) = true) /\
  (fallback_needs_clarification text = true ->
     fallback_needs_clarification (before +:+ text +:+ after) = true).
Proof.
  split; [|split; [|split]].
  - apply existsb_impl. intros r H. now apply search_app_l, search_app_r.
  - apply existsb_impl. intros r H. now apply search_app_l, search_app_r.
  - apply existsb_impl_in. intros p Hp H.
    apply lower_contains_context; [now apply dangerous_phrases_below_128|exact H].
  - unfold fallback_needs_clarification. intros H.
    apply orb_true_iff in H as [H|H]; apply orb_true_iff; [left|right].
    + now apply contains_app_l, contains_app_r.
    + now apply lower_contains_context.
Qed.

Lemma X2_detectors_survive_context_witness :
  is_permission_prompt ("$ ls" +:+ "[Y/n]" +:+ " >") = true /\
  dangerous ("sudo " +:+ "RM -RF /" +:+ "") = true.
Proof.
  split.
  - apply (X2_detectors_survive_context "$ ls" "[Y/n]" " >"). vm_compute. reflexivity.
  - apply (X2_detectors_survive_context "sudo " "RM -RF /" ""). vm_compute. reflexivity.
Defined.

Lemma lower_char_idem c : PyStr.lower_char (PyStr.lower_char c) = PyStr.lower_char c.
Proof. destruct c as [[] [] [] [] [] [] [] []]; reflexivity. Qed.

Lemma isspace_lower_char c : PyStr.isspace (PyStr.lower_char c) = PyStr.isspace c.
Proof. destruct c as [[] [] [] [] [] [] [] []]; reflexivity. Qed.

Lemma lower_char_cases c :
  PyStr.lower_char c = c \/
  (Ascii.nat_of_ascii (PyStr.lower_char c) <? 128) && (Ascii.nat_of_ascii c <? 128) = true.
Proof.
  destruct c as [[] [] [] [] [] [] [] []];
    first [left; reflexivity | right; reflexivity].
Qed.

Lemma lower_char_nat c n :
  128 <= n ->
  Ascii.nat_of_ascii (PyStr.lower_char c) = n <-> Ascii.nat_of_ascii c = n.
Proof.
  intros Hn. destruct (lower_char_cases c) as [->|H]; [reflexivity|].
  apply andb_true_iff in H as [H1 H2]. apply Nat.ltb_lt in H1, H2. lia.
Qed.

Lemma lower_small_letters n :
  forall s, String.length s <= n -> PyStr.lower (PyStr.small_letters s) = PyStr.lower s.
Proof.
  induction n as [|n IH]; intros s Hn.
  { destruct s; [reflexivity|simpl in Hn; lia]. }
  destruct s as [|c s1]; [reflexivity|]. simpl in Hn.
  cbn [PyStr.small_letters].
  destruct (decide (Ascii.nat_of_ascii c = 196)) as [Hc|Hc].
  - apply nat_of_ascii_eq in Hc. change (Ascii.ascii_of_nat 196) with PyStr.b196 in Hc.
    subst c. change (PyStr.lower_char PyStr.b196) with PyStr.b196.
    destruct s1 as [|c2 s2]; [reflexivity|]. cbn [PyStr.small_letters].
    destruct (decide (Ascii.nat_of_ascii c2 = 176)) as [H2|H2].
    + rewrite (lower_196_176 (PyStr.lower_char c2))
        by (apply lower_char_nat; [lia|exact H2]).
      rewrite (lower_196_176 c2) by exact H2.
      rewrite IH by (simpl in Hn; lia). reflexivity.
    + rewrite (lower_196_other (PyStr.lower_char c2))
        by (rewrite lower_char_nat by lia; exact H2).
      rewrite (lower_196_other c2) by exact H2.
      change (String (PyStr.lower_char c2) (PyStr.small_letters s2))
        with (PyStr.small_letters (String c2 s2)).
      now rewrite IH by lia.
  - destruct (decide (Ascii.nat_of_ascii c = 226)) as [Hc'|Hc'].
    + apply nat_of_ascii_eq in Hc'. change (Ascii.ascii_of_nat 226) with PyStr.b226 in Hc'.
      subst c. change (PyStr.lower_char PyStr.b226) with PyStr.b226.
      destruct s1 as [|c2 [|c3 s3]]; [reflexivity| |].
      * cbn [PyStr.small_letters]. rewrite !lower_226_one.
        change (String (PyStr.lower_char c2) "") with (PyStr.small_letters (String c2 "")).
        now rewrite IH by lia.
      * cbn [PyStr.small_letters].
        destruct (decide (Ascii.nat_of_ascii c2 = 132 /\ Ascii.nat_of_ascii c3 = 170))
          as [[H2 H3]|H23].
        { rewrite (lower_226_kelvin (PyStr.lower_char c2) (PyStr.lower_char c3))
            by (apply lower_char_nat; [lia|assumption]).
          rewrite (lower_226_kelvin c2 c3) by assumption.
          rewrite IH by (simpl in Hn; lia). reflexivity. }
        rewrite (lower_226_other (PyStr.lower_char c2) (PyStr.lower_char c3))
          by (rewrite !lower_char_nat by lia; exact H23).
        rewrite (lower_226_other c2 c3) by exact H23.
        change (String (PyStr.lower_char c2) (String (PyStr.lower_char c3) (PyStr.small_letters s3)))
          with (PyStr.small_letters (String c2 (String c3 s3))).
        now rewrite IH by lia.
    + rewrite (lower_plain (PyStr.lower_char c))
        by (rewrite lower_char_nat by lia; assumption).
      rewrite (lower_plain c) by assumption.
      now rewrite lower_char_idem, IH by lia.
Qed.

Lemma after_byte_cons a w l :
  after_byte a (w :: l)
    = match w with
      | String b rest =>
          if decide (b = a) then lit rest :: after_byte a l else after_byte a l
      | EmptyString => after_byte a l
      end.
Proof. destruct w as [|b rest]; [reflexivity|]. unfold after_byte. simpl. now case_decide. Qed.

Lemma after_byte_lower_char a l :
  Forall (fun w => PyStr.all_bytes PyStr.above_127 w = true) l ->
  after_byte (PyStr.lower_char a) l = after_byte a l.
Proof.
  intros H. induction H as [|w l Hw _ IH]; [reflexivity|].
  rewrite !after_byte_cons, IH.
  destruct w as [|b rest]; [reflexivity|].
  cbn [PyStr.all_bytes] in Hw. apply andb_true_iff in Hw as [Hb _].
  destruct (lower_char_cases a) as [->|Ha]; [reflexivity|].
  apply andb_true_iff in Ha as [Ha1 Ha2].
  rewrite !decide_False; [reflexivity| |].
  - intros ->. unfold PyStr.above_127, PyStr.below_128 in Hb. now rewrite Ha2 in Hb.
  - intros ->. unfold PyStr.above_127, PyStr.below_128 in Hb. now rewrite Ha1 in Hb.
Qed.

Lemma wide_variants_above ic c :
  Forall (fun w => PyStr.all_bytes PyStr.above_127 w = true) (wide_variants ic c).
Proof.
  unfold wide_variants. destruct ic; [|constructor].
  repeat (case_decide; [repeat constructor|]). constructor.
Qed.

Lemma Forall_of_forallb {A} (f : A -> bool) l :
  forallb f l = true -> Forall (fun w => f w = true) l.
Proof.
  induction l as [|x l IH]; simpl; intros H; constructor.
  - now apply andb_true_iff in H as [H _].
  - apply IH. now apply andb_true_iff in H as [_ H].
Qed.

Lemma wide_spaces_above :
  Forall (fun w => PyStr.all_bytes PyStr.above_127 w = true) PyStr.wide_spaces.
Proof. apply Forall_of_forallb. vm_compute. reflexivity. Qed.

Lemma deriv_lower_char a r : deriv true (PyStr.lower_char a) r = deriv true a r.
Proof.
  induction r as [| |c| |r1 IH1 r2 IH2|r1 IH1 r2 IH2|r IH]; cbn [deriv];
    try reflexivity; try (now rewrite ?IH1, ?IH2, ?IH).
  - rewrite (after_byte_lower_char a _ (wide_variants_above true c)).
    unfold chr_matches. now rewrite lower_char_idem.
  - rewrite (after_byte_lower_char a _ wide_spaces_above).
    now rewrite isspace_lower_char.
Qed.

Lemma match_small_letters r s :
  match_ true r (PyStr.small_letters s) = match_ true r s.
Proof.
  revert r. induction s as [|a s IH]; intros r; [reflexivity|].
  cbn [PyStr.small_letters match_]. now rewrite deriv_lower_char, IH.
Qed.

Lemma search_small_letters r s :
  search true r (PyStr.small_letters s) = search true r s.
Proof.
  induction s as [|a s IH]; [reflexivity|].
  cbn [PyStr.small_letters search]. rewrite IH.
  change (String (PyStr.lower_char a) (PyStr.small_letters s))
    with (PyStr.small_letters (String a s)).
  now rewrite match_small_letters.
Qed.

(** X3: the human-decision detector and the destructive-keyword test do not
    see the case of the letters A to Z: making them small in the text changes
    neither verdict. *)
Theorem X3_case_blind_detectors text :
  needs_human_decision (PyStr.small_letters text) = needs_human_decision text /\
  dangerous (PyStr.small_letters text) = dangerous text.
Proof.
  split.
  - unfold needs_human_decision. induction HUMAN_NEEDED_PATTERNS as [|r l IH]; [reflexivity|].
    simpl. now rewrite search_small_letters, IH.
  - unfold dangerous. now rewrite (lower_small_letters _ text (le_n _)).
Qed.

(** ** What auto_accept_if_safe sends *)

Section AcceptCalls.

Variable E : Env.

Lemma adapter_calls_app cs1 cs2 :
  adapter_calls (cs1 ++ cs2) = adapter_calls cs1 ++ adapter_calls cs2.
Proof. unfold adapter_calls. apply omap_app. Qed.

Lemma run_checked_cases argv w :
  (run_checked E argv w = (Ok tt, log_call (SubprocessRun argv) w)) \/
  (exists e, run_checked E argv w = (Raise e, log_call (SubprocessRun argv) w)).
Proof.
  unfold run_checked, call_subprocess. munfold.
  destruct (subprocess_run E _ _) as [rc out err|msg]; [|eauto].
  destruct (decide (rc = 0%Z)); eauto.
Qed.

(** three checked calls in a row, with the text typed in the middle: the
    calls issued are the first [k] of the three, and all three on success *)
Lemma key_sequence_calls {A} ticket text (a : A) w :
  exists k r,
    (run_checked E (send_keys ticket ["C-u"]);;
     run_checked E (send_keys ticket ["-l"; text]);;
     run_checked E (send_keys ticket ["Enter"]);;
     mret a) w
    = (r, add_calls (take k [ SubprocessRun (send_keys ticket ["C-u"])
                            ; SubprocessRun (send_keys ticket ["-l"; text])
                            ; SubprocessRun (send_keys ticket ["Enter"]) ]) w) /\
    1 <= k <= 3 /\
    (k = 3 -> r = Ok a \/ exists e, r = Raise e) /\
    (k < 3 -> exists e, r = Raise e) /\
    (r = Ok a -> k = 3).
Proof.
  unfold mbind, M_bind.
  destruct (run_checked_cases (send_keys ticket ["C-u"]) w) as [->|[e ->]].
  2:{ exists 1, (Raise e). split; [|split; [lia|split; [lia|split; [eauto|discriminate]]]].
      unfold add_calls, log_call. reflexivity. }
  destruct (run_checked_cases (send_keys ticket ["-l"; text])
              (log_call (SubprocessRun (send_keys ticket ["C-u"])) w)) as [->|[e ->]].
  2:{ exists 2, (Raise e). split; [|split; [lia|split; [lia|split; [eauto|discriminate]]]].
      unfold add_calls, log_call. simpl. now rewrite <- app_assoc. }
  destruct (run_checked_cases (send_keys ticket ["Enter"])
              (log_call (SubprocessRun (send_keys ticket ["-l"; text]))
                 (log_call (SubprocessRun (send_keys ticket ["C-u"])) w))) as [->|[e ->]].
  - exists 3, (Ok a). split; [|split; [lia|split; [eauto|split; [lia|reflexivity]]]].
    unfold mret, M_ret, add_calls, log_call. simpl. now rewrite <- !app_assoc.
  - exists 3, (Raise e). split; [|split; [lia|split; [eauto|split; [lia|discriminate]]]].
    unfold add_calls, log_call. simpl. now rewrite <- !app_assoc.
Qed.

Lemma adapter_calls_only_calls_chat w w' :
  (exists cs, calls w' = calls w ++ cs /\ adapter_calls cs = []) ->
  adapter_calls (calls w') = adapter_calls (calls w).
Proof. intros (cs & -> & H). rewrite adapter_calls_app, H. apply app_nil_r. Qed.

(** check_safety talks to the classifier only *)
Lemma check_safety_no_adapter_call ticket output w :
  exists cs, calls (check_safety E ticket output w).2 = calls w ++ cs /\
             adapter_calls cs = [].
Proof.
  unfold check_safety. munfold.
  destruct (llm_client w); [|exists []; split; [now rewrite app_nil_r|reflexivity]].
  pose proof (ask_llm_world E ticket output w) as Hw.
  destruct (ask_llm E ticket output w) as [[r|e] w']; simpl in *; subst w';
    eexists [_]; split; reflexivity.
Qed.

(** X4: whatever auto_accept_if_safe returns, the tmux calls it has issued
    are the first k of C-u, literal 1, Enter, in this order; it returns true
    only after all three; and it issues one at all only for a session that
    exists with auto_accept set and a text that matches a permission pattern
    and no human-decision pattern. *)
Theorem X4_accept_sends_only_its_sequence ticket output w :
  exists b w' k,
    auto_accept_if_safe E ticket output w = (Ok b, w') /\
    k <= 3 /\
    adapter_calls (calls w') = adapter_calls (calls w) ++ take k (accept_argvs ticket) /\
    (b = true -> k = 3) /\
    (0 < k -> exists s, sessions w !! ticket = Some s /\ auto_accept s = true /\
                        is_permission_prompt output = true /\
                        needs_human_decision output = false).
Proof.
  assert (Hnone : forall w0 : World,
    exists (b : bool) (w' : World) (k : nat),
      (Ok false, w0) = (Ok b, w') /\ k <= 3 /\
      adapter_calls (calls w') = adapter_calls (calls w0) ++ take k (accept_argvs ticket) /\
      (b = true -> k = 3) /\
      (0 < k -> exists s, sessions w !! ticket = Some s /\ auto_accept s = true /\
                          is_permission_prompt output = true /\
                          needs_human_decision output = false)).
  { intros w0. exists false, w0, 0. split; [reflexivity|]. split; [lia|].
    split; [simpl; now rewrite app_nil_r|]. split; [discriminate|lia]. }
  unfold auto_accept_if_safe. unfold mbind at 1, M_bind at 1, gets.
  destruct (sessions w !! ticket) as [s|] eqn:Hs; [|apply Hnone].
  destruct (auto_accept s) eqn:Ha; [|apply Hnone]. simpl.
  destruct (is_permission_prompt output) eqn:Hp; [|apply Hnone]. simpl.
  destruct (needs_human_decision output) eqn:Hh; [apply Hnone|].
  unfold mbind at 1, M_bind at 1.
  destruct (check_safety_never_raises E ticket output w) as (r & w1 & Hr).
  pose proof (check_safety_no_adapter_call ticket output w) as Hcs.
  rewrite Hr in *. simpl in Hcs. apply adapter_calls_only_calls_chat in Hcs.
  destruct (_ && _).
  2:{ exists false, w1, 0. split; [reflexivity|]. split; [lia|].
      split; [simpl; now rewrite app_nil_r|]. split; [discriminate|lia]. }
  unfold try_except.
  destruct (key_sequence_calls ticket "1" true w1) as (k & res & -> & Hk & H3 & Hlt & Hok).
  assert (Hcalls : adapter_calls (calls (add_calls
              (take k [ SubprocessRun (send_keys ticket ["C-u"])
                      ; SubprocessRun (send_keys ticket ["-l"; "1"])
                      ; SubprocessRun (send_keys ticket ["Enter"]) ]) w1))
            = adapter_calls (calls w) ++ take k (accept_argvs ticket)).
  { unfold add_calls. simpl. rewrite adapter_calls_app, Hcs. f_equal.
    destruct k as [|[|[|[|k]]]]; reflexivity. }
  destruct res as [b|e].
  - assert (b = true) as -> by (destruct (decide (k = 3)) as [Hk3|Hk3];
      [destruct (H3 Hk3) as [[= ->]|[e [=]]]; reflexivity
      |destruct Hlt as [e [=]]; lia]).
    eexists true, _, k. split; [reflexivity|]. split; [lia|]. split; [exact Hcalls|].
    split; [intros _; now apply Hok|]. intros _. exists s. auto.
  - eexists false, _, k. split; [reflexivity|]. split; [lia|]. split; [exact Hcalls|].
    split; [discriminate|]. intros _. exists s. auto.
Qed.

(** X5: without a configured service, a text that holds a destructive keyword
    in any letter case, a question mark or the phrase would you like is never
    auto-accepted: false is returned and nothing is called. *)
Theorem X5_fallback_blocks ticket output w :
  llm_client w = None ->
  dangerous output = true \/ fallback_needs_clarification output = true ->
  auto_accept_if_safe E ticket output w = (Ok false, w).
Proof.
  intros Hn Hbad. unfold auto_accept_if_safe. unfold mbind at 1, M_bind at 1, gets.
  destruct (sessions w !! ticket) as [s|]; [|reflexivity].
  destruct (negb (auto_accept s)); [reflexivity|].
  destruct (negb (is_permission_prompt output)); [reflexivity|].
  destruct (needs_human_decision output); [reflexivity|].
  unfold mbind, M_bind. rewrite (check_safety_no_client E _ _ _ Hn). simpl.
  destruct Hbad as [-> | ->]; [reflexivity|]. now rewrite andb_false_r.
Qed.

Lemma auto_accept_noop ticket output w :
  (sessions w !! ticket = None \/
   (exists s, sessions w !! ticket = Some s /\ auto_accept s = false) \/
   is_permission_prompt output = false) ->
  auto_accept_if_safe E ticket output w = (Ok false, w).
Proof.
  intros H. unfold auto_accept_if_safe. unfold mbind at 1, M_bind at 1, gets.
  destruct H as [-> | [(s & -> & Ha) | Hp]]; [reflexivity| |].
  - now rewrite Ha.
  - destruct (sessions w !! ticket) as [s|]; [|reflexivity].
    destruct (negb (auto_accept s)); [reflexivity|]. now rewrite Hp.
Qed.

(** X6: a session that is unknown or has auto_accept off, and a text that
    matches no permission pattern, leave auto_accept_if_safe without effect:
    it returns false and the world is as it was, the classifier not asked. *)
Theorem X6_no_accept_outside_auto_mode ticket output w :
  (sessions w !! ticket = None \/
   (exists s, sessions w !! ticket = Some s /\ auto_accept s = false) \/
   is_permission_prompt output = false) ->
  auto_accept_if_safe E ticket output w = (Ok false, w).
Proof. apply auto_accept_noop. Qed.

(** X7: a configured service that answers with content that loads as a
    SafetyCheckResponse has its verdict returned as it is, after exactly one
    request carrying the fixed system prompt and the user message built from
    the ticket, the last 50 buffered lines and the text. *)
Theorem X7_service_verdict_passed_on ticket output w client c rest r :
  llm_client w = Some client ->
  chat_create E (length (calls w)) (safety_messages (output_buffers w) ticket output)
    = ChatReturned (c :: rest) ->
  load_safety_response E (content_or_default c) = inr r ->
  check_safety E ticket output w =
    (Ok r, log_call (ChatCreate "gpt-4o"
                       (safety_messages (output_buffers w) ticket output)) w).
Proof.
  intros Hc Hchat Hload. unfold check_safety. munfold. rewrite Hc.
  unfold ask_llm, chat_completions_create, first_content. munfold. simpl.
  rewrite Hchat. simpl. now rewrite Hload.
Qed.

(** X8: send_input never raises. It issues C-u, the literal text and Enter
    in this order and stops at the first call that does not go through (the
    process cannot be run, times out or exits with a status other than 0):
    it then answers ok = false with the text of that failure and issues no
    further call. When all three go through it answers ok = true. *)
Theorem X8_send_input_sequence ticket text w :
  let n := length (calls w) in
  let a1 := send_keys ticket ["C-u"] in
  let a2 := send_keys ticket ["-l"; text] in
  let a3 := send_keys ticket ["Enter"] in
  let o1 := subprocess_run E n a1 in
  let o2 := subprocess_run E (S n) a2 in
  let o3 := subprocess_run E (S (S n)) a3 in
  send_input E ticket text w =
    if negb (exited_zero o1) then
      (Ok [("ok", JBool false); ("error", JStr (failure_text E a1 o1))],
       add_calls [SubprocessRun a1] w)
    else if negb (exited_zero o2) then
      (Ok [("ok", JBool false); ("error", JStr (failure_text E a2 o2))],
       add_calls [SubprocessRun a1; SubprocessRun a2] w)
    else if negb (exited_zero o3) then
      (Ok [("ok", JBool false); ("error", JStr (failure_text E a3 o3))],
       add_calls [SubprocessRun a1; SubprocessRun a2; SubprocessRun a3] w)
    else
      (Ok [("ok", JBool true)],
       add_calls [SubprocessRun a1; SubprocessRun a2; SubprocessRun a3] w).
Proof.
  cbv zeta. unfold send_input, try_except, run_checked, call_subprocess. munfold.
  unfold log_call, add_calls. simpl.
  destruct (subprocess_run E (length (calls w)) _) as [rc1 out1 err1|msg1]; simpl;
    [|reflexivity].
  destruct (decide (rc1 = 0%Z)) as [->|H1]; simpl;
    [|rewrite bool_decide_eq_false_2 by exact H1; reflexivity].
  rewrite length_app, Nat.add_1_r. simpl.
  destruct (subprocess_run E (S (length (calls w))) _) as [rc2 out2 err2|msg2]; simpl;
    [|rewrite <- !app_assoc; reflexivity].
  destruct (decide (rc2 = 0%Z)) as [->|H2]; simpl;
    [|rewrite bool_decide_eq_false_2 by exact H2; rewrite <- !app_assoc; reflexivity].
  rewrite !length_app, !Nat.add_1_r. simpl.
  destruct (subprocess_run E (S (S (length (calls w)))) _) as [rc3 out3 err3|msg3]; simpl;
    [|rewrite <- !app_assoc; reflexivity].
  destruct (decide (rc3 = 0%Z)) as [->|H3]; simpl;
    [rewrite <- !app_assoc; reflexivity|].
  rewrite bool_decide_eq_false_2 by exact H3. rewrite <- !app_assoc. reflexivity.
Qed.

End AcceptCalls.

Lemma X5_fallback_blocks_witness :
  auto_accept_if_safe env_quiet "T-1" "Delete the branch [Y/n]" world_auto
    = (Ok false, world_auto).
Proof.
  apply (X5_fallback_blocks env_quiet "T-1" "Delete the branch [Y/n]" world_auto).
  - reflexivity.
  - left. vm_compute. reflexivity.
Defined.

Lemma X6_no_accept_outside_auto_mode_witness :
  auto_accept_if_safe env_quiet "T-2" "Proceed with this [Y/n]" world_auto
    = (Ok false, world_auto).
Proof.
  apply (X6_no_accept_outside_auto_mode env_quiet "T-2" "Proceed with this [Y/n]" world_auto).
  left. vm_compute. reflexivity.
Defined.

Lemma X7_service_verdict_passed_on_witness :
  exists w',
    check_safety env_llm_yes "T-1" "cat README.md [Y/n]" world_auto_llm =
      (Ok {| needs_clarification := false; safe_to_continue := true;
             reason := "read only" |}, w').
Proof.
  eexists.
  apply (X7_service_verdict_passed_on env_llm_yes "T-1" "cat README.md [Y/n]" world_auto_llm
           (mkAzureClient "https://example.invalid" "key" "2024-02-15-preview")
           (Some "{...}") []); reflexivity.
Defined.

Lemma X4_accept_sends_only_its_sequence_witness :
  exists b w' k,
    auto_accept_if_safe env_no_tmux "T-1" "Proceed with this [Y/n]" world_auto = (Ok b, w') /\
    k <= 3 /\
    adapter_calls (calls w') = adapter_calls (calls world_auto) ++ take k (accept_argvs "T-1").
Proof.
  destruct (X4_accept_sends_only_its_sequence env_no_tmux "T-1" "Proceed with this [Y/n]"
              world_auto) as (b & w' & k & H1 & H2 & H3 & _).
  exists b, w', k. auto.
Defined.

(** ** What a pass of the poller touches *)

Lemma same_but_attention_set v s : same_but_attention s (set_needs_attention v s).
Proof. reflexivity. Qed.

Global Instance poller_frame_preorder ticket : PreOrder (poller_frame ticket).
Proof.
  split.
  - intros w. unfold poller_frame. split; [reflexivity|]. split; [auto|].
    destruct (sessions w !! ticket); [reflexivity|exact I].
  - intros w1 w2 w3 (Hl1 & Ho1 & Ht1) (Hl2 & Ho2 & Ht2).
    unfold poller_frame. split; [congruence|]. split.
    + intros t Hne. destruct (Ho1 t Hne) as [A1 B1]. destruct (Ho2 t Hne) as [A2 B2].
      split; congruence.
    + destruct (sessions w1 !! ticket), (sessions w2 !! ticket), (sessions w3 !! ticket);
        try contradiction; try exact I.
      unfold same_but_attention in *. congruence.
Qed.

Lemma only_calls_poller_frame ticket w w' : only_calls w w' -> poller_frame ticket w w'.
Proof.
  intros (Hs & Hb & Hl & _). unfold poller_frame. rewrite Hs, Hb.
  split; [exact Hl|]. split; [auto|].
  destruct (sessions w !! ticket); [reflexivity|exact I].
Qed.

Lemma update_attention_poller_frame ticket v :
  post (update_attention ticket v) (poller_frame ticket).
Proof.
  intros w. unfold update_attention, modify, set_sessions, poller_frame; simpl.
  split; [reflexivity|].
  destruct (sessions w !! ticket) as [s|] eqn:Hs; simpl.
  - split.
    + intros t Hne. now rewrite lookup_insert_ne by congruence.
    + rewrite lookup_insert_eq. reflexivity.
  - split; [auto|]. now rewrite Hs.
Qed.

Section PollerFrame.

Variable E : Env.

Lemma handle_new_content_poller_frame ticket current new_content :
  post (handle_new_content E ticket current new_content) (poller_frame ticket).
Proof.
  apply post_bind; [apply _| |intros _].
  { apply post_modify. intros w. unfold poller_frame, set_output_buffers; simpl.
    split; [reflexivity|]. split.
    - intros t Hne. now rewrite lookup_insert_ne by congruence.
    - destruct (sessions w !! ticket); [reflexivity|exact I]. }
  apply post_bind; [apply _| |intros accepted].
  { eapply post_weaken; [apply only_calls_poller_frame|apply auto_accept_calls]. }
  apply post_bind; [apply _| |intros _].
  { destruct (negb accepted).
    - apply post_bind; [apply _| |intros r].
      + eapply post_weaken; [apply only_calls_poller_frame|apply check_safety_calls].
      + apply update_attention_poller_frame.
    - apply update_attention_poller_frame. }
  apply post_bind; [apply _|apply post_gets; apply _|intros ss].
  eapply post_weaken; [apply only_calls_poller_frame|apply ws_send_calls].
Qed.

(** X9: however many passes the poller of a ticket makes and whatever tmux,
    the classifier and the observer answer, it creates and deletes no
    record, leaves the records and buffers of the other tickets and the
    client as they are, and changes nothing of its own record but
    needs_attention. *)
Theorem X9_poller_frame fuel ticket last w :
  let w' := (stream_output E fuel ticket last w).2 in
  llm_client w' = llm_client w /\
  (forall t, t <> ticket ->
     sessions w' !! t = sessions w !! t /\
     output_buffers w' !! t = output_buffers w !! t) /\
  (sessions w !! ticket = None -> sessions w' !! ticket = None) /\
  (forall s, sessions w !! ticket = Some s ->
     exists v, sessions w' !! ticket = Some (set_needs_attention v s)).
Proof.
  cbv zeta.
  pose proof (stream_output_post E (poller_frame ticket) fuel ticket last
                (only_calls_poller_frame ticket)
                (handle_new_content_poller_frame ticket) w) as (Hl & Ho & Ht).
  split; [exact Hl|]. split; [exact Ho|]. split.
  - intros Hn. rewrite Hn in Ht.
    destruct (sessions _ !! ticket); [contradiction|reflexivity].
  - intros s Hs. rewrite Hs in Ht.
    destruct (sessions _ !! ticket) as [s'|]; [|contradiction].
    exists (needs_attention s'). f_equal.
    unfold same_but_attention in Ht. destruct s, s'. simpl in *.
    injection Ht as <- <- <- <- <- <- <- <- <- <- <- <- <- <- <-. reflexivity.
Qed.

(** X10: how a pass ends when the adapter or the observer fails. A capture
    that raises (a timeout, tmux missing) is swallowed: the loop goes on with
    the stored snapshot, nothing but the call logged. A capture with a
    non-zero exit status ends the loop. A disconnect of the observer while
    the delta is delivered ends the loop. *)
Theorem X10_pass_endings ticket last w :
  (forall msg, subprocess_run E (length (calls w)) (capture_argv ticket) = ProcRaised msg ->
     stream_output_step E ticket last w
       = (Ok (Continue last), log_call (SubprocessRun (capture_argv ticket)) w)) /\
  (forall rc out err,
     subprocess_run E (length (calls w)) (capture_argv ticket) = Completed rc out err ->
     rc <> 0%Z ->
     stream_output_step E ticket last w
       = (Ok Break, log_call (SubprocessRun (capture_argv ticket)) w)) /\
  (forall current err,
     subprocess_run E (length (calls w)) (capture_argv ticket) = Completed 0 current err ->
     PyStr.truthy (PyStr.strip (new_content_of last current)) = true ->
     (forall n ev, ws_send_json E n ev = SendDisconnected) ->
     exists w', stream_output_step E ticket last w = (Ok Break, w')).
Proof.
  split; [|split].
  - intros msg H. unfold stream_output_step, try_except, stream_output_try.
    unfold mbind, M_bind, run_capture, call_subprocess. fold (capture_argv ticket).
    unfold mbind, M_bind. rewrite H. reflexivity.
  - intros rc out err H Hrc. unfold stream_output_step, try_except, stream_output_try.
    unfold mbind at 1, M_bind at 1. fold (capture_argv ticket).
    rewrite (run_capture_ok E _ _ _ _ _ H).
    rewrite bool_decide_eq_false_2 by exact Hrc. reflexivity.
  - intros current err H Hne Hdis.
    unfold stream_output_step, try_except.
    rewrite (stream_output_try_run E _ _ _ _ _ H). cbv zeta. rewrite Hne.
    destruct (handle_new_content_run E ticket current (new_content_of last current)
                (log_call (SubprocessRun (capture_argv ticket)) w))
      as (accepted & w2 & att & w3 & ev & _ & _ & _ & _ & _ & Hrun).
    unfold mbind, M_bind. rewrite Hrun. unfold websocket_send_json. rewrite Hdis. eauto.
Qed.

(** X11: a pass with a non-blank delta for a session that has auto_accept
    off, no classifier configured: no key is sent, and needs_attention
    becomes whether the delta holds a question mark or the phrase would you
    like, whatever it was before. *)
Theorem X11_planning_mode_attention ticket last w s current err :
  sessions w !! ticket = Some s ->
  auto_accept s = false ->
  llm_client w = None ->
  subprocess_run E (length (calls w)) (capture_argv ticket) = Completed 0 current err ->
  PyStr.truthy (PyStr.strip (new_content_of last current)) = true ->
  let w' := (stream_output_step E ticket last w).2 in
  sessions w' !! ticket =
    Some (set_needs_attention
            (fallback_needs_clarification (new_content_of last current)) s) /\
  adapter_calls (calls w') = adapter_calls (calls w) ++ [capture_argv ticket].
Proof.
  intros Hs Ha Hn Hcap Hne. cbv zeta.
  rewrite stream_output_step_world, (stream_output_try_run E _ _ _ _ _ Hcap).
  cbv zeta. rewrite Hne, bind_world_ret.
  destruct (handle_new_content_run E ticket current (new_content_of last current)
              (log_call (SubprocessRun (capture_argv ticket)) w))
    as (accepted & w2 & att & w3 & ev & Hacc & Hatt & _ & _ & _ & ->).
  rewrite ws_send_world.
  rewrite auto_accept_noop in Hacc.
  2:{ right; left. exists s. split; [exact Hs|exact Ha]. }
  injection Hacc as <- <-.
  destruct Hatt as (r & Hr & ->).
  rewrite check_safety_no_client in Hr by exact Hn. injection Hr as <- <-.
  unfold update_attention, modify, set_sessions, set_output_buffers, log_call; simpl.
  rewrite Hs. split; [apply lookup_insert_eq|].
  rewrite !adapter_calls_app. simpl. now rewrite app_nil_r.
Qed.

End PollerFrame.

Lemma X10_pass_endings_witness :
  stream_output_step env_no_tmux "T-1" "seen" world_auto
    = (Ok (Continue "seen"), log_call (SubprocessRun (capture_argv "T-1")) world_auto) /\
  stream_output_step env_tmux_fails "T-1" "seen" world_auto
    = (Ok Break, log_call (SubprocessRun (capture_argv "T-1")) world_auto) /\
  (exists w', stream_output_step env_disconnected "T-1" "" world_auto = (Ok Break, w')).
Proof.
  destruct (X10_pass_endings env_no_tmux "T-1" "seen" world_auto) as (H1 & _ & _).
  destruct (X10_pass_endings env_tmux_fails "T-1" "seen" world_auto) as (_ & H2 & _).
  destruct (X10_pass_endings env_disconnected "T-1" "" world_auto) as (_ & _ & H3).
  split; [|split].
  - apply (H1 "tmux: command not found"). reflexivity.
  - apply (H2 1%Z "" "no server running"); [reflexivity|discriminate].
  - apply (H3 "Which file should I read?" ""); [reflexivity|vm_compute; reflexivity|].
    intros n ev. reflexivity.
Defined.

Lemma X11_planning_mode_attention_witness :
  let w' := (stream_output_step env_disconnected "T-1" "" world_planning).2 in
  (needs_attention <$> sessions w' !! "T-1") = Some true /\
  adapter_calls (calls w') = [capture_argv "T-1"].
Proof.
  destruct (sessions world_planning !! "T-1") as [s|] eqn:Hs; [|vm_compute in Hs; discriminate].
  destruct (X11_planning_mode_attention env_disconnected "T-1" "" world_planning s
              "Which file should I read?" "") as [H1 H2].
  - exact Hs.
  - vm_compute in Hs. injection Hs as <-. reflexivity.
  - reflexivity.
  - reflexivity.
  - vm_compute. reflexivity.
  - cbv zeta. split; [now rewrite H1|exact H2].
Defined.

Lemma X9_poller_frame_witness :
  let w' := (stream_output env_disconnected 5 "T-1" "" world_auto).2 in
  sessions w' !! "T-2" = None /\ exists v, (needs_attention <$> sessions w' !! "T-1") = Some v.
Proof.
  destruct (X9_poller_frame env_disconnected 5 "T-1" "" world_auto) as (_ & H2 & _ & H4).
  cbv zeta. split.
  - destruct (H2 "T-2") as [-> _]; [discriminate|]. vm_compute. reflexivity.
  - destruct (sessions world_auto !! "T-1") as [s|] eqn:Hs; [|vm_compute in Hs; discriminate].
    destruct (H4 s eq_refl) as [v ->]. exists v. reflexivity.
Defined.

(** ** The buffer and the event of a pass, and get_output *)

Lemma py_slice_from_zero {A} (l : list A) : py_slice_from (- 0) l = l.
Proof. unfold py_slice_from. simpl. rewrite Z.min_l by lia. reflexivity. Qed.

Lemma py_slice_from_last {A} (n : Z) (l : list A) :
  (0 < n)%Z -> py_slice_from (- n) l = PyStr.last_n (Z.to_nat n) l.
Proof.
  intros Hn. unfold py_slice_from, PyStr.last_n.
  destruct (Z.ltb_spec (- n) 0); [|lia]. f_equal. lia.
Qed.

Lemma py_slice_from_drop {A} (n : Z) (l : list A) :
  (n < 0)%Z -> py_slice_from (- n) l = drop (Z.to_nat (- n)) l.
Proof.
  intros Hn. unfold py_slice_from.
  destruct (Z.ltb_spec (- n) 0); [lia|].
  destruct (decide (- n <= Z.of_nat (length l))%Z).
  - now rewrite Z.min_l by lia.
  - rewrite Z.min_r by lia. rewrite Nat2Z.id.
    rewrite drop_all. symmetry. apply drop_ge. lia.
Qed.

(** X12: get_output changes nothing and never fails. For a ticket without a
    buffer the output is empty; otherwise it is the last [lines] buffered
    lines joined by newlines when lines is positive, the whole buffer when
    lines is 0, and the buffer without its first -lines lines when lines is
    negative. *)
Theorem X12_get_output ticket lines w :
  exists text,
    get_output ticket lines w = (Ok [("output", JStr text)], w) /\
    (output_buffers w !! ticket = None -> text = "") /\
    (forall buf, output_buffers w !! ticket = Some buf ->
       ((0 < lines)%Z -> text = PyStr.join_nl (PyStr.last_n (Z.to_nat lines) buf)) /\
       (lines = 0%Z -> text = PyStr.join_nl buf) /\
       ((lines < 0)%Z -> text = PyStr.join_nl (drop (Z.to_nat (- lines)) buf))).
Proof.
  eexists. split; [reflexivity|]. split.
  - intros ->. simpl. unfold py_slice_from. simpl. now rewrite drop_nil.
  - intros buf ->. simpl. split; [|split].
    + intros H. now rewrite py_slice_from_last.
    + intros ->. now rewrite py_slice_from_zero.
    + intros H. now rewrite py_slice_from_drop.
Qed.

Lemma X12_get_output_witness :
  get_output "T-1" 2
    (set_output_buffers <["T-1" := ["a"; "b"; "c"]]> world_empty)
  = (Ok [("output", JStr ("b" +:+ String PyStr.nl "c"))],
     set_output_buffers <["T-1" := ["a"; "b"; "c"]]> world_empty).
Proof.
  destruct (X12_get_output "T-1" 2 (set_output_buffers <["T-1" := ["a"; "b"; "c"]]> world_empty))
    as (text & Hrun & _ & Hbuf).
  destruct (Hbuf ["a"; "b"; "c"]) as (H1 & _ & _); [reflexivity|].
  rewrite Hrun, H1 by reflexivity. reflexivity.
Defined.

Section PassEffects.

Variable E : Env.

(** the non-blank branch, with the event it sends spelled out *)
Lemma handle_new_content_event ticket current delta w :
  exists accepted w2 att w3,
    auto_accept_if_safe E ticket current
      (set_output_buffers
         <[ticket := buffer_append (default [] (output_buffers w !! ticket)) delta]> w)
      = (Ok accepted, w2) /\
    (if accepted then att = false /\ w3 = w2
     else exists r, check_safety E ticket delta w2 = (Ok r, w3) /\
                    att = needs_clarification r) /\
    handle_new_content E ticket current delta w
      = websocket_send_json E
          {| ev_type := "output"; ev_ticket := ticket; ev_content := delta;
             ev_needs_attention :=
               needs_attention
                 (default (SessionStatus_new E ticket)
                    (sessions (update_attention ticket att w3).2 !! ticket));
             ev_auto_accepted := accepted |}
          (update_attention ticket att w3).2.
Proof.
  unfold handle_new_content.
  unfold mbind at 1, M_bind at 1, modify.
  unfold mbind at 1, M_bind at 1.
  destruct (auto_accept_never_raises E ticket current
              (set_output_buffers
                 (fun bufs => <[ticket := buffer_append (default [] (bufs !! ticket)) delta]> bufs)
                 w))
    as (accepted & w2 & Hacc).
  rewrite Hacc. exists accepted, w2.
  destruct accepted; simpl.
  - exists false, w2. split; [exact Hacc|]. split; [now split|].
    unfold mbind, M_bind, update_attention, modify, gets. reflexivity.
  - destruct (check_safety_never_raises E ticket delta w2) as (r & w3 & Hr).
    exists (needs_clarification r), w3. split; [exact Hacc|].
    split; [eauto|].
    unfold mbind, M_bind, update_attention, modify, gets. rewrite Hr. reflexivity.
Qed.

Lemma attention_of_default ticket (o : option SessionStatus) :
  needs_attention (default (SessionStatus_new E ticket) o)
    = from_option needs_attention false o.
Proof. destruct o; reflexivity. Qed.

Lemma update_attention_buffers ticket v w :
  output_buffers (update_attention ticket v w).2 = output_buffers w.
Proof. reflexivity. Qed.

(** what a pass with a non-blank delta leaves behind, delivered or not *)
Lemma pass_effects ticket stored w current err :
  subprocess_run E (length (calls w)) (capture_argv ticket) = Completed 0 current err ->
  PyStr.truthy (PyStr.strip (new_content_of stored current)) = true ->
  let delta := new_content_of stored current in
  let w' := (stream_output_step E ticket stored w).2 in
  output_buffers w' =
    <[ticket := buffer_append (default [] (output_buffers w !! ticket)) delta]>
      (output_buffers w) /\
  exists accepted,
    last (calls w') =
      Some (WsSendJson
              {| ev_type := "output"; ev_ticket := ticket; ev_content := delta;
                 ev_needs_attention :=
                   from_option needs_attention false (sessions w' !! ticket);
                 ev_auto_accepted := accepted |}).
Proof.
  intros Hcap Hne. cbv zeta.
  rewrite stream_output_step_world, (stream_output_try_run E _ _ _ _ _ Hcap).
  cbv zeta. rewrite Hne, bind_world_ret.
  destruct (handle_new_content_event ticket current (new_content_of stored current)
              (log_call (SubprocessRun (capture_argv ticket)) w))
    as (accepted & w2 & att & w3 & Hacc & Hatt & ->).
  rewrite ws_send_world.
  match type of Hacc with
  | auto_accept_if_safe _ _ _ ?w1 = _ =>
      pose proof (auto_accept_calls E ticket current w1) as Hoc
  end.
  rewrite Hacc in Hoc.
  destruct Hoc as (_ & Hb2 & _). simpl in Hb2.
  assert (Hb3 : output_buffers w3 = output_buffers w2).
  { destruct accepted.
    - destruct Hatt as [_ ->]. reflexivity.
    - destruct Hatt as (r & Hr & _).
      pose proof (check_safety_calls E ticket (new_content_of stored current) w2) as Hoc.
      rewrite Hr in Hoc. now destruct Hoc as (_ & Hb & _). }
  split.
  - simpl. rewrite Hb3, Hb2. reflexivity.
  - exists accepted. unfold log_call at 1. cbn [calls].
    rewrite last_snoc, attention_of_default. reflexivity.
Qed.

(** X13: on a pass with a non-blank delta the event that goes to the
    observer carries the ticket, the delta, and the needs_attention the
    registry holds for the ticket after the pass (false for a ticket without
    a record, for which none is created); it is the last call of the pass. *)
Theorem X13_event_matches_registry ticket stored w current err :
  subprocess_run E (length (calls w)) (capture_argv ticket) = Completed 0 current err ->
  PyStr.truthy (PyStr.strip (new_content_of stored current)) = true ->
  let w' := (stream_output_step E ticket stored w).2 in
  exists ev,
    last (calls w') = Some (WsSendJson ev) /\
    ev_type ev = "output" /\
    ev_ticket ev = ticket /\
    ev_content ev = new_content_of stored current /\
    ev_needs_attention ev = from_option needs_attention false (sessions w' !! ticket) /\
    (sessions w !! ticket = None -> sessions w' !! ticket = None).
Proof.
  intros Hcap Hne.
  destruct (pass_effects ticket stored w current err Hcap Hne) as (_ & accepted & Hlast).
  cbv zeta in *. eexists. split; [exact Hlast|]. simpl. repeat split.
  intros Hn.
  pose proof (stream_output_step_post E (poller_frame ticket) ticket stored
                (only_calls_poller_frame ticket)
                (handle_new_content_poller_frame E ticket) w) as (_ & _ & Ht).
  rewrite Hn in Ht. destruct (sessions _ !! ticket); [contradiction|reflexivity].
Qed.

(** X14: a pass with a non-blank delta puts the lines of the delta at the
    end of the buffer of its ticket, creating the buffer if there was none,
    whether or not the delivery to the observer succeeds. For a ticket with
    no buffered line and a delta of at most 200 lines, get_output with
    lines = 0 then returns the delta as it was. *)
Theorem X14_buffer_after_pass ticket stored w current err :
  subprocess_run E (length (calls w)) (capture_argv ticket) = Completed 0 current err ->
  PyStr.truthy (PyStr.strip (new_content_of stored current)) = true ->
  let delta := new_content_of stored current in
  let w' := (stream_output_step E ticket stored w).2 in
  output_buffers w' !! ticket
    = Some (buffer_append (default [] (output_buffers w !! ticket)) delta) /\
  (default [] (output_buffers w !! ticket) = [] ->
   length (PyStr.split_nl delta) <= 200 ->
   get_output ticket 0 w' = (Ok [("output", JStr delta)], w')).
Proof.
  intros Hcap Hne.
  destruct (pass_effects ticket stored w current err Hcap Hne) as (Hb & _).
  cbv zeta in *. split.
  - rewrite Hb. apply lookup_insert_eq.
  - intros Hold Hlen. unfold get_output. munfold. simpl.
    rewrite Hb, lookup_insert_eq, Hold. simpl.
    unfold buffer_append. simpl. rewrite last_n_short by exact Hlen.
    now rewrite py_slice_from_zero, join_nl_split_nl.
Qed.

End PassEffects.

Lemma X13_event_matches_registry_witness :
  exists ev,
    last (calls (stream_output_step env_disconnected "T-1" "" world_planning).2)
      = Some (WsSendJson ev) /\
    ev_content ev = "Which file should I read?" /\
    ev_needs_attention ev = true.
Proof.
  destruct (X13_event_matches_registry env_disconnected "T-1" "" world_planning
              "Which file should I read?" "") as (ev & H1 & _ & _ & H4 & H5 & _).
  - reflexivity.
  - vm_compute. reflexivity.
  - exists ev. split; [exact H1|]. split; [exact H4|]. rewrite H5. vm_compute. reflexivity.
Defined.

Lemma X14_buffer_after_pass_witness :
  let w' := (stream_output_step env_disconnected "T-1" "" world_planning).2 in
  get_output "T-1" 0 w' = (Ok [("output", JStr "Which file should I read?")], w').
Proof.
  destruct (X14_buffer_after_pass env_disconnected "T-1" "" world_planning
              "Which file should I read?" "") as (_ & H2).
  - reflexivity.
  - vm_compute. reflexivity.
  - apply H2; [reflexivity|vm_compute; lia].
Defined.

(** ** Registering sessions: start_session and the startup discovery *)

Section Registering.

Variable E : Env.

Lemma init_sessions_run tickets w :
  exists w',
    init_sessions E tickets w = (Ok tt, w') /\
    llm_client w' = llm_client w /\ calls w' = calls w /\
    (forall t s, sessions w !! t = Some s -> sessions w' !! t = Some s) /\
    (forall t, sessions w !! t = None -> t ∈ tickets ->
       sessions w' !! t = Some (SessionStatus_new E t) /\ output_buffers w' !! t = Some []) /\
    (forall t, sessions w !! t = None -> t ∉ tickets -> sessions w' !! t = None) /\
    (forall t, is_Some (sessions w !! t) \/ t ∉ tickets ->
       output_buffers w' !! t = output_buffers w !! t).
Proof.
  revert w. induction tickets as [|t0 rest IH]; intros w.
  - exists w. simpl. split; [reflexivity|]. split; [reflexivity|]. split; [reflexivity|].
    split; [auto|]. split; [|split; auto].
    intros t _ Hin. now apply elem_of_nil in Hin.
  - simpl. unfold mbind at 1, M_bind at 1, gets.
    unfold mbind at 1, M_bind at 1.
    destruct (bool_decide (is_Some (sessions w !! t0))) eqn:Hin.
    + apply bool_decide_eq_true in Hin. unfold mret at 1, M_ret at 1.
      destruct (IH w) as (w' & Hrun & Hl & Hc & Hkeep & Hnew & Hnone & Hbuf).
      exists w'. split; [exact Hrun|]. split; [exact Hl|]. split; [exact Hc|].
      split; [exact Hkeep|]. split; [|split].
      * intros t Hn Ht. apply elem_of_cons in Ht as [->|Ht]; [|now apply Hnew].
        rewrite Hn in Hin. now destruct Hin.
      * intros t Hn Ht. apply Hnone; [exact Hn|]. intros Hr. apply Ht. now right.
      * intros t [Hs|Ht]; apply Hbuf; [now left|right].
        intros Hr. apply Ht. now right.
    + apply bool_decide_eq_false in Hin.
      assert (Hn0 : sessions w !! t0 = None).
      { destruct (sessions w !! t0) eqn:Hs; [exfalso; apply Hin; eauto|reflexivity]. }
      unfold mbind at 1, M_bind at 1, modify.
      set (w1 := set_output_buffers <[t0:=[]]> (set_sessions <[t0:=SessionStatus_new E t0]> w)).
      destruct (IH w1) as (w' & Hrun & Hl & Hc & Hkeep & Hnew & Hnone & Hbuf).
      exists w'. split; [exact Hrun|]. split; [exact Hl|]. split; [exact Hc|].
      assert (Hs1 : forall t, sessions w1 !! t =
                      if decide (t0 = t) then Some (SessionStatus_new E t0) else sessions w !! t).
      { intros t. unfold w1; simpl. apply lookup_insert. }
      assert (Hb1 : forall t, output_buffers w1 !! t =
                      if decide (t0 = t) then Some [] else output_buffers w !! t).
      { intros t. unfold w1; simpl. apply lookup_insert. }
      split; [|split; [|split]].
      * intros t s Hs. apply Hkeep. rewrite Hs1.
        destruct (decide (t0 = t)) as [->|]; [congruence|exact Hs].
      * intros t Hn Ht. destruct (decide (t0 = t)) as [->|Hne].
        -- split.
           ++ apply Hkeep. rewrite Hs1. now rewrite decide_True.
           ++ rewrite Hbuf; [rewrite Hb1; now rewrite decide_True|].
              left. rewrite Hs1. rewrite decide_True by reflexivity. eauto.
        -- apply elem_of_cons in Ht as [->|Ht]; [contradiction|].
           apply Hnew; [|exact Ht]. rewrite Hs1. now rewrite decide_False.
      * intros t Hn Ht. apply Hnone.
        -- rewrite Hs1. rewrite decide_False; [exact Hn|].
           intros ->. apply Ht. now left.
        -- intros Hr. apply Ht. now right.
      * intros t Hcase.
        assert (Hne : t0 <> t).
        { intros ->. destruct Hcase as [[s Hs]|Ht]; [congruence|]. apply Ht. now left. }
        rewrite Hbuf.
        -- rewrite Hb1. now rewrite decide_False.
        -- destruct Hcase as [Hs|Ht].
           ++ left. rewrite Hs1. now rewrite decide_False.
           ++ right. intros Hr. apply Ht. now right.
Qed.

Lemma discover_as_init lines w :
  discover_sessions E lines w
    = init_sessions E (filter (fun t => PyStr.truthy t = true) (PyStr.strip <$> lines)) w.
Proof.
  revert w. induction lines as [|line rest IH]; intros w; [reflexivity|].
  rewrite fmap_cons, filter_cons. simpl discover_sessions.
  unfold mbind at 1, M_bind at 1, gets.
  destruct (decide (PyStr.truthy (PyStr.strip line) = true)) as [Ht|Ht].
  - rewrite Ht. simpl init_sessions. unfold mbind at 3, M_bind at 3, gets.
    cbn [andb]. destruct (bool_decide (is_Some (sessions w !! PyStr.strip line))); simpl.
    + unfold mbind, M_bind, mret, M_ret. apply IH.
    + unfold mbind, M_bind, modify. apply IH.
  - apply not_true_is_false in Ht. rewrite Ht. cbn [andb].
    unfold mbind, M_bind, mret, M_ret. apply IH.
Qed.

(** X15: start_session. Without the spawn script nothing is called and
    nothing changes. With it, once the script has run, whatever its exit
    status, every ticket asked for has a record: a record that existed is
    left as it was, buffer included, and a new one is the default record on
    an empty buffer; ok tells whether the exit status was 0. *)
Theorem X15_start_session tickets w :
  (spawn_script_exists E = false ->
     start_session E tickets w
       = (Ok [("ok", JBool false); ("error", JStr "spawn-sessions.sh not found")], w)) /\
  (forall rc out err,
     spawn_script_exists E = true ->
     subprocess_run E (length (calls w)) ("spawn-sessions.sh" :: tickets)
       = Completed rc out err ->
     exists w',
       start_session E tickets w
         = (Ok [("ok", JBool (bool_decide (rc = 0%Z))); ("tickets", JStrs tickets);
                ("output", JStr out);
                ("error", if bool_decide (rc = 0%Z) then JNull else JStr err)], w') /\
       (forall t, t ∈ tickets -> is_Some (sessions w' !! t)) /\
       (forall t s, sessions w !! t = Some s ->
          sessions w' !! t = Some s /\ output_buffers w' !! t = output_buffers w !! t) /\
       (forall t, sessions w !! t = None -> t ∈ tickets ->
          sessions w' !! t = Some (SessionStatus_new E t) /\
          output_buffers w' !! t = Some []) /\
       (forall t, sessions w !! t = None -> t ∉ tickets -> sessions w' !! t = None)).
Proof.
  split.
  - intros Hs. unfold start_session. now rewrite Hs.
  - intros rc out err Hs Hrun. unfold start_session. rewrite Hs. simpl.
    unfold mbind at 1, M_bind at 1, call_subprocess. rewrite Hrun.
    destruct (init_sessions_run tickets
                (log_call (SubprocessRun ("spawn-sessions.sh" :: tickets)) w))
      as (w' & Hinit & _ & _ & Hkeep & Hnew & Hnone & Hbuf).
    unfold mbind, M_bind. rewrite Hinit. exists w'. split; [reflexivity|].
    split; [|split; [|split]].
    + intros t Ht.
      destruct (sessions w !! t) as [s|] eqn:Hst.
      * rewrite (Hkeep t s Hst). eauto.
      * destruct (Hnew t Hst Ht) as [-> _]. eauto.
    + intros t s Hst. split; [now apply Hkeep|]. apply (Hbuf t). left.
      simpl. rewrite Hst. eauto.
    + exact Hnew.
    + exact Hnone.
Qed.

(** X16: the startup. The client is configured exactly when both credentials
    are set and non-empty, with the version of the environment or the default
    one. When tmux list-sessions exits with 0, a default record on an empty
    buffer is created for each trimmed non-blank line of its trimmed output
    that has no record yet, and for nothing else; on another exit status no
    record is created. *)
Theorem X16_startup getenv w rc out err :
  subprocess_run E (length (calls w)) ["tmux"; "list-sessions"; "-F"; "#{session_name}"]
    = Completed rc out err ->
  exists w',
    lifespan_startup E getenv w = (Ok tt, w') /\
    llm_client w' =
      match getenv "AZ_OPENAI_API_BASE", getenv "AZ_OPENAI_API_KEY" with
      | Some b, Some k =>
          if PyStr.truthy b && PyStr.truthy k
          then Some (mkAzureClient b k
                       (default "2024-02-15-preview"
                          (getenv "RMTQ_BETA_CMD_AZ_OPENAI_API_VERSION")))
          else llm_client w
      | _, _ => llm_client w
      end /\
    (forall t s, sessions w !! t = Some s -> sessions w' !! t = Some s) /\
    (rc = 0%Z ->
       forall t, sessions w !! t = None ->
         (t ∈ listed_tickets out ->
            sessions w' !! t = Some (SessionStatus_new E t) /\
            output_buffers w' !! t = Some []) /\
         (t ∉ listed_tickets out -> sessions w' !! t = None)) /\
    (rc <> 0%Z -> sessions w' = sessions w /\ output_buffers w' = output_buffers w).
Proof.
  intros Hrun. unfold lifespan_startup.
  set (w0 := (init_llm_client getenv w).2).
  assert (H0 : init_llm_client getenv w = (Ok tt, w0) /\ sessions w0 = sessions w /\
               output_buffers w0 = output_buffers w /\ calls w0 = calls w /\
               llm_client w0 =
                 match getenv "AZ_OPENAI_API_BASE", getenv "AZ_OPENAI_API_KEY" with
                 | Some b, Some k =>
                     if PyStr.truthy b && PyStr.truthy k
                     then Some (mkAzureClient b k
                                  (default "2024-02-15-preview"
                                     (getenv "RMTQ_BETA_CMD_AZ_OPENAI_API_VERSION")))
                     else llm_client w
                 | _, _ => llm_client w
                 end).
  { unfold w0, init_llm_client.
    destruct (getenv "AZ_OPENAI_API_BASE") as [b|]; [|repeat split].
    destruct (getenv "AZ_OPENAI_API_KEY") as [k|]; [|repeat split].
    destruct (PyStr.truthy b && PyStr.truthy k); repeat split. }
  destruct H0 as (Hinit & Hs0 & Hb0 & Hc0 & Hl0).
  unfold mbind at 1, M_bind at 1. rewrite Hinit.
  unfold mbind at 1, M_bind at 1, call_subprocess. rewrite Hc0, Hrun.
  destruct (bool_decide (rc = 0%Z)) eqn:Hrc.
  - apply bool_decide_eq_true in Hrc. rewrite discover_as_init.
    destruct (init_sessions_run (listed_tickets out)
                (log_call (SubprocessRun ["tmux"; "list-sessions"; "-F"; "#{session_name}"]) w0))
      as (w' & Hrun' & Hl & _ & Hkeep & Hnew & Hnone & _).
    unfold listed_tickets in *. rewrite Hrun'. exists w'. split; [reflexivity|].
    split; [rewrite Hl; exact Hl0|]. split.
    + intros t s Hst. apply Hkeep. simpl. now rewrite Hs0.
    + split; [|intros Hne; contradiction].
      intros _ t Hst. split.
      * apply Hnew. simpl. now rewrite Hs0.
      * apply Hnone. simpl. now rewrite Hs0.
  - apply bool_decide_eq_false in Hrc. eexists. split; [reflexivity|]. simpl.
    split; [exact Hl0|]. split; [intros t s; now rewrite Hs0|].
    split; [intros Heq; contradiction|]. intros _. now split.
Qed.

End Registering.

Lemma X15_start_session_witness :
  start_session env_no_tmux ["T-7"] world_auto
    = (Ok [("ok", JBool false); ("error", JStr "spawn-sessions.sh not found")], world_auto) /\
  exists w',
    (start_session env_tmux_fails ["T-1"; "T-7"] world_auto).2 = w' /\
    (auto_accept <$> sessions w' !! "T-1") = Some true /\
    sessions w' !! "T-7" = Some (SessionStatus_new env_tmux_fails "T-7").
Proof.
  destruct (X15_start_session env_no_tmux ["T-7"] world_auto) as [H1 _].
  destruct (X15_start_session env_tmux_fails ["T-1"; "T-7"] world_auto) as [_ H2].
  split; [apply H1; reflexivity|].
  destruct (H2 1%Z "" "no server running") as (w' & Hrun & _ & Hkeep & Hnew & _);
    [reflexivity|reflexivity|].
  exists w'. split; [now rewrite Hrun|]. split.
  - destruct (sessions world_auto !! "T-1") as [s|] eqn:Hs; [|vm_compute in Hs; discriminate].
    destruct (Hkeep "T-1" s Hs) as [-> _]. vm_compute in Hs. injection Hs as <-. reflexivity.
  - apply Hnew; [vm_compute; reflexivity|].
    apply elem_of_cons. right. apply elem_of_cons. now left.
Defined.

Lemma X16_startup_witness :
  exists w',
    lifespan_startup env_two_sessions getenv_azure world_empty = (Ok tt, w') /\
    llm_client w' = Some (mkAzureClient "https://example.invalid" "key" "2024-02-15-preview") /\
    is_Some (sessions w' !! "T-2") /\ sessions w' !! "" = None.
Proof.
  destruct (X16_startup env_two_sessions getenv_azure world_empty 0%Z
              ("T-1" +:+ String PyStr.nl (" T-2 " +:+ String PyStr.nl "")) "")
    as (w' & Hrun & Hl & _ & Hdisc & _); [reflexivity|].
  exists w'. split; [exact Hrun|]. split; [exact Hl|].
  destruct (Hdisc eq_refl "T-2") as [H2 _]; [reflexivity|].
  destruct (Hdisc eq_refl "") as [_ H0]; [reflexivity|].
  assert (Hl2 : listed_tickets ("T-1" +:+ String PyStr.nl (" T-2 " +:+ String PyStr.nl ""))
                = ["T-1"; "T-2"]) by (vm_compute; reflexivity).
  rewrite Hl2 in H2, H0. split.
  - destruct H2 as [-> _]; [|eauto].
    apply elem_of_cons. right. apply elem_of_cons. now left.
  - apply H0. intros Hin.
    apply elem_of_cons in Hin as [Hin|Hin]; [discriminate|].
    apply elem_of_cons in Hin as [Hin|Hin]; [discriminate|].
    now apply elem_of_nil in Hin.
Defined.

(** ** Writes to the registry: frame and composition *)

Global Instance sessions_only_preorder : PreOrder sessions_only.
Proof.
  split.
  - intros w. now repeat split.
  - intros w1 w2 w3 (A1 & B1 & C1) (A2 & B2 & C2). repeat split; congruence.
Qed.

Global Instance keeps_ok_preorder E : PreOrder (keeps_ok E).
Proof. split; unfold keeps_ok; [intros w H; exact H|intros w1 w2 w3; tauto]. Qed.

Lemma set_sessions_only f w : sessions_only w (set_sessions f w).
Proof. now repeat split. Qed.

Lemma setattr_commute s a1 a2 d1 d2 :
  a1 <> a2 -> setattr (setattr s a1 d1) a2 d2 = setattr (setattr s a2 d2) a1 d1.
Proof.
  intros Hne. unfold setattr. simpl. f_equal; repeat case_decide; congruence.
Qed.

Lemma setattr_twice s a d1 d2 : setattr (setattr s a d1) a d2 = setattr s a d2.
Proof. unfold setattr. simpl. f_equal; repeat case_decide; congruence. Qed.

Lemma stage_map_injective st1 st2 a1 a2 :
  stage_map !! st1 = Some a1 -> stage_map !! st2 = Some a2 -> st1 <> st2 -> a1 <> a2.
Proof.
  intros H1 H2 Hne. apply elem_of_list_to_map_2 in H1, H2.
  repeat (apply elem_of_cons in H1 as [[= -> ->]|H1]);
    try (now apply elem_of_nil in H1);
    repeat (apply elem_of_cons in H2 as [[= -> ->]|H2]);
    try (now apply elem_of_nil in H2);
    first [contradiction | discriminate].
Qed.

Section RegistryWrites.

Variable E : Env.

Lemma ensure_session_only ticket : post (ensure_session E ticket) sessions_only.
Proof. intros w. apply set_sessions_only. Qed.

Lemma write_session_only ticket f : post (write_session ticket f) sessions_only.
Proof.
  intros w. unfold write_session. munfold.
  destruct (sessions w !! ticket); simpl; [apply set_sessions_only|reflexivity].
Qed.

Lemma update_stage_only ticket stage done : post (update_stage E ticket stage done) sessions_only.
Proof.
  apply post_bind; [apply _|apply ensure_session_only|intros _].
  apply post_bind; [apply _| |intros _; apply post_ret; apply _].
  destruct (stage_map !! stage); [apply write_session_only|apply post_ret; apply _].
Qed.

Lemma set_linear_info_only ticket title description :
  post (set_linear_info E ticket title description) sessions_only.
Proof.
  apply post_bind; [apply _|apply ensure_session_only|intros _].
  apply post_bind; [apply _|apply write_session_only|intros _].
  apply post_bind; [apply _|apply write_session_only|intros _].
  apply post_ret; apply _.
Qed.

Lemma set_claude_mode_only ticket mode : post (set_claude_mode E ticket mode) sessions_only.
Proof.
  apply post_bind; [apply _|apply ensure_session_only|intros _].
  apply post_bind; [apply _| |intros _; apply post_ret; apply _].
  destruct (decide _);
    (apply post_bind; [apply _|apply write_session_only|intros _]);
    apply write_session_only.
Qed.

(** X17: a stage update, a metadata update and a mode update for one ticket
    call nothing outside the process, leave every buffer and the client as
    they are, and leave the record of every other ticket as it is, so that
    get_session answers for the other tickets as before. *)
Theorem X17_registry_writes_are_local ticket w :
  forall w',
    (exists stage done, w' = (update_stage E ticket stage done w).2) \/
    (exists title description, w' = (set_linear_info E ticket title description w).2) \/
    (exists mode, w' = (set_claude_mode E ticket mode w).2) ->
    calls w' = calls w /\ output_buffers w' = output_buffers w /\
    llm_client w' = llm_client w /\
    forall t, t <> ticket -> (get_session t w').1 = (get_session t w).1.
Proof.
  intros w' Hop.
  assert (H : sessions_only w w' /\ forall t, t <> ticket -> sessions w' !! t = sessions w !! t).
  { destruct Hop as [(stage & done & ->)|[(title & d & ->)|(mode & ->)]].
    - split; [apply update_stage_only|].
      destruct (update_stage_run E ticket stage done w) as (w1 & -> & _ & Hne). exact Hne.
    - split; [apply set_linear_info_only|].
      destruct (set_linear_info_run E ticket title d w) as (w1 & -> & _ & Hne). exact Hne.
    - split; [apply set_claude_mode_only|].
      destruct (set_claude_mode_run E ticket mode w) as (w1 & -> & _ & Hne). exact Hne. }
  destruct H as ((Hb & Hl & Hc) & Hne).
  split; [exact Hc|]. split; [exact Hb|]. split; [exact Hl|].
  intros t Ht. unfold get_session. munfold. simpl. rewrite (Hne t Ht).
  destruct (sessions w !! t); reflexivity.
Qed.

(** X18: stage updates of one ticket compose as writes to six independent
    flags: two updates of different stages give the same registry in either
    order, and of two updates of the same stage the later one decides. *)
Theorem X18_stage_updates_compose ticket st1 st2 d1 d2 w :
  let after (sa : string) (da : bool) (sb : string) (db : bool) :=
    sessions (update_stage E ticket sb db (update_stage E ticket sa da w).2).2 in
  (st1 <> st2 -> after st1 d1 st2 d2 = after st2 d2 st1 d1) /\
  after st1 d1 st1 d2 = sessions (update_stage E ticket st1 d2 w).2.
Proof.
  cbv zeta.
  assert (Hrun : forall sa da sb db,
    let w2 := (update_stage E ticket sb db (update_stage E ticket sa da w).2).2 in
    sessions w2 !! ticket =
      Some (let s := default (SessionStatus_new E ticket) (sessions w !! ticket) in
            let s1 := match stage_map !! sa with Some a => setattr s a da | None => s end in
            match stage_map !! sb with Some a => setattr s1 a db | None => s1 end) /\
    forall t, t <> ticket -> sessions w2 !! t = sessions w !! t).
  { intros sa da sb db. cbv zeta.
    destruct (update_stage_run E ticket sa da w) as (w1 & -> & H1 & N1). simpl.
    destruct (update_stage_run E ticket sb db w1) as (w2 & -> & H2 & N2). simpl.
    split; [rewrite H2, H1; reflexivity|].
    intros t Ht. now rewrite N2, N1. }
  split.
  - intros Hne. apply map_eq. intros t.
    destruct (Hrun st1 d1 st2 d2) as [A1 B1]. destruct (Hrun st2 d2 st1 d1) as [A2 B2].
    cbv zeta in *.
    destruct (decide (t = ticket)) as [->|Ht]; [|now rewrite B1, B2].
    rewrite A1, A2. f_equal.
    destruct (stage_map !! st1) as [a1|] eqn:E1, (stage_map !! st2) as [a2|] eqn:E2;
      try reflexivity.
    apply setattr_commute. eapply stage_map_injective; eassumption.
  - apply map_eq. intros t.
    destruct (Hrun st1 d1 st1 d2) as [A1 B1]. cbv zeta in *.
    destruct (update_stage_run E ticket st1 d2 w) as (w1 & -> & H1 & N1). simpl.
    destruct (decide (t = ticket)) as [->|Ht]; [|now rewrite B1, N1].
    rewrite A1, H1. f_equal. cbv zeta.
    destruct (stage_map !! st1); [apply setattr_twice|reflexivity].
Qed.

End RegistryWrites.

Lemma X17_registry_writes_are_local_witness :
  let w' := (set_claude_mode env_quiet "T-2" "auto_accept" world_planning).2 in
  calls w' = calls world_planning /\
  (get_session "T-1" w').1 = (get_session "T-1" world_planning).1.
Proof.
  destruct (X17_registry_writes_are_local env_quiet "T-2" world_planning
              (set_claude_mode env_quiet "T-2" "auto_accept" world_planning).2)
    as (H1 & _ & _ & H4).
  - right; right. exists "auto_accept". reflexivity.
  - split; [exact H1|]. apply H4. discriminate.
Defined.

Lemma X18_stage_updates_compose_witness :
  sessions (update_stage env_quiet "T-1" "tasks" false
              (update_stage env_quiet "T-1" "plan" true world_auto).2).2
  = sessions (update_stage env_quiet "T-1" "plan" true
                (update_stage env_quiet "T-1" "tasks" false world_auto).2).2.
Proof.
  destruct (X18_stage_updates_compose env_quiet "T-1" "plan" "tasks" true false world_auto)
    as [H _].
  apply H. discriminate.
Defined.

(** ** Invariants of the registries *)

Section StateOk.

Variable E : Env.

Global Instance keeps_state_ok_preorder : PreOrder (keeps_state_ok E).
Proof. split; unfold keeps_state_ok; [intros w H; exact H|intros w1 w2 w3; tauto]. Qed.

Lemma keeps_state_ok_intro w w' : keeps_ok E w w' -> keeps_bound w w' -> keeps_state_ok E w w'.
Proof. intros H1 H2 [A B]. split; auto. Qed.

Lemma only_calls_keeps_state_ok w w' : only_calls w w' -> keeps_state_ok E w w'.
Proof.
  intros H. apply keeps_state_ok_intro; [|now apply only_calls_keeps_bound].
  destruct H as (Hs & _). intros Hok t s. rewrite Hs. apply Hok.
Qed.

Lemma record_ok_setattr t s attr v : record_ok E t s -> record_ok E t (setattr s attr v).
Proof. intros H. exact H. Qed.

Lemma record_ok_attention t s v : record_ok E t s -> record_ok E t (set_needs_attention v s).
Proof. intros H. exact H. Qed.

Lemma same_but_attention_ok t s s' : same_but_attention s s' -> record_ok E t s -> record_ok E t s'.
Proof.
  unfold same_but_attention, record_ok. intros H.
  destruct s, s'. simpl in *.
  injection H as <- <- <- <- <- <- <- <- <- <- <- <- <- <- <-. auto.
Qed.

Lemma poller_frame_keeps_state_ok ticket w w' :
  poller_frame ticket w w' -> keeps_bound w w' -> keeps_state_ok E w w'.
Proof.
  intros (_ & Ho & Ht) Hb. apply keeps_state_ok_intro; [|exact Hb].
  intros Hok t s Hs. destruct (decide (t = ticket)) as [->|Hne].
  - rewrite Hs in Ht. destruct (sessions w !! ticket) as [s0|] eqn:H0; [|contradiction].
    eapply same_but_attention_ok; [exact Ht|]. now apply Hok.
  - destruct (Ho t Hne) as [Heq _]. rewrite Heq in Hs. now apply Hok.
Qed.

Lemma sessions_only_keeps_bound w w' : sessions_only w w' -> keeps_bound w w'.
Proof. intros (Hb & _) H t b. rewrite Hb. apply H. Qed.

Lemma record_ok_new t : record_ok E t (SessionStatus_new E t).
Proof. split; [reflexivity|]. simpl. split; [split; discriminate|]. repeat split. Qed.

(** a write that leaves one ticket with a sound record and the others alone *)
Lemma local_write_keeps_ok ticket w w' s' :
  sessions w' !! ticket = Some s' -> record_ok E ticket s' ->
  (forall t, t <> ticket -> sessions w' !! t = sessions w !! t) ->
  keeps_ok E w w'.
Proof.
  intros Ht Hrec Hne Hok t s Hs. destruct (decide (t = ticket)) as [->|Hd].
  - rewrite Ht in Hs. now injection Hs as <-.
  - rewrite (Hne t Hd) in Hs. now apply Hok.
Qed.

Lemma default_record_ok ticket w :
  registry_ok E w -> record_ok E ticket (default (SessionStatus_new E ticket) (sessions w !! ticket)).
Proof.
  intros Hok. destruct (sessions w !! ticket) as [s|] eqn:Hs; simpl;
    [now apply Hok|apply record_ok_new].
Qed.

Lemma update_stage_keeps_state_ok ticket stage done :
  post (update_stage E ticket stage done) (keeps_state_ok E).
Proof.
  intros w. apply keeps_state_ok_intro;
    [|apply sessions_only_keeps_bound, update_stage_only].
  destruct (update_stage_run E ticket stage done w) as (w' & -> & Ht & Hne). simpl.
  intros Hok. pose proof (default_record_ok ticket w Hok) as Hd.
  refine (local_write_keeps_ok ticket w w' _ Ht _ Hne Hok).
  cbv zeta. destruct (stage_map !! stage); [now apply record_ok_setattr|exact Hd].
Qed.

Lemma set_linear_info_keeps_state_ok ticket title description :
  post (set_linear_info E ticket title description) (keeps_state_ok E).
Proof.
  intros w. apply keeps_state_ok_intro;
    [|apply sessions_only_keeps_bound, set_linear_info_only].
  destruct (set_linear_info_run E ticket title description w) as (w' & -> & Ht & Hne). simpl.
  intros Hok. pose proof (default_record_ok ticket w Hok) as Hd.
  refine (local_write_keeps_ok ticket w w' _ Ht _ Hne Hok). exact Hd.
Qed.

Lemma set_claude_mode_keeps_state_ok ticket mode :
  post (set_claude_mode E ticket mode) (keeps_state_ok E).
Proof.
  intros w. apply keeps_state_ok_intro;
    [|apply sessions_only_keeps_bound, set_claude_mode_only].
  destruct (set_claude_mode_run E ticket mode w) as (w' & -> & Ht & Hne). simpl.
  intros Hok. pose proof (default_record_ok ticket w Hok) as (Hd & _ & Hst).
  refine (local_write_keeps_ok ticket w w' _ Ht _ Hne Hok). cbv zeta.
  destruct (decide _); (split; [exact Hd|]); (split; [|exact Hst]); simpl;
    split; try discriminate; reflexivity.
Qed.

Lemma init_sessions_keeps_state_ok tickets : post (init_sessions E tickets) (keeps_state_ok E).
Proof.
  intros w.
  destruct (init_sessions_run E tickets w) as (w' & -> & _ & _ & Hkeep & Hnew & Hnone & Hbuf).
  simpl. intros [Hok Hbd]. split.
  - intros t s Hs. destruct (sessions w !! t) as [s0|] eqn:H0.
    + rewrite (Hkeep t s0 H0) in Hs. injection Hs as <-. now apply Hok.
    + destruct (decide (t ∈ tickets)) as [Hin|Hin].
      * destruct (Hnew t H0 Hin) as [Hn _]. rewrite Hn in Hs. injection Hs as <-.
        apply record_ok_new.
      * rewrite (Hnone t H0 Hin) in Hs. discriminate.
  - intros t b Hb. destruct (sessions w !! t) as [s0|] eqn:H0.
    + rewrite Hbuf in Hb by (left; rewrite H0; eauto). now apply (Hbd t).
    + destruct (decide (t ∈ tickets)) as [Hin|Hin].
      * destruct (Hnew t H0 Hin) as [_ Hn]. rewrite Hn in Hb. injection Hb as <-.
        simpl. unfold MAX_BUFFER_LINES. lia.
      * rewrite Hbuf in Hb by now right. now apply (Hbd t).
Qed.

Lemma start_session_keeps_state_ok tickets : post (start_session E tickets) (keeps_state_ok E).
Proof.
  unfold start_session.
  destruct (negb (spawn_script_exists E)); [apply post_ret; apply _|].
  apply post_bind; [apply _| |intros [rc out err|msg]].
  - eapply post_weaken; [apply only_calls_keeps_state_ok|apply call_subprocess_calls].
  - apply post_bind; [apply _|apply init_sessions_keeps_state_ok|intros _].
    apply post_ret; apply _.
  - apply post_raise; apply _.
Qed.

Lemma stream_output_step_keeps_state_ok ticket stored :
  post (stream_output_step E ticket stored) (keeps_state_ok E).
Proof.
  intros w. apply (poller_frame_keeps_state_ok ticket).
  - apply (stream_output_step_post E (poller_frame ticket) ticket stored
             (only_calls_poller_frame ticket) (handle_new_content_poller_frame E ticket)).
  - apply (stream_output_step_post E keeps_bound ticket stored).
    + apply only_calls_keeps_bound.
    + intros. apply handle_new_content_keeps_bound.
Qed.

Lemma serve_keeps_state_ok r : post (serve E r) (keeps_state_ok E).
Proof.
  destruct r as [t stage d|t title d|t mode|tickets|t stored]; simpl;
    (apply post_bind; [apply _| |intros _; apply post_ret; apply _]).
  - apply update_stage_keeps_state_ok.
  - apply set_linear_info_keeps_state_ok.
  - apply set_claude_mode_keeps_state_ok.
  - apply start_session_keeps_state_ok.
  - apply stream_output_step_keeps_state_ok.
Qed.

Lemma init_llm_client_keeps_state_ok getenv : post (init_llm_client getenv) (keeps_state_ok E).
Proof.
  intros w. unfold init_llm_client.
  destruct (getenv "AZ_OPENAI_API_BASE") as [b|]; [|reflexivity].
  destruct (getenv "AZ_OPENAI_API_KEY") as [k|]; [|reflexivity].
  destruct (PyStr.truthy b && PyStr.truthy k); [|reflexivity].
  intros H. exact H.
Qed.

Lemma discover_sessions_keeps_state_ok lines : post (discover_sessions E lines) (keeps_state_ok E).
Proof. intros w. rewrite discover_as_init. apply init_sessions_keeps_state_ok. Qed.

Lemma lifespan_startup_keeps_state_ok getenv :
  post (lifespan_startup E getenv) (keeps_state_ok E).
Proof.
  apply post_bind; [apply _|apply init_llm_client_keeps_state_ok|intros _].
  apply post_bind; [apply _| |intros [rc out err|msg]].
  - eapply post_weaken; [apply only_calls_keeps_state_ok|apply call_subprocess_calls].
  - destruct (bool_decide _); [apply discover_sessions_keeps_state_ok|apply post_ret; apply _].
  - apply post_raise; apply _.
Qed.

Lemma send_input_calls ticket text : post (send_input E ticket text) only_calls.
Proof.
  apply post_try_except; [apply _| |intros e; apply post_ret; apply _].
  repeat (apply post_bind; [apply _|apply run_checked_calls|intros _]).
  apply post_ret; apply _.
Qed.

Lemma interrupt_session_calls ticket : post (interrupt_session E ticket) only_calls.
Proof.
  apply post_try_except; [apply _| |intros e; apply post_ret; apply _].
  apply post_bind; [apply _|apply run_checked_calls|intros _].
  apply post_ret; apply _.
Qed.

End StateOk.

(** ** Worktrees, start-all and kill-all *)

Lemma dict_set_keys {V} k (v : V) d n :
  n ∈ (dict_set k v d).*1 <-> n = k \/ n ∈ d.*1.
Proof.
  induction d as [|[k' v'] d IH]; simpl.
  - rewrite elem_of_cons, elem_of_nil. tauto.
  - destruct (decide (k' = k)) as [->|Hne]; simpl.
    + rewrite !elem_of_cons. tauto.
    + rewrite !elem_of_cons, IH. tauto.
Qed.

Lemma dict_set_items {V} k (v : V) d n x :
  (n, x) ∈ dict_set k v d -> (n, x) = (k, v) \/ (n, x) ∈ d.
Proof.
  induction d as [|[k' v'] d IH]; simpl.
  - rewrite elem_of_cons, elem_of_nil. tauto.
  - destruct (decide (k' = k)) as [->|Hne]; simpl.
    + rewrite !elem_of_cons. tauto.
    + rewrite !elem_of_cons. intros [H|H]; [tauto|]. destruct (IH H); tauto.
Qed.

Global Instance deletes_only_preorder : PreOrder deletes_only.
Proof.
  split.
  - intros h. split; [reflexivity|]. intros t. repeat split; now left.
  - intros h1 h2 h3 [L1 H1] [L2 H2]. split; [congruence|].
    intros t. destruct (H1 t) as (A1 & B1 & C1). destruct (H2 t) as (A2 & B2 & C2).
    repeat split.
    + destruct A2 as [->| ->]; [exact A1|now right].
    + destruct B2 as [->| ->]; [exact B1|now right].
    + destruct C2 as [->| ->]; [exact C1|now right].
Qed.

Lemma forgotten_stays t h h' : deletes_only h h' -> forgotten t h -> forgotten t h'.
Proof.
  intros [_ H] (A & B & C). destruct (H t) as (A' & B' & C').
  repeat split.
  - destruct A' as [->| ->]; auto.
  - destruct B' as [->| ->]; auto.
  - destruct C' as [->| ->]; auto.
Qed.

Lemma only_calls_deletes_only h w' :
  only_calls (hub_world h) w' -> deletes_only h (mkHub w' (ws_connections h)).
Proof.
  intros (Hs & Hb & Hl & _). split; [exact Hl|]. simpl. rewrite Hs, Hb.
  intros t. repeat split; now left.
Qed.

Lemma forget_deletes_only t h : deletes_only h (forget t h).
Proof.
  split; [reflexivity|]. intros x. unfold forget; simpl.
  destruct (decide (t = x)) as [->|Hne].
  - rewrite !lookup_delete_eq. repeat split; now right.
  - rewrite !lookup_delete_ne by exact Hne. repeat split; now left.
Qed.

Lemma forget_forgotten t h : forgotten t (forget t h).
Proof. unfold forgotten, forget; simpl. now rewrite !lookup_delete_eq. Qed.

Lemma forget_other t x h :
  t <> x ->
  sessions (hub_world (forget t h)) !! x = sessions (hub_world h) !! x /\
  output_buffers (hub_world (forget t h)) !! x = output_buffers (hub_world h) !! x /\
  ws_connections (forget t h) !! x = ws_connections h !! x.
Proof. intros Hne. unfold forget; simpl. now rewrite !lookup_delete_ne by exact Hne. Qed.

Section Worktrees.

Variable E : Env.

Lemma scan_worktrees_calls dir entries worktrees :
  post (scan_worktrees E dir entries worktrees) only_calls.
Proof.
  revert worktrees. induction entries as [|[name is_dir] rest IH]; intros worktrees; simpl.
  - apply post_ret; apply _.
  - destruct is_dir; [|apply IH].
    apply post_bind; [apply _|apply call_subprocess_calls|intros [rc out err|msg]].
    + apply post_bind; [apply _|apply post_gets; apply _|intros ss]. apply IH.
    + apply post_raise; apply _.
Qed.

Lemma get_worktrees_calls fs : post (get_worktrees E fs) only_calls.
Proof.
  unfold get_worktrees. destruct (negb _); [apply post_ret; apply _|].
  apply scan_worktrees_calls.
Qed.

Lemma scan_worktrees_result dir entries worktrees w res w' :
  scan_worktrees E dir entries worktrees w = (Ok res, w') ->
  (forall name, name ∈ res.*1 <-> name ∈ worktrees.*1 \/ (name, true) ∈ entries) /\
  (forall name wt, (name, wt) ∈ res ->
     (name, wt) ∈ worktrees \/
     (wt_path wt = dir +:+ "/" +:+ name /\
      wt_in_sessions wt = bool_decide (is_Some (sessions w !! name)))).
Proof.
  revert worktrees w. induction entries as [|[name is_dir] rest IH]; intros worktrees w; simpl.
  - intros [= <- <-]. split.
    + intros n. rewrite elem_of_nil. tauto.
    + intros n wt H. now left.
  - destruct is_dir.
    + unfold mbind at 1, M_bind at 1, call_subprocess.
      destruct (subprocess_run E _ _) as [rc out err|msg]; [|discriminate].
      unfold mbind at 1, M_bind at 1, gets. intros Hscan.
      destruct (IH _ _ Hscan) as [Hn Hi]. split.
      * intros n. rewrite Hn, dict_set_keys, elem_of_cons.
        split; [intros [[->|H]|H]|intros [H|[[= -> ]|H]]]; tauto.
      * intros n wt Hin. destruct (Hi n wt Hin) as [Hd|Hd]; [|now right].
        apply dict_set_items in Hd as [[= -> ->]|Hd]; [right|now left].
        simpl. split; reflexivity.
    + intros Hscan. destruct (IH _ _ Hscan) as [Hn Hi]. split.
      * intros n. rewrite Hn, elem_of_cons.
        split; [intros [H|H]|intros [H|[[=]|H]]]; tauto.
      * exact Hi.
Qed.

Lemma start_session_sessions tickets w :
  (forall t s, sessions w !! t = Some s ->
     sessions (start_session E tickets w).2 !! t = Some s) /\
  (forall t, sessions w !! t = None ->
     is_Some (sessions (start_session E tickets w).2 !! t) -> t ∈ tickets).
Proof.
  assert (H : exists wx, (start_session E tickets w).2 = wx /\
            (forall t s, sessions w !! t = Some s -> sessions wx !! t = Some s) /\
            (forall t, sessions w !! t = None -> is_Some (sessions wx !! t) -> t ∈ tickets)).
  { unfold start_session.
    destruct (negb (spawn_script_exists E)).
    { exists w. split; [reflexivity|]. split; [auto|]. intros t Hn [s Hs]. congruence. }
    unfold mbind at 1, M_bind at 1, call_subprocess.
    destruct (subprocess_run E _ _) as [rc out err|msg].
    2:{ eexists. split; [reflexivity|]. simpl. split; [auto|].
        intros t Hn [s Hs]. congruence. }
    destruct (init_sessions_run E tickets
                (log_call (SubprocessRun ("spawn-sessions.sh" :: tickets)) w))
      as (w' & Hinit & _ & _ & Hkeep & Hnew & Hnone & _).
    unfold mbind, M_bind. rewrite Hinit. exists w'. split; [reflexivity|].
    split; [exact Hkeep|].
    intros t Hn [s Hs]. destruct (decide (t ∈ tickets)) as [Hin|Hin]; [exact Hin|].
    simpl in Hnone. rewrite (Hnone t Hn Hin) in Hs. discriminate. }
  destruct H as (wx & -> & H1 & H2). split; assumption.
Qed.

(** X19: get_worktrees and start_all_sessions. get_worktrees writes to no
    registry; without the worktrees directory it answers the empty dict and
    calls nothing; otherwise the names it reports are the directories of the
    listing, files left out, each with its path and with in_sessions telling
    whether the registry has a record. start_all_sessions answers ok with
    nothing started when the directory is missing, never changes or removes
    a record that exists, and creates records for worktree directories
    only. *)
Theorem X19_worktrees fs w :
  (worktrees_dir_exists fs = false ->
     get_worktrees E fs w = (Ok [], w) /\
     start_all_sessions E fs w
       = (Ok [("ok", JBool true); ("message", JStr "No worktrees to start");
              ("started", JStrs [])], w)) /\
  only_calls w (get_worktrees E fs w).2 /\
  (forall res w', get_worktrees E fs w = (Ok res, w') ->
     worktrees_dir_exists fs = true ->
     (forall name, name ∈ res.*1 <-> (name, true) ∈ worktrees_dir_entries fs) /\
     (forall name wt, (name, wt) ∈ res ->
        wt_path wt = worktrees_dir fs +:+ "/" +:+ name /\
        wt_in_sessions wt = bool_decide (is_Some (sessions w !! name)))) /\
  (let w' := (start_all_sessions E fs w).2 in
   (forall t s, sessions w !! t = Some s -> sessions w' !! t = Some s) /\
   (forall t, sessions w !! t = None -> is_Some (sessions w' !! t) ->
      (t, true) ∈ worktrees_dir_entries fs)).
Proof.
  split; [|split; [|split]].
  - intros Hex. unfold start_all_sessions, get_worktrees. rewrite Hex. simpl.
    split; reflexivity.
  - apply get_worktrees_calls.
  - intros res w' Hrun Hex. unfold get_worktrees in Hrun. rewrite Hex in Hrun. simpl in Hrun.
    destruct (scan_worktrees_result _ _ _ _ _ _ Hrun) as [Hn Hi]. split.
    + intros n. rewrite Hn. simpl. rewrite elem_of_nil. tauto.
    + intros n wt Hin. destruct (Hi n wt Hin) as [Hd|Hd]; [|exact Hd].
      now apply elem_of_nil in Hd.
  - cbv zeta. unfold start_all_sessions. unfold mbind, M_bind.
    assert (Hsame : forall w2, sessions w2 = sessions w ->
              (forall t s, sessions w !! t = Some s -> sessions w2 !! t = Some s) /\
              (forall t, sessions w !! t = None -> is_Some (sessions w2 !! t) ->
                 (t, true) ∈ worktrees_dir_entries fs)).
    { intros w2 Heq. rewrite Heq. split; [auto|]. intros t Hn [s Hs']. congruence. }
    pose proof (get_worktrees_calls fs w) as (Hs & _).
    destruct (get_worktrees E fs w) as [[res|e] w1] eqn:Hrun; simpl in Hs.
    2:{ apply Hsame. exact Hs. }
    set (tickets := (filter (fun p => wt_active p.2 = false) res).*1).
    assert (Hsub : forall t, t ∈ tickets -> (t, true) ∈ worktrees_dir_entries fs).
    { intros t Ht. unfold get_worktrees in Hrun.
      destruct (worktrees_dir_exists fs); simpl in Hrun.
      - destruct (scan_worktrees_result _ _ _ _ _ _ Hrun) as [Hn _].
        assert (Hin : t ∈ res.*1).
        { unfold tickets in Ht. apply list_elem_of_fmap in Ht as ([n wt] & -> & Hf).
          apply list_elem_of_filter in Hf as [_ Hf]. apply list_elem_of_fmap. now exists (n, wt). }
        apply Hn in Hin as [Hin|Hin]; [now apply elem_of_nil in Hin|exact Hin].
      - injection Hrun as <- <-. unfold tickets in Ht. simpl in Ht.
        now apply elem_of_nil in Ht. }
    destruct (start_session_sessions tickets w1) as [Hkeep Hnew].
    rewrite Hs in Hkeep, Hnew.
    destruct tickets as [|t0 rest] eqn:Htk; [apply Hsame; exact Hs|].
    rewrite <- Htk in *. clearbody tickets.
    split; [exact Hkeep|]. intros t Hn Hsome. apply Hsub. now apply Hnew.
Qed.

Lemma kill_tmux_calls ticket : post (kill_tmux E ticket) only_calls.
Proof.
  apply post_bind; [apply _|apply call_subprocess_calls|intros [rc out err|msg]].
  - destruct (bool_decide _); [|apply post_ret; apply _].
    apply post_bind; [apply _|apply run_checked_calls|intros _]. apply post_ret; apply _.
  - apply post_raise; apply _.
Qed.

Lemma kill_loop_spec tickets killed errors h :
  (forall t, t ∈ killed -> forgotten t h) ->
  let rep := (kill_loop E tickets killed errors h).1 in
  let h' := (kill_loop E tickets killed errors h).2 in
  deletes_only h h' /\
  kr_ok rep = bool_decide (kr_errors rep = []) /\
  (exists new, kr_errors rep = errors ++ new /\
     forall t, t ∈ tickets -> forgotten t h' \/ t ∈ new.*1) /\
  (forall t, t ∈ kr_killed rep -> forgotten t h') /\
  (forall t, t ∉ tickets ->
     sessions (hub_world h') !! t = sessions (hub_world h) !! t /\
     output_buffers (hub_world h') !! t = output_buffers (hub_world h) !! t /\
     ws_connections h' !! t = ws_connections h !! t).
Proof.
  revert killed errors h.
  induction tickets as [|t0 rest IH]; intros killed errors h Hk; cbv zeta.
  - simpl. split; [reflexivity|]. split; [reflexivity|]. split.
    + exists []. split; [now rewrite app_nil_r|]. intros t Ht. now apply elem_of_nil in Ht.
    + split; [exact Hk|]. auto.
  - simpl. destruct (bool_decide (t0 ∈ killed)) eqn:Hin.
    + apply bool_decide_eq_true in Hin.
      destruct (IH killed errors h Hk) as (Hd & Hok & (new & Hnew & Hall) & Hkill & Hrest).
      split; [exact Hd|]. split; [exact Hok|]. split; [|split; [exact Hkill|]].
      * exists new. split; [exact Hnew|]. intros t Ht.
        apply elem_of_cons in Ht as [->|Ht]; [|now apply Hall].
        left. eapply forgotten_stays; [exact Hd|now apply Hk].
      * intros t Ht. apply Hrest. intros Hr. apply Ht. now right.
    + clear Hin. pose proof (kill_tmux_calls t0 (hub_world h)) as Hoc.
      destruct (kill_tmux E t0 (hub_world h)) as [[was_live|e] w1]; simpl in Hoc.
      * set (h1 := forget t0 (mkHub w1 (ws_connections h))).
        assert (Hd1 : deletes_only h h1).
        { etransitivity; [apply (only_calls_deletes_only h w1 Hoc)|apply forget_deletes_only]. }
        assert (Hf1 : forgotten t0 h1) by apply forget_forgotten.
        assert (Hk1 : forall t, t ∈ (if was_live then killed ++ [t0] else killed) ->
                        forgotten t h1).
        { intros t Ht. destruct was_live.
          - apply elem_of_app in Ht as [Ht|Ht].
            + eapply forgotten_stays; [exact Hd1|now apply Hk].
            + apply list_elem_of_singleton in Ht as ->. exact Hf1.
          - eapply forgotten_stays; [exact Hd1|now apply Hk]. }
        destruct (IH _ errors h1 Hk1) as (Hd & Hok & (new & Hnew & Hall) & Hkill & Hrest).
        split; [etransitivity; eassumption|]. split; [exact Hok|].
        split; [|split; [exact Hkill|]].
        -- exists new. split; [exact Hnew|]. intros t Ht.
           apply elem_of_cons in Ht as [->|Ht]; [|now apply Hall].
           left. eapply forgotten_stays; [exact Hd|exact Hf1].
        -- intros t Ht.
           assert (Hne : t0 <> t) by (intros ->; apply Ht; now left).
           destruct (Hrest t) as (A & B & C); [intros Hr; apply Ht; now right|].
           destruct (forget_other t0 t (mkHub w1 (ws_connections h)) Hne) as (A1 & B1 & C1).
           destruct Hoc as (Hs & Hb & _). split; [|split].
           ++ rewrite A. unfold h1. rewrite A1. simpl. now rewrite Hs.
           ++ rewrite B. unfold h1. rewrite B1. simpl. now rewrite Hb.
           ++ rewrite C. unfold h1. now rewrite C1.
      * set (h1 := mkHub w1 (ws_connections h)).
        assert (Hd1 : deletes_only h h1) by apply (only_calls_deletes_only h w1 Hoc).
        assert (Hk1 : forall t, t ∈ killed -> forgotten t h1).
        { intros t Ht. eapply forgotten_stays; [exact Hd1|now apply Hk]. }
        destruct (IH killed (errors ++ [(t0, exn_str e)]) h1 Hk1)
          as (Hd & Hok & (new & Hnew & Hall) & Hkill & Hrest).
        split; [etransitivity; eassumption|]. split; [exact Hok|].
        split; [|split; [exact Hkill|]].
        -- exists ((t0, exn_str e) :: new). split; [now rewrite Hnew, <- app_assoc|].
           intros t Ht. apply elem_of_cons in Ht as [->|Ht].
           ++ right. simpl. now left.
           ++ destruct (Hall t Ht) as [H|H]; [now left|right]. simpl. now right.
        -- intros t Ht.
           destruct (Hrest t) as (A & B & C); [intros Hr; apply Ht; now right|].
           destruct Hoc as (Hs & Hb & _). split; [|split].
           ++ rewrite A. unfold h1. simpl. now rewrite Hs.
           ++ rewrite B. unfold h1. simpl. now rewrite Hb.
           ++ rewrite C. reflexivity.
Qed.

Lemma kill_all_sessions_deletes_only fs keys h :
  deletes_only h (kill_all_sessions E fs keys h).2.
Proof.
  unfold kill_all_sessions.
  pose proof (get_worktrees_calls fs (hub_world h)) as Hoc.
  destruct (get_worktrees E fs (hub_world h)) as [[res|e] w1]; simpl in Hoc.
  - pose proof (kill_loop_spec (keys ++ res.*1) [] [] (mkHub w1 (ws_connections h))) as Hspec.
    destruct Hspec as (Hd & _).
    { intros t Ht. now apply elem_of_nil in Ht. }
    destruct (kill_loop E (keys ++ res.*1) [] [] (mkHub w1 (ws_connections h))) as [rep h'].
    simpl in *. etransitivity; [apply (only_calls_deletes_only h w1 Hoc)|exact Hd].
  - apply (only_calls_deletes_only h w1 Hoc).
Qed.


End Worktrees.

Lemma X19_worktrees_witness :
  start_all_sessions env_quiet fs_none world_auto
    = (Ok [("ok", JBool true); ("message", JStr "No worktrees to start");
           ("started", JStrs [])], world_auto) /\
  exists res w',
    get_worktrees env_quiet fs_two world_auto = (Ok res, w') /\
    "T-3" ∈ res.*1 /\ "README.md" ∉ res.*1.
Proof.
  destruct (X19_worktrees env_quiet fs_none world_auto) as (H1 & _ & _ & _).
  destruct (X19_worktrees env_quiet fs_two world_auto) as (_ & _ & H3 & _).
  split; [apply H1; reflexivity|].
  destruct (get_worktrees env_quiet fs_two world_auto) as [[res|e] w'] eqn:Hrun;
    [|vm_compute in Hrun; discriminate].
  destruct (H3 res w' eq_refl eq_refl) as [Hn _].
  exists res, w'. split; [reflexivity|]. split.
  - apply Hn. simpl. apply elem_of_cons. now left.
  - intros Hin. apply Hn in Hin. simpl in Hin.
    apply elem_of_cons in Hin as [Hin|Hin]; [discriminate|].
    apply elem_of_cons in Hin as [Hin|Hin]; [discriminate|].
    apply elem_of_cons in Hin as [Hin|Hin]; [discriminate|].
    now apply elem_of_nil in Hin.
Defined.


(** ** Every reachable state *)

Lemma deletes_only_state_ok E h h' :
  deletes_only h h' -> state_ok E (hub_world h) -> state_ok E (hub_world h').
Proof.
  intros [_ Hd] [Hok Hbd]. split.
  - intros t s Hs. destruct (Hd t) as ([A|A] & _); rewrite A in Hs; [|discriminate].
    now apply Hok.
  - intros t b Hb. destruct (Hd t) as (_ & [B|B] & _); rewrite B in Hb; [|discriminate].
    now apply (Hbd t).
Qed.

Lemma state_ok_empty E : state_ok E world_empty.
Proof.
  split.
  - intros t s H. simpl in H. now rewrite lookup_empty in H.
  - intros t b H. simpl in H. now rewrite lookup_empty in H.
Qed.

Section Reachable.

Variable E : Env.

Lemma start_all_sessions_keeps_state_ok fs : post (start_all_sessions E fs) (keeps_state_ok E).
Proof.
  apply post_bind; [apply _| |intros res].
  - eapply post_weaken; [apply only_calls_keeps_state_ok|apply get_worktrees_calls].
  - destruct ((filter _ res).*1); [apply post_ret; apply _|].
    apply start_session_keeps_state_ok.
Qed.

Lemma perform_keeps_state_ok op h :
  state_ok E (hub_world h) -> state_ok E (hub_world (perform E op h)).
Proof.
  destruct op as [r|getenv|t text|t|fs|fs keys]; simpl.
  - apply serve_keeps_state_ok.
  - apply lifespan_startup_keeps_state_ok.
  - apply only_calls_keeps_state_ok, send_input_calls.
  - apply only_calls_keeps_state_ok, interrupt_session_calls.
  - apply start_all_sessions_keeps_state_ok.
  - apply deletes_only_state_ok. apply kill_all_sessions_deletes_only.
Qed.

(** X21: in every state the server reaches from its empty start through any
    sequence of operations (startup, the registry writes, session starts,
    poller passes, send and interrupt, start-all, kill-all), whatever tmux,
    the classifier, the observers and the file system answer: every record
    is filed under its own ticket, its auto_accept is true exactly when its
    claude_mode is AUTO_ACCEPT, its lifecycle state is still STARTING with no
    message, its updated_at is still the time the class was loaded and
    in_grid is false, and no buffer holds more than 200 lines. *)
Theorem X21_reachable_states_ok (ops : list Operation) :
  let h := foldl (fun h op => perform E op h) hub_empty ops in
  (forall t s, sessions (hub_world h) !! t = Some s ->
     ticket s = t /\
     (auto_accept s = true <-> claude_mode s = ClaudeMode.AUTO_ACCEPT) /\
     state s = SessionState.STARTING /\ message s = None /\
     updated_at s = class_time E /\ in_grid s = false) /\
  (forall t b, output_buffers (hub_world h) !! t = Some b -> length b <= 200).
Proof.
  cbv zeta.
  assert (H : forall h, state_ok E (hub_world h) ->
            state_ok E (hub_world (foldl (fun h op => perform E op h) h ops))).
  { induction ops as [|op ops IH]; intros h Hh; [exact Hh|].
    simpl. apply IH. now apply perform_keeps_state_ok. }
  exact (H hub_empty (state_ok_empty E)).
Qed.

End Reachable.

(** ** A delivery that fails is tried again *)

Section Retry.

Variable E : Env.

Lemma step_delivery_raises ticket stored w current err :
  subprocess_run E (length (calls w)) (capture_argv ticket) = Completed 0 current err ->
  PyStr.truthy (PyStr.strip (new_content_of stored current)) = true ->
  (forall n ev, exists msg, ws_send_json E n ev = SendRaised msg) ->
  (stream_output_step E ticket stored w).1 = Ok (Continue stored).
Proof.
  intros Hcap Hne Hraise. unfold stream_output_step, try_except.
  rewrite (stream_output_try_run E _ _ _ _ _ Hcap). cbv zeta. rewrite Hne.
  destruct (handle_new_content_run E ticket current (new_content_of stored current)
              (log_call (SubprocessRun (capture_argv ticket)) w))
    as (accepted & w2 & att & w3 & ev & _ & _ & _ & _ & _ & Hrun).
  unfold mbind, M_bind, mret, M_ret. rewrite Hrun. unfold websocket_send_json.
  destruct (Hraise (length (calls (update_attention ticket att w3).2)) ev) as [msg ->].
  reflexivity.
Qed.

(** X22: while the pane shows the same content and the delivery to the
    observer raises an error that is not a disconnect, every pass starts from
    the same stored snapshot, finds the same delta and appends its lines to
    the buffer again: after two such passes the buffer holds them twice. *)
Theorem X22_failed_delivery_repeats ticket stored w current :
  (forall n, exists err,
     subprocess_run E n (capture_argv ticket) = Completed 0 current err) ->
  PyStr.truthy (PyStr.strip (new_content_of stored current)) = true ->
  (forall n ev, exists msg, ws_send_json E n ev = SendRaised msg) ->
  let delta := new_content_of stored current in
  let w2 := (stream_output E 2 ticket stored w).2 in
  (stream_output E 2 ticket stored w).1 = Ok None /\
  output_buffers w2 !! ticket =
    Some (buffer_append
            (buffer_append (default [] (output_buffers w !! ticket)) delta) delta).
Proof.
  intros Hcap Hne Hraise. cbv zeta.
  destruct (Hcap (length (calls w))) as [err1 Hc1].
  pose proof (step_delivery_raises ticket stored w current err1 Hc1 Hne Hraise) as Hr1.
  pose proof (pass_effects E ticket stored w current err1 Hc1 Hne) as [Hb1 _].
  cbv zeta in Hb1.
  cbn [stream_output]. unfold mbind at 1 3, M_bind at 1 3.
  destruct (stream_output_step E ticket stored w) as [r1 w1]. simpl in Hr1, Hb1. subst r1.
  destruct (Hcap (length (calls w1))) as [err2 Hc2].
  pose proof (step_delivery_raises ticket stored w1 current err2 Hc2 Hne Hraise) as Hr2.
  pose proof (pass_effects E ticket stored w1 current err2 Hc2 Hne) as [Hb2 _].
  cbv zeta in Hb2.
  unfold mbind, M_bind.
  destruct (stream_output_step E ticket stored w1) as [r2 w2]. simpl in Hr2, Hb2. subst r2.
  simpl. split; [reflexivity|].
  rewrite Hb2, lookup_insert_eq, Hb1, lookup_insert_eq. reflexivity.
Qed.

(** interrupt_session never raises: it issues the one call that sends C-c and
    answers ok = true when tmux exits with 0, ok = false with the error
    otherwise *)
Lemma interrupt_session_run ticket w :
  exists resp,
    interrupt_session E ticket w
      = (Ok resp, log_call (SubprocessRun (send_keys ticket ["C-c"])) w) /\
    (forall out err,
       subprocess_run E (length (calls w)) (send_keys ticket ["C-c"]) = Completed 0 out err ->
       resp = [("ok", JBool true)]) /\
    ((forall out err,
        subprocess_run E (length (calls w)) (send_keys ticket ["C-c"]) <> Completed 0 out err) ->
     exists msg, resp = [("ok", JBool false); ("error", JStr msg)]).
Proof.
  unfold interrupt_session, try_except, run_checked, call_subprocess. munfold.
  destruct (subprocess_run E _ _) as [rc out err|msg] eqn:Hrun.
  - destruct (decide (rc = 0%Z)) as [->|Hrc]; eexists; (split; [reflexivity|]); split.
    + reflexivity.
    + intros H. exfalso. now apply (H out err).
    + intros o e [= ? ? ?]. contradiction.
    + intros _. eauto.
  - eexists. split; [reflexivity|]. split; [discriminate|]. intros _. eauto.
Qed.

End Retry.

Lemma X22_failed_delivery_repeats_witness :
  output_buffers (stream_output env_send_error 2 "T-1" "" world_empty).2 !! "T-1"
    = Some ["hello"; "hello"].
Proof.
  destruct (X22_failed_delivery_repeats env_send_error "T-1" "" world_empty "hello")
    as [_ H].
  - intros n. exists "". reflexivity.
  - vm_compute. reflexivity.
  - intros n ev. exists "connection closed". reflexivity.
  - rewrite H. vm_compute. reflexivity.
Defined.

Lemma X8_send_input_sequence_witness :
  send_input env_tmux_fails "T-1" "yes" world_auto
    = (Ok [("ok", JBool false);
           ("error", JStr "Command returned non-zero exit status 1.")],
       add_calls [SubprocessRun ["tmux"; "send-keys"; "-t"; "T-1"; "C-u"]] world_auto) /\
  send_input env_quiet "T-1" "yes" world_auto
    = (Ok [("ok", JBool true)],
       add_calls [SubprocessRun ["tmux"; "send-keys"; "-t"; "T-1"; "C-u"];
                  SubprocessRun ["tmux"; "send-keys"; "-t"; "T-1"; "-l"; "yes"];
                  SubprocessRun ["tmux"; "send-keys"; "-t"; "T-1"; "Enter"]] world_auto).
Proof.
  split.
  - exact (X8_send_input_sequence env_tmux_fails "T-1" "yes" world_auto).
  - exact (X8_send_input_sequence env_quiet "T-1" "yes" world_auto).
Defined.

Lemma X21_reachable_states_ok_witness :
  exists s,
    sessions (hub_world (perform env_quiet (OpRequest (ReqSetMode "T-1" "auto_accept"))
                           hub_empty)) !! "T-1" = Some s /\
    ticket s = "T-1" /\ state s = SessionState.STARTING.
Proof.
  destruct (sessions (hub_world (perform env_quiet
                                   (OpRequest (ReqSetMode "T-1" "auto_accept")) hub_empty))
              !! "T-1") as [s|] eqn:Hs; [|vm_compute in Hs; discriminate].
  destruct (X21_reachable_states_ok env_quiet [OpRequest (ReqSetMode "T-1" "auto_accept")])
    as [H _].
  destruct (H "T-1" s Hs) as (H1 & _ & H3 & _). exists s. auto.
Defined.

(** ** The stage flags under every operation *)

Section StageWrites.

Variable E : Env.

Lemma init_llm_client_keeps_flags getenv : post (init_llm_client getenv) keeps_flags.
Proof.
  intros w. unfold init_llm_client.
  destruct (getenv "AZ_OPENAI_API_BASE") as [b|]; [|reflexivity].
  destruct (getenv "AZ_OPENAI_API_KEY") as [k|]; [|reflexivity].
  destruct (PyStr.truthy b && PyStr.truthy k); [|reflexivity].
  intros t s Hs. exists s. split; [exact Hs|reflexivity].
Qed.

Lemma lifespan_startup_keeps_flags getenv : post (lifespan_startup E getenv) keeps_flags.
Proof.
  apply post_bind; [apply _|apply init_llm_client_keeps_flags|intros _].
  apply post_bind; [apply _| |intros [rc out err|msg]].
  - eapply post_weaken; [apply only_calls_keeps_flags|apply call_subprocess_calls].
  - destruct (bool_decide _); [|apply post_ret; apply _].
    intros w. rewrite discover_as_init. apply init_sessions_keeps_flags.
  - apply post_raise; apply _.
Qed.

Lemma start_all_sessions_keeps_flags fs : post (start_all_sessions E fs) keeps_flags.
Proof.
  apply post_bind; [apply _| |intros res].
  - eapply post_weaken; [apply only_calls_keeps_flags|apply get_worktrees_calls].
  - destruct ((filter _ res).*1); [apply post_ret; apply _|].
    apply start_session_keeps_flags.
Qed.

Lemma serve_keeps_flags r :
  (forall t stage done, r <> ReqUpdateStage t stage done) -> post (serve E r) keeps_flags.
Proof.
  intros Hr.
  destruct r as [t stage d|t title d|t mode|tickets|t stored]; simpl;
    [exfalso; now apply (Hr t stage d)| | | |];
    (apply post_bind; [apply _| |intros _; apply post_ret; apply _]).
  - apply set_linear_info_keeps_flags.
  - apply set_claude_mode_keeps_flags.
  - apply start_session_keeps_flags.
  - apply stream_output_step_keeps_flags.
Qed.

(** C8 (amended): the six stage flags of a record are written by the stage
    update alone. Every other operation (metadata update, mode update,
    session start, poller pass, startup, send-input, interrupt, start-all,
    kill-all) leaves the six flags of every record exactly as they are, and
    only kill-all deletes a record. The stage update sets the flag its stage
    names to the value it is given, true or false, and changes nothing else
    in the record; an unknown stage name changes nothing. So a stage update
    with done = false clears a flag that was set, and no request other than
    that one ever clears one. *)
Theorem C8_stage_flags :
  (forall op h t s,
     (forall t' stage done, op <> OpRequest (ReqUpdateStage t' stage done)) ->
     sessions (hub_world h) !! t = Some s ->
     match sessions (hub_world (perform E op h)) !! t with
     | Some s' => stage_flags s' = stage_flags s
     | None => exists fs keys, op = OpKillAll fs keys
     end) /\
  (forall tk stage done w s, sessions w !! tk = Some s ->
     exists w',
       update_stage E tk stage done w = (Ok [("ok", JBool true)], w') /\
       sessions w' !! tk =
         Some {| ticket := ticket s; state := state s; message := message s;
                 updated_at := updated_at s;
                 linear_pulled := if decide (stage = "linear") then done else linear_pulled s;
                 specify_done := if decide (stage = "specify") then done else specify_done s;
                 clarify_done := if decide (stage = "clarify") then done else clarify_done s;
                 plan_done := if decide (stage = "plan") then done else plan_done s;
                 tasks_done := if decide (stage = "tasks") then done else tasks_done s;
                 implement_done :=
                   if decide (stage = "implement") then done else implement_done s;
                 auto_accept := auto_accept s; needs_attention := needs_attention s;
                 linear_title := linear_title s;
                 linear_description := linear_description s;
                 in_grid := in_grid s; claude_mode := claude_mode s |} /\
       (forall t, t <> tk -> sessions w' !! t = sessions w !! t)) /\
  (forall r w, (forall t stage, r <> ReqUpdateStage t stage false) ->
     grows_flags w (serve E r w).2).
Proof.
  split; [|split].
  - intros op h t s Hop Hs.
    assert (Hkeep : forall w', keeps_flags (hub_world h) w' ->
              match sessions w' !! t with
              | Some s' => stage_flags s' = stage_flags s
              | None => exists fs keys, op = OpKillAll fs keys
              end).
    { intros w' Hk. destruct (Hk t s Hs) as (s' & -> & Heq). exact Heq. }
    destruct op as [r|getenv|t0 text|t0|fs|fs keys]; simpl.
    + apply Hkeep. apply serve_keeps_flags. intros t' stage done ->.
      now apply (Hop t' stage done).
    + apply Hkeep. apply lifespan_startup_keeps_flags.
    + apply Hkeep. apply only_calls_keeps_flags, send_input_calls.
    + apply Hkeep. apply only_calls_keeps_flags, interrupt_session_calls.
    + apply Hkeep. apply start_all_sessions_keeps_flags.
    + destruct (kill_all_sessions_deletes_only E fs keys h) as [_ Hd].
      destruct (Hd t) as ([-> | ->] & _); [now rewrite Hs|eauto].
  - intros tk stage done w s Hs.
    destruct (update_stage_run E tk stage done w) as (w' & Hr & Hl & Ho).
    exists w'. split; [exact Hr|]. split; [|exact Ho].
    rewrite Hl, Hs. cbv zeta. cbn [default]. now rewrite stage_write_fields.
  - intros r w Hr. revert w.
    change (post (serve E r) grows_flags).
    destruct r as [t stage [|]|t title d|t mode|tickets|t last]; simpl;
      (apply post_bind; [apply _| |intros _; apply post_ret; apply _]).
    + apply update_stage_set_grows.
    + exfalso. now apply (Hr t stage).
    + apply post_keeps_grows, set_linear_info_keeps_flags.
    + apply post_keeps_grows, set_claude_mode_keeps_flags.
    + apply post_keeps_grows, start_session_keeps_flags.
    + apply post_keeps_grows, stream_output_step_keeps_flags.
Qed.

End StageWrites.

Lemma C8_stage_flags_witness :
  (exists s',
     sessions (hub_world (perform env_quiet
                 (OpRequest (ReqSetLinearInfo "T-1" "Title" "Text")) hub_two)) !! "T-1"
       = Some s' /\
     linear_title s' = "Title" /\
     Some (stage_flags s') = stage_flags <$> sessions (hub_world hub_two) !! "T-1") /\
  (exists w',
     update_stage env_quiet "T-1" "plan" false world_auto = (Ok [("ok", JBool true)], w') /\
     (plan_done <$> sessions w' !! "T-1") = Some false) /\
  grows_flags world_auto (serve env_quiet (ReqUpdateStage "T-1" "plan" true) world_auto).2.
Proof.
  destruct (C8_stage_flags env_quiet) as (H1 & H2 & H3).
  split; [|split].
  - destruct (sessions (hub_world hub_two) !! "T-1") as [s|] eqn:Hs;
      [|vm_compute in Hs; discriminate].
    pose proof (H1 (OpRequest (ReqSetLinearInfo "T-1" "Title" "Text")) hub_two "T-1" s) as H.
    destruct (sessions (hub_world (perform env_quiet
                (OpRequest (ReqSetLinearInfo "T-1" "Title" "Text")) hub_two)) !! "T-1")
      as [s'|] eqn:Hs'; [|vm_compute in Hs'; discriminate].
    exists s'. split; [reflexivity|]. split.
    + vm_compute in Hs'. injection Hs' as <-. reflexivity.
    + simpl. f_equal. apply H; [|exact Hs]. intros t' stage done. discriminate.
  - destruct (sessions world_auto !! "T-1") as [s|] eqn:Hs; [|vm_compute in Hs; discriminate].
    destruct (H2 "T-1" "plan" false world_auto s Hs) as (w' & Hr & Hl & _).
    exists w'. split; [exact Hr|]. rewrite Hl. reflexivity.
  - apply H3. intros t stage. discriminate.
Defined.
